(** * Global Password Helper: a shallow embedding of [main.py]

    The program registers the global hot key Ctrl+Alt+Shift+P, pumps the
    Win32 message queue and, on every hot-key message, lets the user pick a
    username from a modal list and copies the matching password to the
    clipboard.

    Modelling decisions, in one place:
    - a Python [str] is a [string]; every character stands for the code
      point with the same number (code points below 256);
    - a decoded JSON document is a [json] value; numbers are integers;
    - every call that leaves the program (file system, Win32, dialogs, the
      clock, [json.loads]) is answered by an environment [OS], which sees the
      history of earlier calls and may answer any call by raising;
    - a computation is a function from a [world] to an [outcome] and a new
      [world]; the world holds the history of calls, the lines printed to
      standard output and the clipboard;
    - the message loop takes a bound on the number of messages it fetches;
      [Pending] is the outcome of a run that is still in the loop when the
      bound is reached. *)

From Stdlib Require Import Ascii.
From stdpp Require Import base numbers list strings gmap pretty.

#[local] Arguments String.append : simpl nomatch.
#[local] Arguments Ascii.eqb : simpl never.
#[local] Set Warnings "-register-all,-clear-no-such-hyp".

(** ** Characters and text *)

Definition LF : ascii := "010"%char.
Definition CR : ascii := "013"%char.
Definition TAB : ascii := "009"%char.
Definition HASH : ascii := "#"%char.
Definition BACKSLASH : ascii := "\"%char.
Definition QUOTE : ascii := "'"%char.
Definition DQUOTE : ascii := "034"%char.

Definition str1 (c : ascii) : string := String c EmptyString.

(** [sep.join(l)] *)
Fixpoint py_join (sep : string) (l : list string) : string :=
  match l with
  | [] => EmptyString
  | [x] => x
  | x :: l' => x +:+ sep +:+ py_join sep l'
  end.

Fixpoint string_mem (c : ascii) (s : string) : bool :=
  match s with
  | EmptyString => false
  | String d s' => Ascii.eqb c d || string_mem c s'
  end.

(** Text-mode reading with [newline=None]: CR LF and a lone CR both arrive
    as LF. *)
Fixpoint universal_newlines (s : string) : string :=
  match s with
  | EmptyString => EmptyString
  | String c s' =>
      if Ascii.eqb c CR then
        match s' with
        | String d s'' =>
            if Ascii.eqb d LF then String LF (universal_newlines s'')
            else String LF (universal_newlines s')
        | EmptyString => String LF EmptyString
        end
      else String c (universal_newlines s')
  end.

(** [fh.readlines()]: the text cut after every LF; each line keeps its LF. *)
Fixpoint readlines (s : string) : list string :=
  match s with
  | EmptyString => []
  | String c s' =>
      if Ascii.eqb c LF then str1 LF :: readlines s'
      else match readlines s' with
           | [] => [str1 c]
           | l :: ls => String c l :: ls
           end
  end.

(** ** The regular expression of [read_nqjson_file]

    A backtracking matcher for the three constructs the pattern uses. *)

Inductive rx : Type :=
| RChar (c : ascii)   (* a literal character *)
| RDotStar            (* [.*], greedy; [.] is any character but LF *)
| REnd.               (* [$] without MULTILINE *)

(** [$] holds at the end of the text and just before a final LF. *)
Definition at_end (s : string) : bool :=
  match s with
  | EmptyString => true
  | String c EmptyString => Ascii.eqb c LF
  | _ => false
  end.

(** Greedy [.*] followed by the continuation [k]: take as many characters
    as possible, give them back one at a time while [k] fails. *)
Fixpoint dot_star (k : string -> option string) (s : string) : option string :=
  match s with
  | EmptyString => k s
  | String c s' =>
      if Ascii.eqb c LF then k s
      else match dot_star k s' with
           | Some r => Some r
           | None => k s
           end
  end.

(** [rmatch p s]: match [p] at the start of [s]; the result is the text
    left after the match. *)
Fixpoint rmatch (p : list rx) : string -> option string :=
  match p with
  | [] => fun s => Some s
  | RChar c :: p' =>
      fun s => match s with
               | String d s' => if Ascii.eqb c d then rmatch p' s' else None
               | EmptyString => None
               end
  | RDotStar :: p' => dot_star (rmatch p')
  | REnd :: p' => fun s => if at_end s then rmatch p' s else None
  end.

(** [regex.sub(EmptyString, s)] for a pattern that cannot match the empty
    text: scan from the left, drop every match, copy every other
    character.  [fuel] bounds the number of steps; [String.length s] steps
    are enough. *)
Fixpoint sub_loop (fuel : nat) (p : list rx) (s : string) : string :=
  match fuel with
  | O => s
  | S fuel' =>
      match s with
      | EmptyString => EmptyString
      | String c s' =>
          match rmatch p s with
          | Some rest => sub_loop fuel' p rest
          | None => String c (sub_loop fuel' p s')
          end
      end
  end.

Definition re_sub (p : list rx) (s : string) : string :=
  sub_loop (String.length s) p s.

(** [re.compile("#.*$")] *)
Definition regex : list rx := [RChar HASH; RDotStar; REnd].

(** ** Python values *)

(** What [json.loads] returns. An object keeps its members in order, as a
    [dict] does; a key is looked up from the left (the decoder leaves one
    member for a key). *)
Inductive json : Type :=
| JNull
| JBool (b : bool)
| JInt (z : Z)
| JStr (s : string)
| JArr (l : list json)
| JObj (l : list (string * json)).

Inductive exn : Type :=
| Exception (msg : string)
| SystemExit (code : Z)
| KeyError (key : string)
| IndexError
| TypeError
| Fault (what : string).  (* raised by a library or by the operating system *)

Global Instance exn_ret : MRet (sum exn) := λ A a, inr a.
Global Instance exn_bind : MBind (sum exn) := λ A B k r,
  match r with
  | inl e => inl e
  | inr a => k a
  end.

Fixpoint mapM_exn {A B : Type} (f : A -> exn + B) (l : list A) : exn + list B :=
  match l with
  | [] => inr []
  | x :: l' => y ← f x; ys ← mapM_exn f l'; mret (y :: ys)
  end.

(** [l[i]] on a list, with Python's negative indices. *)
Definition py_getitem {A : Type} (l : list A) (i : Z) : exn + A :=
  let n := Z.of_nat (length l) in
  let j := if (i <? 0)%Z then (i + n)%Z else i in
  if (j <? 0)%Z then inl IndexError
  else match l !! Z.to_nat j with
       | Some x => inr x
       | None => inl IndexError
       end.

Fixpoint assoc (k : string) (l : list (string * json)) : option json :=
  match l with
  | [] => None
  | (k', v) :: l' => if String.eqb k k' then Some v else assoc k l'
  end.

(** [v[k]] with a [str] key. *)
Definition py_subscript (v : json) (k : string) : exn + json :=
  match v with
  | JObj l => match assoc k l with
              | Some x => inr x
              | None => inl (KeyError k)
              end
  | _ => inl TypeError
  end.

Fixpoint chars (s : string) : list string :=
  match s with
  | EmptyString => []
  | String c s' => str1 c :: chars s'
  end.

(** [for x in v] *)
Definition py_iter (v : json) : exn + list json :=
  match v with
  | JArr l => inr l
  | JObj l => inr (map (λ kv, JStr kv.1) l)
  | JStr s => inr (map JStr (chars s))
  | _ => inl TypeError
  end.

(** [ord(s)] *)
Definition ord (s : string) : exn + Z :=
  match s with
  | String c EmptyString => inr (Z.of_N (N_of_ascii c))
  | _ => inl TypeError
  end.

(** *** [repr] and [str] *)

Definition hex_digit (d : N) : ascii :=
  match String.get (N.to_nat d) "0123456789abcdef" with
  | Some c => c
  | None => "0"%char
  end.

Definition hex2 (n : N) : string :=
  String (hex_digit (n / 16)) (String (hex_digit (n mod 16)) EmptyString).

Definition repr_quote (s : string) : ascii :=
  if string_mem QUOTE s && negb (string_mem DQUOTE s) then DQUOTE else QUOTE.

Definition repr_char (quote c : ascii) : string :=
  let n := N_of_ascii c in
  if Ascii.eqb c quote || Ascii.eqb c BACKSLASH then String BACKSLASH (str1 c)
  else if Ascii.eqb c TAB then "\t"
  else if Ascii.eqb c LF then "\n"
  else if Ascii.eqb c CR then "\r"
  else if (n <? 32)%N || (n =? 127)%N then "\x" +:+ hex2 n
  else if (n <? 127)%N then str1 c
  else if ((n <=? 160)%N || (n =? 173)%N) then "\x" +:+ hex2 n
  else str1 c.

Fixpoint repr_chars (quote : ascii) (s : string) : string :=
  match s with
  | EmptyString => EmptyString
  | String c s' => repr_char quote c +:+ repr_chars quote s'
  end.

Definition repr_str (s : string) : string :=
  let q := repr_quote s in
  String q (repr_chars q s +:+ str1 q).

Fixpoint py_repr (v : json) : string :=
  match v with
  | JNull => "None"
  | JBool b => if b then "True" else "False"
  | JInt z => pretty z
  | JStr s => repr_str s
  | JArr l => "[" +:+ py_join ", " (map py_repr l) +:+ "]"
  | JObj l =>
      "{" +:+ py_join ", "
                (map (λ kv, match kv with
                            | (k, x) => repr_str k +:+ ": " +:+ py_repr x
                            end) l) +:+ "}"
  end.

Definition py_str (v : json) : string :=
  match v with
  | JStr s => s
  | _ => py_repr v
  end.

(** *** [collections.Counter] *)

Definition hashable (v : json) : bool :=
  match v with
  | JArr _ | JObj _ => false
  | _ => true
  end.

(** [==] between hashable values: [bool] is a subtype of [int]. *)
Definition py_key_eqb (a b : json) : bool :=
  match a, b with
  | JNull, JNull => true
  | JStr s, JStr t => String.eqb s t
  | JBool x, JBool y => Bool.eqb x y
  | JInt x, JInt y => (x =? y)%Z
  | JBool x, JInt y => (Z.b2z x =? y)%Z
  | JInt x, JBool y => (x =? Z.b2z y)%Z
  | _, _ => false
  end.

(** [c[k] += 1]; a new key goes to the end, as in a [dict]. *)
Fixpoint counter_incr (k : json) (c : list (json * nat)) : list (json * nat) :=
  match c with
  | [] => [(k, 1)]
  | (k', n) :: c' =>
      if py_key_eqb k' k then (k', S n) :: c' else (k', n) :: counter_incr k c'
  end.

Fixpoint counter_update (l : list json) (c : list (json * nat)) : exn + list (json * nat) :=
  match l with
  | [] => inr c
  | k :: l' => if hashable k then counter_update l' (counter_incr k c) else inl TypeError
  end.

Definition Counter (l : list json) : exn + list (json * nat) := counter_update l [].

(** ** The environment *)

(** [ctypes.wintypes.MSG] *)
Record MSG : Type := mkMSG {
  hWnd : Z;
  message : Z;
  wParam : Z;
  lParam : Z;
  time : Z;
  pt : Z * Z
}.

(** One call that left the program, with its answer: [inl e] when the call
    raised [e], [inr v] when it returned [v]. *)
Inductive event : Type :=
| EvReadText (path : string) (r : exn + string)
| EvJsonLoads (text : string) (r : exn + json)
| EvMessageBox (text title : string) (style : Z) (r : exn + Z)
| EvRegisterHotKey (id modifiers vk : Z) (r : exn + Z)
| EvUnregisterHotKey (id : Z) (r : exn + Z)
| EvGetMessageA (r : exn + Z * MSG)
| EvTranslateMessage (m : MSG) (r : exn + Z)
| EvDispatchMessageA (m : MSG) (r : exn + Z)
| EvDoModal (title : string) (items : list json) (r : exn + Z)
| EvSelectedItem (r : exn + option Z)
| EvOpenClipboard (r : exn + unit)
| EvSetClipboardText (text : string) (format : Z) (r : exn + unit)
| EvCloseClipboard (r : exn + unit)
| EvNow (r : string).

(** The environment answers a call from the history of the calls before
    it.  [os_read_text] is the decoded content of the file, [os_GetMessageA]
    the return value of [GetMessageA] and the [MSG] it left behind,
    [os_selecteditem] the attribute [dlg.selecteditem]. *)
Record OS : Type := {
  os_abspath : string -> string;
  os_read_text : list event -> string -> exn + string;
  os_json_loads : string -> exn + json;
  os_MessageBox : list event -> string -> string -> Z -> exn + Z;
  os_RegisterHotKey : list event -> Z -> Z -> Z -> exn + Z;
  os_UnregisterHotKey : list event -> Z -> exn + Z;
  os_GetMessageA : list event -> MSG -> exn + Z * MSG;
  os_TranslateMessage : list event -> MSG -> exn + Z;
  os_DispatchMessageA : list event -> MSG -> exn + Z;
  os_DoModal : list event -> string -> list json -> exn + Z;
  os_selecteditem : list event -> exn + option Z;
  os_OpenClipboard : list event -> exn + unit;
  os_SetClipboardText : list event -> string -> Z -> exn + unit;
  os_CloseClipboard : list event -> exn + unit;
  os_now : list event -> string
}.

(** What the program has done so far, and the clipboard: whether this
    process holds it open, and the text stored under each format. *)
Record world : Type := mkWorld {
  trace : list event;
  stdout : list string;
  clip_open : bool;
  clipboard : gmap Z string
}.

Definition init_world (clip : gmap Z string) : world :=
  mkWorld [] [] false clip.

(** ** Computations *)

Inductive outcome (A : Type) : Type :=
| Done (a : A)       (* returned [a] *)
| Raised (e : exn)   (* left by the exception [e] *)
| Pending.           (* still in the message loop *)
Arguments Done {A} a.
Arguments Raised {A} e.
Arguments Pending {A}.

Definition M (A : Type) : Type := world -> outcome A * world.

Global Instance M_ret : MRet M := λ A a w, (Done a, w).
Global Instance M_bind : MBind M := λ A B k m w,
  match m w with
  | (Done a, w') => k a w'
  | (Raised e, w') => (Raised e, w')
  | (Pending, w') => (Pending, w')
  end.

Definition raise {A : Type} (e : exn) : M A := λ w, (Raised e, w).

Definition lift {A : Type} (r : exn + A) : M A :=
  match r with
  | inl e => raise e
  | inr a => mret a
  end.

(** [try: body finally: fin].  An exception of [fin] replaces the outcome
    of [body]. *)
Definition try_finally {A : Type} (body : M A) (fin : M unit) : M A := λ w,
  match body w with
  | (Pending, w') => (Pending, w')
  | (o, w') =>
      match fin w' with
      | (Done _, w'') => (o, w'')
      | (Raised e, w'') => (Raised e, w'')
      | (Pending, w'') => (Pending, w'')
      end
  end.

Definition record_event (ev : event) (w : world) : world :=
  mkWorld (trace w ++ [ev]) (stdout w) (clip_open w) (clipboard w).

Definition with_line (line : string) (w : world) : world :=
  mkWorld (trace w) (stdout w ++ [line]) (clip_open w) (clipboard w).

Definition with_open (b : bool) (w : world) : world :=
  mkWorld (trace w) (stdout w) b (clipboard w).

Definition with_text (format : Z) (text : string) (w : world) : world :=
  mkWorld (trace w) (stdout w) (clip_open w) (<[format := text]> (clipboard w)).

(** A call to the environment: ask, record the answer, return or raise. *)
Definition call {A : Type} (answer : list event -> exn + A)
    (ev : exn + A -> event) : M A := λ w,
  let r := answer (trace w) in
  let w' := record_event (ev r) w in
  match r with
  | inl e => (Raised e, w')
  | inr a => (Done a, w')
  end.

Definition print (line : string) : M unit := λ w, (Done tt, with_line line w).

Definition set_clip_open (b : bool) : M unit := λ w, (Done tt, with_open b w).

Definition store_clip (format : Z) (text : string) : M unit := λ w,
  (Done tt, with_text format text w).

(** ** Constants of [win32con] and [win32clipboard] *)

Definition WM_HOTKEY : Z := 786.
Definition IDOK : Z := 1.
Definition MB_OK : Z := 0.
Definition MOD_ALT : Z := 1.
Definition MOD_CONTROL : Z := 2.
Definition MOD_SHIFT : Z := 4.
Definition CF_TEXT : Z := 1.
Definition CF_UNICODETEXT : Z := 13.

Definition MSG0 : MSG := mkMSG 0 0 0 0 0 (0, 0)%Z.

(** ** The program *)

Definition APP_NAME : string := "Global Password Helper".
(** Win32 global hot key: Ctrl+Alt+Shift+P *)
Definition HOT_KEY : string := "P".

(** [@dataclasses.dataclass class Credential]: the annotations say [str],
    nothing checks them. *)
Record Credential : Type := mkCredential {
  username : json;
  password : json
}.

(** [json_line_list[i] = regex.sub(EmptyString, json_line_list[i])] for
    every [i] of [idx], in place. *)
Fixpoint strip_lines (idx : list nat) (json_line_list : list string) : exn + list string :=
  match idx with
  | [] => inr json_line_list
  | i :: idx' =>
      match json_line_list !! i with
      | Some line => strip_lines idx' (<[i := re_sub regex line]> json_line_list)
      | None => inl IndexError
      end
  end.

Definition assert_no_dupe_username (config : json) : exn + unit :=
  credential_list ← py_subscript config "credential_list";
  cdicts ← py_iter credential_list;
  names ← mapM_exn (λ cdict, py_subscript cdict "username") cdicts;
  c ← Counter names;
  let dupe_username_list := map fst (filter (λ kv, 1 < kv.2) c) in
  if (0 <? length dupe_username_list)%nat
  then inl (Exception ("Duplicate username(s): " +:+ py_repr (JArr dupe_username_list)))
  else inr tt.

(** [[Credential(cdict["username"], cdict["password"]) for cdict in
    config["credential_list"]]] *)
Definition load_credentials (config : json) : exn + list Credential :=
  credential_list ← py_subscript config "credential_list";
  cdicts ← py_iter credential_list;
  mapM_exn (λ cdict, u ← py_subscript cdict "username";
                     p ← py_subscript cdict "password";
                     mret (mkCredential u p)) cdicts.

Definition exit_status (o : outcome unit) : option Z :=
  match o with
  | Done _ => Some 0%Z
  | Raised (SystemExit code) => Some code
  | Raised _ => Some 1%Z
  | Pending => None
  end.

Section Program.

Variable os : OS.

(** *** Calls to the environment *)

Definition read_text (path : string) : M string :=
  call (λ t, os_read_text os t path) (EvReadText path).

Definition json_loads (text : string) : M json :=
  call (λ _, os_json_loads os text) (EvJsonLoads text).

Definition MessageBox (text title : string) (style : Z) : M Z :=
  call (λ t, os_MessageBox os t text title style) (EvMessageBox text title style).

Definition RegisterHotKey (id modifiers vk : Z) : M Z :=
  call (λ t, os_RegisterHotKey os t id modifiers vk) (EvRegisterHotKey id modifiers vk).

Definition UnregisterHotKey (id : Z) : M Z :=
  call (λ t, os_UnregisterHotKey os t id) (EvUnregisterHotKey id).

Definition GetMessageA (msg : MSG) : M (Z * MSG) :=
  call (λ t, os_GetMessageA os t msg) EvGetMessageA.

Definition TranslateMessage (msg : MSG) : M Z :=
  call (λ t, os_TranslateMessage os t msg) (EvTranslateMessage msg).

Definition DispatchMessageA (msg : MSG) : M Z :=
  call (λ t, os_DispatchMessageA os t msg) (EvDispatchMessageA msg).

Definition DoModal (title : string) (items : list json) : M Z :=
  call (λ t, os_DoModal os t title items) (EvDoModal title items).

Definition selecteditem : M (option Z) :=
  call (os_selecteditem os) EvSelectedItem.

Definition OpenClipboard : M unit :=
  call (os_OpenClipboard os) EvOpenClipboard ;; set_clip_open true.

(** [win32clipboard.SetClipboardText] takes a [str]; when the call
    succeeds the clipboard holds the text under the format. *)
Definition SetClipboardText (text : json) (format : Z) : M unit :=
  match text with
  | JStr s =>
      call (λ t, os_SetClipboardText os t s format) (EvSetClipboardText s format) ;;
      store_clip format s
  | _ => raise TypeError
  end.

Definition CloseClipboard : M unit :=
  call (os_CloseClipboard os) EvCloseClipboard ;; set_clip_open false.

Definition now : M string :=
  call (λ t, inr (os_now os t))
       (λ r, EvNow match r with inr s => s | inl _ => EmptyString end).

(** *** The functions of [main.py] *)

Definition show_help_then_exit (sys_argv : list string) (error : option string) : M unit :=
  match error with
  | Some e => print ("ERROR: " +:+ e)
  | None => mret tt
  end ;;
  argv0 ← lift (py_getitem sys_argv 0);
  print ("Usage: " +:+ argv0 +:+ " JSON_CONFIG_FILE") ;;
  print APP_NAME ;;
  print ("Registers Win32 global hot key (Ctrl+Alt+Shift+" +:+ HOT_KEY +:+ ")") ;;
  print "Press Win32 global hot key to display dialog with list of usernames (or descriptions)" ;;
  print "Select username to copy password to clipboard" ;;
  print "Ctrl+V to paste password from clipboard to system password dialog" ;;
  print EmptyString ;;
  print "Required Arguments:" ;;
  print "    JSON_CONFIG_FILE: File path to JSON config" ;;
  print "        Ex: C:\src\pw.json" ;;
  raise (SystemExit 1).

Definition read_nqjson_file (file_path : string) : M string :=
  text ← read_text file_path;
  let nqjson_list := readlines (universal_newlines text) in
  json_line_list ← lift (strip_lines (seq 0 (length nqjson_list)) nqjson_list);
  mret (py_join EmptyString json_line_list).

Definition log (msg : string) : M unit :=
  t ← now;
  print (t +:+ ": " +:+ msg).

Definition hot_key_callback (cred_list : list Credential) : M unit :=
  let username_list := map username cred_list in
  code ← DoModal APP_NAME username_list;
  index ← (if (code =? IDOK)%Z then selecteditem else mret None);
  match index with
  | None => log "Win32 dialog cancelled with escape key -- do nothing"
  | Some i =>
      cred ← lift (py_getitem cred_list i);
      OpenClipboard ;;
      try_finally
        (SetClipboardText (password cred) CF_TEXT ;;
         SetClipboardText (password cred) CF_UNICODETEXT)
        CloseClipboard ;;
      log ("Win32 dialog selected username: " +:+ py_str (username cred)
           +:+ ": Password copied to clipboard")
  end.

(** The [while] loop of [main]; [fuel] bounds the number of calls of
    [GetMessageA]. *)
Fixpoint message_loop (fuel : nat) (cred_list : list Credential)
    (hot_key_index : Z) (msg : MSG) : M unit :=
  match fuel with
  | O => λ w, (Pending, w)
  | S fuel' =>
      '(r, msg') ← GetMessageA msg;
      if (r =? 0)%Z then mret tt
      else
        (if (message msg' =? WM_HOTKEY)%Z
         then if (hot_key_index =? wParam msg')%Z
              then hot_key_callback cred_list
              else mret tt
         else mret tt) ;;
        TranslateMessage msg' ;;
        DispatchMessageA msg' ;;
        message_loop fuel' cred_list hot_key_index msg'
  end.

(** [main(sys.argv)]: [show_help_then_exit] reads [sys.argv], which is the
    list [main] was given. *)
Definition main (fuel : nat) (argv : list string) : M unit :=
  print EmptyString ;;
  (if negb (length argv =? 2)%nat
   then show_help_then_exit argv (Some "Missing requirement argument: JSON_CONFIG_FILE")
   else argv0 ← lift (py_getitem argv 0);
        if bool_decide (argv0 ∈ ["/?"; "-h"; "--help"])
        then show_help_then_exit argv None
        else mret tt) ;;
  config_file_path ← lift (py_getitem argv 1);
  let config_file_abs_path := os_abspath os config_file_path in
  json_text ← read_nqjson_file config_file_abs_path;
  config ← json_loads json_text;
  lift (assert_no_dupe_username config) ;;
  cred_list ← lift (load_credentials config);
  MessageBox ("Loaded " +:+ pretty (length cred_list) +:+ " credentials from "
              +:+ config_file_abs_path +:+ str1 LF +:+ str1 LF
              +:+ "Global hot key: Ctrl+Alt+Shift+" +:+ HOT_KEY)
             APP_NAME MB_OK ;;
  let hot_key_index := 0%Z in
  vk ← lift (ord HOT_KEY);
  registered ← RegisterHotKey hot_key_index (MOD_ALT + MOD_CONTROL + MOD_SHIFT) vk;
  if (registered =? 0)%Z then raise (Exception "Failed: user32.RegisterHotKey()")
  else
    try_finally
      (message_loop fuel cred_list hot_key_index MSG0)
      (UnregisterHotKey hot_key_index ;; mret tt).

End Program.

(** ** The comment stripper, in the words of its description

    A line is its body followed by its terminator (LF, or nothing on the
    last line of a file without a final LF). The comment runs from the
    first [#] of the body to the end of the body. *)

Fixpoint before_hash (s : string) : string :=
  match s with
  | EmptyString => EmptyString
  | String c s' => if Ascii.eqb c HASH then EmptyString else String c (before_hash s')
  end.

Fixpoint line_body (s : string) : string :=
  match s with
  | EmptyString => EmptyString
  | String c EmptyString => if Ascii.eqb c LF then EmptyString else str1 c
  | String c s' => String c (line_body s')
  end.

Fixpoint line_ending (s : string) : string :=
  match s with
  | EmptyString => EmptyString
  | String c EmptyString => if Ascii.eqb c LF then str1 LF else EmptyString
  | String c s' => line_ending s'
  end.

Definition strip_comment (line : string) : string :=
  before_hash (line_body line) +:+ line_ending line.

(** ** JSON string literals, lexically

    Where a double quote opens a literal, a second one closes it, a
    backslash protects the character after it, and a control character
    (below 32, LF among them) or the end of the text inside a literal is an
    error: the rule of RFC 8259 that [json.loads] applies by default. *)

Inductive lex_state : Type :=
| LOut   (* between literals *)
| LIn    (* inside a literal *)
| LEsc   (* inside a literal, after a backslash *)
| LErr.  (* a control character was met inside a literal *)

Definition lex_step (st : lex_state) (c : ascii) : lex_state :=
  match st with
  | LOut => if Ascii.eqb c DQUOTE then LIn else LOut
  | LIn =>
      if Ascii.eqb c DQUOTE then LOut
      else if Ascii.eqb c BACKSLASH then LEsc
      else if (N_of_ascii c <? 32)%N then LErr
      else LIn
  | LEsc => if (N_of_ascii c <? 32)%N then LErr else LIn
  | LErr => LErr
  end.

Fixpoint lex (st : lex_state) (s : string) : lex_state :=
  match s with
  | EmptyString => st
  | String c s' => lex (lex_step st c) s'
  end.

Definition in_literal (st : lex_state) : bool :=
  match st with
  | LOut => false
  | _ => true
  end.

(** The text leaves a literal open, or breaks one by a control character. *)
Definition json_lex_error (text : string) : bool := in_literal (lex LOut text).

(** ** Scripted environments

    An environment that follows a script: the content of the configuration
    file, the document a strict decoder finds in it, the answer of
    [RegisterHotKey], the answers of [GetMessageA] in order (the queue
    reports quit once the script is used up), and one answer for the
    dialog, for [dlg.selecteditem] and for [OpenClipboard]. Every other
    call succeeds. *)

Record script : Type := {
  sc_file : exn + string;
  sc_config : exn + json;
  sc_register : exn + Z;
  sc_messages : list (exn + Z * MSG);
  sc_modal : exn + Z;
  sc_selected : exn + option Z;
  sc_open : exn + unit
}.

Fixpoint count_get (t : list event) : nat :=
  match t with
  | [] => 0
  | EvGetMessageA _ :: t' => S (count_get t')
  | _ :: t' => count_get t'
  end.

Definition strict_decoder (config : exn + json) (text : string) : exn + json :=
  if json_lex_error text then inl (Fault "JSONDecodeError") else config.

Definition scripted_os (s : script) : OS := {|
  os_abspath := λ path, "C:\" +:+ path;
  os_read_text := λ _ _, sc_file s;
  os_json_loads := strict_decoder (sc_config s);
  os_MessageBox := λ _ _ _ _, inr IDOK;
  os_RegisterHotKey := λ _ _ _ _, sc_register s;
  os_UnregisterHotKey := λ _ _, inr 1%Z;
  os_GetMessageA := λ t msg,
    match sc_messages s !! count_get t with
    | Some r => r
    | None => inr (0%Z, msg)
    end;
  os_TranslateMessage := λ _ _, inr 0%Z;
  os_DispatchMessageA := λ _ _, inr 0%Z;
  os_DoModal := λ _ _ _, sc_modal s;
  os_selecteditem := λ _, sc_selected s;
  os_OpenClipboard := λ _, sc_open s;
  os_SetClipboardText := λ _ _ _, inr tt;
  os_CloseClipboard := λ _, inr tt;
  os_now := λ _, "2026-11-04 12:00:00.000000"
|}.

Definition quoted (s : string) : string := str1 DQUOTE +:+ s +:+ str1 DQUOTE.

Definition credential_json (u p : string) : string :=
  "{" +:+ quoted "username" +:+ ": " +:+ quoted u +:+ ", "
      +:+ quoted "password" +:+ ": " +:+ quoted p +:+ "}".

Definition credential_dict (u p : string) : json :=
  JObj [("username", JStr u); ("password", JStr p)].

(** The table of the scenarios: alice with p1, bob with p2, in a file with
    a comment on its first line. *)
Definition table_file : string :=
  "{ # two credentials" +:+ str1 CR +:+ str1 LF
  +:+ "  " +:+ quoted "credential_list" +:+ ": [" +:+ str1 LF
  +:+ "    " +:+ credential_json "alice" "p1" +:+ "," +:+ str1 LF
  +:+ "    " +:+ credential_json "bob" "p2" +:+ str1 LF
  +:+ "  ]" +:+ str1 LF
  +:+ "}".

Definition table_config : json :=
  JObj [("credential_list", JArr [credential_dict "alice" "p1"; credential_dict "bob" "p2"])].

Definition table : list Credential :=
  [mkCredential (JStr "alice") (JStr "p1"); mkCredential (JStr "bob") (JStr "p2")].

Definition hotkey_message : MSG := mkMSG 0 WM_HOTKEY 0 0 0 (0, 0)%Z.
(** [WM_KEYDOWN], of no interest to the program. *)
Definition other_message : MSG := mkMSG 0 256 65 0 0 (0, 0)%Z.

Definition argv_ok : list string := ["main.py"; "pw.json"].

(** One hot-key press, bob chosen, then quit. *)
Definition script_select : script := {|
  sc_file := inr table_file;
  sc_config := inr table_config;
  sc_register := inr 1%Z;
  sc_messages := [inr (1%Z, other_message); inr (1%Z, hotkey_message)];
  sc_modal := inr IDOK;
  sc_selected := inr (Some 1%Z);
  sc_open := inr tt
|}.

(** The same, with the clipboard held by another process. *)
Definition script_busy : script := {|
  sc_file := inr table_file;
  sc_config := inr table_config;
  sc_register := inr 1%Z;
  sc_messages := [inr (1%Z, hotkey_message); inr (1%Z, hotkey_message)];
  sc_modal := inr IDOK;
  sc_selected := inr (Some 1%Z);
  sc_open := inl (Fault "OpenClipboard: access is denied")
|}.

(** The same, with the dialog dismissed by the escape key. *)
Definition script_cancel : script := {|
  sc_file := inr table_file;
  sc_config := inr table_config;
  sc_register := inr 1%Z;
  sc_messages := [inr (1%Z, hotkey_message)];
  sc_modal := inr 2%Z;
  sc_selected := inr None;
  sc_open := inr tt
|}.

(** The hot key is held by another process. *)
Definition script_taken : script := {|
  sc_file := inr table_file;
  sc_config := inr table_config;
  sc_register := inr 0%Z;
  sc_messages := [inr (1%Z, hotkey_message)];
  sc_modal := inr IDOK;
  sc_selected := inr (Some 1%Z);
  sc_open := inr tt
|}.

(** Two records for alice. *)
Definition dupe_config : json :=
  JObj [("credential_list",
         JArr [credential_dict "alice" "p1"; credential_dict "bob" "p2";
               credential_dict "alice" "p3"])].

Definition dupe_file : string :=
  "{" +:+ quoted "credential_list" +:+ ": [" +:+ str1 LF
  +:+ "  " +:+ credential_json "alice" "p1" +:+ ", # first" +:+ str1 LF
  +:+ "  " +:+ credential_json "bob" "p2" +:+ "," +:+ str1 LF
  +:+ "  " +:+ credential_json "alice" "p3" +:+ "  # again" +:+ str1 LF
  +:+ "]}".

Definition script_dupe : script := {|
  sc_file := inr dupe_file;
  sc_config := inr dupe_config;
  sc_register := inr 1%Z;
  sc_messages := [];
  sc_modal := inr IDOK;
  sc_selected := inr (Some 1%Z);
  sc_open := inr tt
|}.

(** No file of the name that was given. *)
Definition script_no_file : script := {|
  sc_file := inl (Fault "FileNotFoundError");
  sc_config := inr table_config;
  sc_register := inr 1%Z;
  sc_messages := [];
  sc_modal := inr IDOK;
  sc_selected := inr (Some 1%Z);
  sc_open := inr tt
|}.

(** A password with a [#] in it. *)
Definition hash_file : string :=
  "{" +:+ quoted "credential_list" +:+ ": [" +:+ str1 LF
  +:+ "  " +:+ credential_json "alice" "p#1" +:+ str1 LF
  +:+ "]}".

(** The second line of [hash_file], before and after its [#]. *)
Definition hash_line_before : string :=
  "  {" +:+ quoted "username" +:+ ": " +:+ quoted "alice" +:+ ", "
  +:+ quoted "password" +:+ ": " +:+ str1 DQUOTE +:+ "p".

Definition hash_line_after : string := "1" +:+ str1 DQUOTE +:+ "}" +:+ str1 LF.

Definition script_hash : script := {|
  sc_file := inr hash_file;
  sc_config := inr (JObj [("credential_list", JArr [credential_dict "alice" "p#1"])]);
  sc_register := inr 1%Z;
  sc_messages := [];
  sc_modal := inr IDOK;
  sc_selected := inr (Some 0%Z);
  sc_open := inr tt
|}.

(** ** Usernames, counted

    How often a username occurs in a list, and the typed image of
    [collections.Counter] on a list of strings: [tally names c] is the
    counter [c] after [names] were counted into it. *)

Fixpoint occurrences (u : string) (names : list string) : nat :=
  match names with
  | [] => 0
  | v :: names' => (if String.eqb v u then 1 else 0) + occurrences u names'
  end.

Fixpoint incr (k : string) (c : list (string * nat)) : list (string * nat) :=
  match c with
  | [] => [(k, 1)]
  | (k', n) :: c' =>
      if String.eqb k' k then (k', S n) :: c' else (k', n) :: incr k c'
  end.

Fixpoint tally (names : list string) (c : list (string * nat)) : list (string * nat) :=
  match names with
  | [] => c
  | k :: names' => tally names' (incr k c)
  end.

Fixpoint count_of (v : string) (c : list (string * nat)) : nat :=
  match c with
  | [] => 0
  | (k, n) :: c' => if String.eqb k v then n else count_of v c'
  end.

Definition as_counter (c : list (string * nat)) : list (json * nat) :=
  map (λ kv, (JStr kv.1, kv.2)) c.

Definition repeated (c : list (string * nat)) : list string :=
  map fst (filter (λ kv, 1 < kv.2) c).

(** * Auxiliary definitions for the statements *)

(** ** Lines *)

(** A text is a line when LF occurs in it at most once, at its end. *)
Inductive is_line : string -> Prop :=
| is_line_intro body e :
    string_mem LF body = false -> e = EmptyString \/ e = str1 LF ->
    is_line (body +:+ e).

(** ** What a computation may call *)

Inductive kind : Type :=
| KReadText | KJsonLoads | KMessageBox | KRegisterHotKey | KUnregisterHotKey
| KGetMessageA | KTranslateMessage | KDispatchMessageA | KDoModal
| KSelectedItem | KOpenClipboard | KSetClipboardText | KCloseClipboard | KNow.

#[global] Instance kind_eq_dec : EqDecision kind.
Proof. solve_decision. Defined.

Definition kind_of (ev : event) : kind :=
  match ev with
  | EvReadText _ _ => KReadText
  | EvJsonLoads _ _ => KJsonLoads
  | EvMessageBox _ _ _ _ => KMessageBox
  | EvRegisterHotKey _ _ _ _ => KRegisterHotKey
  | EvUnregisterHotKey _ _ => KUnregisterHotKey
  | EvGetMessageA _ => KGetMessageA
  | EvTranslateMessage _ _ => KTranslateMessage
  | EvDispatchMessageA _ _ => KDispatchMessageA
  | EvDoModal _ _ _ => KDoModal
  | EvSelectedItem _ => KSelectedItem
  | EvOpenClipboard _ => KOpenClipboard
  | EvSetClipboardText _ _ _ => KSetClipboardText
  | EvCloseClipboard _ => KCloseClipboard
  | EvNow _ => KNow
  end.

(** [emits ks m]: a run of [m] adds to the history only calls of the kinds
    [ks]. *)
Definition emits {A : Type} (ks : list kind) (m : M A) : Prop :=
  forall w o w', m w = (o, w') ->
    exists evs, trace w' = trace w ++ evs /\ Forall (fun ev => kind_of ev ∈ ks) evs.

(** The calls of the handler, of the loop, of the startup, of the clipboard
    session, and of [main] once the table is loaded. *)
Definition handler_kinds : list kind :=
  [KDoModal; KSelectedItem; KOpenClipboard; KSetClipboardText; KCloseClipboard; KNow].

Definition loop_kinds : list kind :=
  [KGetMessageA; KTranslateMessage; KDispatchMessageA] ++ handler_kinds.

Definition startup_kinds : list kind := [KReadText; KJsonLoads; KMessageBox].

Definition handoff_kinds : list kind :=
  [KOpenClipboard; KSetClipboardText; KCloseClipboard; KNow].

Definition serving_kinds : list kind :=
  [KMessageBox; KRegisterHotKey; KUnregisterHotKey] ++ loop_kinds.

(** ** The phases of [main] *)

Section Phases.

Variable os : OS.

(** The command line. *)
Definition main_args (argv : list string) : M string :=
  print EmptyString ;;
  (if negb (length argv =? 2)%nat
   then show_help_then_exit argv (Some "Missing requirement argument: JSON_CONFIG_FILE")
   else argv0 ← lift (py_getitem argv 0);
        if bool_decide (argv0 ∈ ["/?"; "-h"; "--help"])
        then show_help_then_exit argv None
        else mret tt) ;;
  lift (py_getitem argv 1).

(** The configuration file, decoded. *)
Definition main_config (config_file_path : string) : M json :=
  json_text ← read_nqjson_file os (os_abspath os config_file_path);
  json_loads os json_text.

(** The credential table, announced. *)
Definition main_credentials (config_file_path : string) (config : json) : M (list Credential) :=
  lift (assert_no_dupe_username config) ;;
  cred_list ← lift (load_credentials config);
  MessageBox os ("Loaded " +:+ pretty (length cred_list) +:+ " credentials from "
              +:+ os_abspath os config_file_path +:+ str1 LF +:+ str1 LF
              +:+ "Global hot key: Ctrl+Alt+Shift+" +:+ HOT_KEY)
             APP_NAME MB_OK ;;
  mret cred_list.

Definition startup (argv : list string) : M (list Credential) :=
  path ← main_args argv;
  config ← main_config path;
  main_credentials path config.

(** The hot key and the loop. *)
Definition main_hotkey (fuel : nat) (cred_list : list Credential) : M unit :=
  registered ← RegisterHotKey os 0 7 80;
  if (registered =? 0)%Z then raise (Exception "Failed: user32.RegisterHotKey()")
  else
    try_finally
      (message_loop os fuel cred_list 0 MSG0)
      (UnregisterHotKey os 0 ;; mret tt).

End Phases.

(** ** The parts of the handler *)

Section Runs.

Variable os : OS.

Definition write_both (text : json) : M unit :=
  SetClipboardText os text CF_TEXT ;; SetClipboardText os text CF_UNICODETEXT.

Definition clipboard_handoff (cred : Credential) : M unit :=
  OpenClipboard os ;;
  try_finally (write_both (password cred)) (CloseClipboard os) ;;
  log os ("Win32 dialog selected username: " +:+ py_str (username cred)
          +:+ ": Password copied to clipboard").

Definition cancelled : string := "Win32 dialog cancelled with escape key -- do nothing".

End Runs.

(** ** The state of the clipboard *)

Definition clip_state (w : world) : bool * gmap Z string := (clip_open w, clipboard w).

Definition keeps_clip {A : Type} (m : M A) : Prop :=
  forall w o w', m w = (o, w') -> clip_state w' = clip_state w.

(** ** The usage text *)

Definition usage (prog : string) : list string :=
  ["Usage: " +:+ prog +:+ " JSON_CONFIG_FILE";
   APP_NAME;
   "Registers Win32 global hot key (Ctrl+Alt+Shift+" +:+ HOT_KEY +:+ ")";
   "Press Win32 global hot key to display dialog with list of usernames (or descriptions)";
   "Select username to copy password to clipboard";
   "Ctrl+V to paste password from clipboard to system password dialog";
   EmptyString;
   "Required Arguments:";
   "    JSON_CONFIG_FILE: File path to JSON config";
   "        Ex: C:\src\pw.json"].

(** ** Runs under a script *)

(** The run of [main] under a script, from an empty clipboard. *)
Abbreviation run_of s fuel argv := (main (scripted_os s) fuel argv (init_world ∅)).

(** The run of the handler under a script, on the table of the scenarios. *)
Abbreviation activation s := (hot_key_callback (scripted_os s) table (init_world ∅)).

(** The busy clipboard as the specification words it: in an activation in
    which [OpenClipboard] raised, the handler returned, after a line was
    printed, with the clipboard closed. *)
Definition busy_clipboard_is_survived (os : OS) (cred_list : list Credential)
    (w : world) : Prop :=
  forall o w' evs e,
    hot_key_callback os cred_list w = (o, w') ->
    trace w' = trace w ++ evs ->
    EvOpenClipboard (inl e) ∈ evs ->
    o = Done tt
    /\ (exists line, stdout w' = stdout w ++ [line])
    /\ clip_open w' = false.

(** ** Termination *)

(** [settles m]: a run of [m] ends, with a value or with an exception. *)
Definition settles {A : Type} (m : M A) : Prop :=
  forall w w', m w <> (Pending, w').

(** From its [n]-th call on, [GetMessageA] returns 0 or raises. *)
Definition quits_by (os : OS) (n : nat) : Prop :=
  forall t msg, n <= count_get t ->
    match os_GetMessageA os t msg with
    | inl _ => True
    | inr (r, _) => r = 0%Z
    end.

(** ** A message on its way to the OS

    The calls that follow when the message [m] goes to the OS, and the
    outcome [o] of the loop: [TranslateMessage] on [m], then
    [DispatchMessageA] on [m], then the next fetch. The loop ends before
    that if one of the two calls raised, with the exception as its outcome;
    [Pending] is the bound of the loop reached after the dispatch. *)
Definition handed_to_os (m : MSG) (o : outcome unit) (evs : list event) : Prop :=
  exists t rest,
    evs = EvTranslateMessage m t :: rest
    /\ match t with
       | inl e => o = Raised e /\ rest = []
       | inr _ =>
           exists d rest',
             rest = EvDispatchMessageA m d :: rest'
             /\ match d with
                | inl e => o = Raised e /\ rest' = []
                | inr _ =>
                    (o = Pending /\ rest' = [])
                    \/ exists g rest'', rest' = EvGetMessageA g :: rest''
                end
       end.

(** ** Tactics *)

(** From [trace w' = trace w ++ evs] to the list [evs] itself. *)
Ltac read_events Ht :=
  autorewrite with world in Ht;
  rewrite <- ?app_assoc in Ht;
  first [ apply app_inv_head in Ht
        | rewrite <- (app_nil_r (trace _)) in Ht at 1; apply app_inv_head in Ht ];
  cbn [app] in Ht; subst.

Ltac elem_cases H :=
  rewrite ?elem_of_cons, ?elem_of_nil in H; destruct_or?; simplify_eq; try done.

Ltac split_session :=
  match goal with
  | |- exists writes closed tail, _ :: _ :: _ :: ?rest = _ /\ _ =>
      lazymatch rest with
      | [?a; EvCloseClipboard ?c] => exists [a], c, []
      | [?a; ?b; EvCloseClipboard ?c] => exists [a; b], c, []
      | [?a; ?b; EvCloseClipboard ?c; ?n] => exists [a; b], c, [n]
      end
  end.

(** Membership in a computed list. *)
Ltac in_list := vm_compute; repeat constructor.

(** * Further definitions *)

(** ** Counting characters *)

Fixpoint count_char (c : ascii) (s : string) : nat :=
  match s with
  | EmptyString => 0
  | String d s' => (if Ascii.eqb c d then 1 else 0) + count_char c s'
  end.

(** ** Usernames in the order of their first occurrence *)

Fixpoint first_seen (names : list string) : list string :=
  match names with
  | [] => []
  | v :: names' => v :: filter (fun u => u <> v) (first_seen names')
  end.

(** A record is a JSON object. *)
Definition is_object (v : json) : Prop := exists members, v = JObj members.

(** ** What is called, and with what *)

(** [traces P m]: every call that a run of [m] adds to the history
    satisfies [P]. *)
Definition traces {A : Type} (P : event -> Prop) (m : M A) : Prop :=
  forall w o w', m w = (o, w') ->
    exists evs, trace w' = trace w ++ evs /\ Forall P evs.

(** The calls that depend on the table, and what they may be given: the
    dialog shows the usernames of the table, in its order; the clipboard
    gets a password of the table, as [CF_TEXT] or as [CF_UNICODETEXT]; the
    hot key is Ctrl+Alt+Shift+P with the id 0. *)
Definition table_call (cred_list : list Credential) (ev : event) : Prop :=
  match ev with
  | EvDoModal title items _ => title = APP_NAME /\ items = map username cred_list
  | EvSetClipboardText text format _ =>
      (format = CF_TEXT \/ format = CF_UNICODETEXT)
      /\ exists cred, cred ∈ cred_list /\ password cred = JStr text
  | EvRegisterHotKey id modifiers vk _ =>
      id = 0%Z /\ modifiers = (MOD_ALT + MOD_CONTROL + MOD_SHIFT)%Z /\ vk = 80%Z
  | EvUnregisterHotKey id _ => id = 0%Z
  | EvReadText _ _ | EvJsonLoads _ _ | EvMessageBox _ _ _ _ => False
  | _ => True
  end.

(** ** The clipboard between two states *)

(** From [w] to [w']: the clipboard is closed in [w'] unless a call of
    [CloseClipboard] failed on the way, and holds what it held in [w]
    unless a call of [SetClipboardText] succeeded on the way. *)
Definition clip_safe (w w' : world) : Prop :=
  exists evs,
    trace w' = trace w ++ evs
    /\ (clip_open w' = false \/ exists e, EvCloseClipboard (inl e) ∈ evs)
    /\ ((forall s f, EvSetClipboardText s f (inr tt) ∉ evs) ->
        clipboard w' = clipboard w).

(** ** Counting calls *)

Fixpoint count_events (p : event -> bool) (t : list event) : nat :=
  match t with
  | [] => 0
  | ev :: t' => (if p ev then 1 else 0) + count_events p t'
  end.

(** The dialog was shown. *)
Definition is_dialog (ev : event) : bool :=
  match ev with
  | EvDoModal _ _ _ => true
  | _ => false
  end.

(** [GetMessageA] delivered the hot-key message with the id 0. *)
Definition is_hot_key_press (ev : event) : bool :=
  match ev with
  | EvGetMessageA (inr (r, m)) =>
      negb (r =? 0)%Z && (message m =? WM_HOTKEY)%Z && (0 =? wParam m)%Z
  | _ => false
  end.

(** ** Further scenarios *)

(** A script for a file and what it decodes to; the hot key is pressed
    once and the dialog answers with [selected]. *)
Definition script_with (file : string) (config : json) (selected : option Z) : script := {|
  sc_file := inr file;
  sc_config := inr config;
  sc_register := inr 1%Z;
  sc_messages := [inr (1%Z, hotkey_message)];
  sc_modal := inr IDOK;
  sc_selected := inr selected;
  sc_open := inr tt
|}.

(** A table without comments, with Windows line ends. *)
Definition plain_file : string :=
  "{" +:+ quoted "credential_list" +:+ ": [" +:+ str1 CR +:+ str1 LF
  +:+ "  " +:+ credential_json "carol" "p3" +:+ str1 CR +:+ str1 LF
  +:+ "]}" +:+ str1 CR +:+ str1 LF.

Definition plain_config : json :=
  JObj [("credential_list", JArr [credential_dict "carol" "p3"])].

Definition script_plain : script := script_with plain_file plain_config (Some 0%Z).

(** [table_file] after its comments were removed. *)
Definition table_text : string :=
  "{ " +:+ str1 LF
  +:+ "  " +:+ quoted "credential_list" +:+ ": [" +:+ str1 LF
  +:+ "    " +:+ credential_json "alice" "p1" +:+ "," +:+ str1 LF
  +:+ "    " +:+ credential_json "bob" "p2" +:+ str1 LF
  +:+ "  ]" +:+ str1 LF
  +:+ "}".

Definition script_stripped : script := script_with table_text table_config (Some 1%Z).

(** An object without [credential_list]. *)
Definition script_no_list : script :=
  script_with ("{" +:+ quoted "credentials" +:+ ": []}")
    (JObj [("credentials", JArr [])]) None.

(** A record without [username], and one without [password]. *)
Definition no_username_config : json :=
  JObj [("credential_list",
         JArr [credential_dict "alice" "p1"; JObj [("password", JStr "p2")]])].

Definition script_no_username : script :=
  script_with
    ("{" +:+ quoted "credential_list" +:+ ": [" +:+ credential_json "alice" "p1"
     +:+ ", {" +:+ quoted "password" +:+ ": " +:+ quoted "p2" +:+ "}]}")
    no_username_config None.

Definition no_password_config : json :=
  JObj [("credential_list",
         JArr [credential_dict "alice" "p1"; JObj [("username", JStr "bob")]])].

Definition script_no_password : script :=
  script_with
    ("{" +:+ quoted "credential_list" +:+ ": [" +:+ credential_json "alice" "p1"
     +:+ ", {" +:+ quoted "username" +:+ ": " +:+ quoted "bob" +:+ "}]}")
    no_password_config None.

(** The dialog answers with an index beyond the table, and with -1. *)
Definition script_beyond : script := script_with table_file table_config (Some 2%Z).
Definition script_last : script := script_with table_file table_config (Some (-1)%Z).

(** A file that cannot be decoded: its literal is not closed. *)
Definition script_broken : script :=
  script_with ("{" +:+ str1 DQUOTE +:+ "credential_list") table_config None.

(** * Facts and theorems *)

(** ** Text and lines *)

Lemma append_nil_r (s : string) : s +:+ EmptyString = s.
Proof. induction s; simpl; congruence. Qed.

Lemma append_assoc (a b c : string) : (a +:+ b) +:+ c = a +:+ (b +:+ c).
Proof. induction a; simpl; congruence. Qed.

Lemma append_length (a b : string) :
  String.length (a +:+ b) = String.length a + String.length b.
Proof. induction a; simpl; congruence. Qed.

Lemma is_line_cons c l : Ascii.eqb c LF = false -> is_line l -> is_line (String c l).
Proof.
  intros Hc [body e Hb He]. change (is_line (String c body +:+ e)).
  constructor; [simpl | done]. rewrite Ascii.eqb_sym in Hc. by rewrite Hc.
Qed.

Lemma readlines_lines s : Forall is_line (readlines s).
Proof.
  induction s as [|c s IH]; simpl; [constructor|].
  destruct (Ascii.eqb c LF) eqn:Hc.
  - constructor; [|done]. apply (is_line_intro EmptyString (str1 LF)); auto.
  - destruct (readlines s) as [|l ls].
    + constructor; [|constructor].
      apply is_line_cons; [done|]. apply (is_line_intro EmptyString EmptyString); auto.
    + inversion IH; subst. constructor; [|done]. by apply is_line_cons.
Qed.

Lemma readlines_join s : py_join EmptyString (readlines s) = s.
Proof.
  induction s as [|c s IH]; simpl; [done|].
  destruct (Ascii.eqb c LF) eqn:Hc.
  - apply Ascii.eqb_eq in Hc. subst c.
    destruct (readlines s) eqn:E; simpl in *; [by subst|]. by rewrite IH.
  - destruct (readlines s) as [|l ls] eqn:E; simpl in *; [by subst|].
    destruct ls; simpl in *; by subst.
Qed.

Lemma line_body_app body e :
  string_mem LF body = false -> e = EmptyString \/ e = str1 LF ->
  line_body (body +:+ e) = body /\ line_ending (body +:+ e) = e.
Proof.
  intros Hb He. induction body as [|c b IH]; simpl in *.
  - destruct He; subst; done.
  - apply orb_false_elim in Hb as [Hc Hb]. destruct (IH Hb) as [IH1 IH2].
    destruct (b +:+ e) eqn:E.
    + destruct b; [|done]. simpl in *. subst e. rewrite Ascii.eqb_sym, Hc. done.
    + rewrite IH1, IH2. done.
Qed.

Lemma dot_star_line k body e :
  string_mem LF body = false -> e = EmptyString \/ e = str1 LF ->
  (forall s, k s = if at_end s then Some s else None) ->
  dot_star k (body +:+ e) = Some e.
Proof.
  intros Hb He Hk. induction body as [|c b IH]; simpl in *.
  - destruct He; subst; simpl; rewrite Hk; done.
  - apply orb_false_elim in Hb as [Hc Hb]. rewrite Ascii.eqb_sym, Hc, (IH Hb). done.
Qed.

Lemma sub_loop_ending fuel e :
  e = EmptyString \/ e = str1 LF -> String.length e <= fuel -> sub_loop fuel regex e = e.
Proof.
  intros [->| ->] Hf; destruct fuel as [|[|f]]; simpl in *; try done; lia.
Qed.

Lemma sub_loop_line fuel body e :
  string_mem LF body = false -> e = EmptyString \/ e = str1 LF ->
  String.length (body +:+ e) <= fuel ->
  sub_loop fuel regex (body +:+ e) = before_hash body +:+ e.
Proof.
  revert fuel. induction body as [|c b IH]; intros fuel Hb He Hf.
  - simpl. by apply sub_loop_ending.
  - simpl in Hb, Hf. apply orb_false_elim in Hb as [Hc Hb].
    destruct fuel as [|fuel]; [lia|]. cbn [sub_loop String.append before_hash].
    unfold regex at 1. cbn [rmatch]. rewrite (Ascii.eqb_sym HASH c).
    destruct (Ascii.eqb c HASH) eqn:Hh.
    + rewrite (dot_star_line _ b e); [|done..].
      simpl. apply sub_loop_ending; [done|]. rewrite append_length in Hf. lia.
    + simpl. f_equal. apply IH; [done..|lia].
Qed.

Lemma re_sub_line l : is_line l -> re_sub regex l = strip_comment l.
Proof.
  intros [body e Hb He]. unfold re_sub, strip_comment.
  destruct (line_body_app body e Hb He) as [-> ->].
  by apply sub_loop_line.
Qed.

Lemma strip_lines_map pre todo :
  strip_lines (seq (length pre) (length todo)) (map (re_sub regex) pre ++ todo)
  = inr (map (re_sub regex) pre ++ map (re_sub regex) todo).
Proof.
  revert pre. induction todo as [|x todo IH]; intros pre; simpl; [done|].
  rewrite lookup_app_r; rewrite length_map; [|lia].
  rewrite Nat.sub_diag. simpl.
  rewrite insert_app_r_alt; rewrite length_map; [|lia].
  rewrite Nat.sub_diag. simpl.
  specialize (IH (pre ++ [x])).
  rewrite length_app, map_app in IH. simpl in IH.
  rewrite Nat.add_1_r, <- !app_assoc in IH. simpl in IH. done.
Qed.

Lemma strip_lines_all l :
  strip_lines (seq 0 (length l)) l = inr (map (re_sub regex) l).
Proof. apply (strip_lines_map [] l). Qed.

(** ** What a computation may call *)

Create HintDb emits.

Lemma emits_ret {A} ks (a : A) : emits ks (mret a).
Proof. intros w o w' [= <- <-]. exists []. by rewrite app_nil_r. Qed.

Lemma emits_raise {A} ks e : emits ks (@raise A e).
Proof. intros w o w' [= <- <-]. exists []. by rewrite app_nil_r. Qed.

Lemma emits_lift {A} ks (r : exn + A) : emits ks (lift r).
Proof. destruct r; [apply emits_raise | apply emits_ret]. Qed.

Lemma emits_print ks line : emits ks (print line).
Proof. intros w o w' [= <- <-]. exists []. by rewrite app_nil_r. Qed.

Lemma emits_set_clip_open ks b : emits ks (set_clip_open b).
Proof. intros w o w' [= <- <-]. exists []. by rewrite app_nil_r. Qed.

Lemma emits_store_clip ks f s : emits ks (store_clip f s).
Proof. intros w o w' [= <- <-]. exists []. by rewrite app_nil_r. Qed.

Lemma emits_call {A} ks (answer : list event -> exn + A) ev :
  (forall r, kind_of (ev r) ∈ ks) -> emits ks (call answer ev).
Proof.
  intros Hk w o w' H. unfold call in H. exists [ev (answer (trace w))].
  destruct (answer (trace w)) eqn:E; simplify_eq/=; (split; [done|]);
    repeat constructor; rewrite <- E; apply Hk.
Qed.

Lemma emits_bind {A B} ks (m : M A) (k : A -> M B) :
  emits ks m -> (forall a, emits ks (k a)) -> emits ks (m ≫= k).
Proof.
  intros Hm Hk w o w' H. unfold mbind, M_bind in H.
  destruct (m w) as [[a|e|] w1] eqn:E; destruct (Hm _ _ _ E) as (evs1 & Ht1 & Hf1).
  - destruct (Hk a _ _ _ H) as (evs2 & Ht2 & Hf2).
    exists (evs1 ++ evs2). rewrite Ht2, Ht1, app_assoc. split; [done|].
    by apply Forall_app.
  - simplify_eq. eauto.
  - simplify_eq. eauto.
Qed.

Lemma emits_try_finally {A} ks (body : M A) (fin : M unit) :
  emits ks body -> emits ks fin -> emits ks (try_finally body fin).
Proof.
  intros Hb Hf w o w' H. unfold try_finally in H.
  destruct (body w) as [o1 w1] eqn:E; destruct (Hb _ _ _ E) as (evs1 & Ht1 & Hf1).
  assert (o1 = Pending \/ exists o2 w2, fin w1 = (o2, w2) /\ w' = w2) as [->|(o2 & w2 & E2 & ->)].
  { destruct o1; [right|right|by left]; destruct (fin w1) as [[[]|e'|] w2] eqn:E2;
      simplify_eq; eauto. }
  - simplify_eq. eauto.
  - destruct (Hf _ _ _ E2) as (evs2 & Ht2 & Hf2).
    exists (evs1 ++ evs2). rewrite Ht2, Ht1, app_assoc. split; [done|].
    by apply Forall_app.
Qed.

Lemma emits_mono {A} ks ks' (m : M A) : ks ⊆ ks' -> emits ks m -> emits ks' m.
Proof.
  intros Hs Hm w o w' H. destruct (Hm _ _ _ H) as (evs & Ht & Hf).
  exists evs. split; [done|]. eapply Forall_impl; [done|]. intros ev. apply Hs.
Qed.

#[export] Hint Resolve emits_ret emits_raise emits_lift emits_print emits_set_clip_open
  emits_store_clip emits_bind emits_try_finally : emits.
#[export] Hint Extern 2 (emits _ (call _ _)) => (apply emits_call; intros; simpl; set_solver) : emits.
#[export] Hint Extern 2 (emits _ (if _ then _ else _)) => case_match : emits.
#[export] Hint Extern 2 (emits _ (match _ with _ => _ end)) => case_match : emits.
#[export] Hint Extern 1 (emits _ (_ ;; _)) => (apply emits_bind; [|intros]) : emits.

Lemma emits_log os ks msg : KNow ∈ ks -> emits ks (log os msg).
Proof. intros. unfold log, now. apply emits_bind; [|auto with emits].
  apply emits_call. done. Qed.

Lemma emits_SetClipboardText os ks text f :
  KSetClipboardText ∈ ks -> emits ks (SetClipboardText os text f).
Proof.
  intros. unfold SetClipboardText. destruct text; auto with emits.
Qed.

Lemma emits_hot_key_callback os cred_list :
  emits handler_kinds (hot_key_callback os cred_list).
Proof.
  unfold hot_key_callback, DoModal, selecteditem, OpenClipboard, CloseClipboard.
  apply emits_bind; [auto with emits|intros code].
  apply emits_bind; [auto with emits|intros [i|]].
  2:{ apply emits_log. set_solver. }
  apply emits_bind; [auto with emits|intros cred].
  apply emits_bind; [auto with emits|intros _].
  apply emits_bind; [|intros _; apply emits_log; set_solver].
  apply emits_try_finally; [|auto with emits].
  apply emits_bind; [|intros _]; apply emits_SetClipboardText; set_solver.
Qed.

Lemma emits_message_loop os fuel cred_list idx msg :
  emits loop_kinds (message_loop os fuel cred_list idx msg).
Proof.
  revert msg. induction fuel as [|fuel IH]; intros msg.
  - intros w o w' [= <- <-]. exists []. by rewrite app_nil_r.
  - cbn [message_loop]. unfold GetMessageA, TranslateMessage, DispatchMessageA.
    apply emits_bind; [auto with emits|intros [r m]].
    case_match; [auto with emits|].
    apply emits_bind.
    { repeat case_match; auto with emits.
      eapply emits_mono; [|apply emits_hot_key_callback].
      intros k Hk. apply elem_of_app. by right. }
    intros _. apply emits_bind; [auto with emits|intros _].
    apply emits_bind; [auto with emits|intros _]. apply IH.
Qed.

(** ** The phases of [main] *)

Lemma bind_assoc {A B C} (m : M A) (f : A -> M B) (g : B -> M C) w :
  ((m ≫= f) ≫= g) w = (m ≫= (fun a => f a ≫= g)) w.
Proof. unfold mbind, M_bind. by destruct (m w) as [[a|e|] w1]. Qed.

Lemma bind_ext {A B} (m : M A) (f g : A -> M B) w :
  (forall a w1, f a w1 = g a w1) -> (m ≫= f) w = (m ≫= g) w.
Proof. intros H. unfold mbind, M_bind. destruct (m w) as [[a|e|] w1]; auto. Qed.

Lemma bind_ret_r {A} (m : M A) w : (m ≫= mret) w = m w.
Proof. unfold mbind, M_bind, mret, M_ret. by destruct (m w) as [[a|e|] w1]. Qed.

Lemma bind_inv {A B} (m : M A) (k : A -> M B) w o w' :
  (m ≫= k) w = (o, w') ->
  (exists a w1, m w = (Done a, w1) /\ k a w1 = (o, w'))
  \/ (exists e, m w = (Raised e, w') /\ o = Raised e)
  \/ (m w = (Pending, w') /\ o = Pending).
Proof.
  unfold mbind, M_bind. destruct (m w) as [[a|e|] w1]; intros H.
  - left. eauto.
  - right. left. simplify_eq. eauto.
  - right. right. by simplify_eq.
Qed.

Lemma main_phases os fuel argv w :
  main os fuel argv w = (cred_list ← startup os argv; main_hotkey os fuel cred_list) w.
Proof.
  unfold startup. rewrite bind_assoc.
  unfold main_args. rewrite !bind_assoc.
  unfold main. apply bind_ext; intros _ w1.
  rewrite !bind_assoc. apply bind_ext; intros _ w2.
  apply bind_ext; intros path w3.
  unfold main_config. rewrite !bind_assoc.
  apply bind_ext; intros jt w4.
  apply bind_ext; intros config w5.
  unfold main_credentials. rewrite !bind_assoc.
  apply bind_ext; intros _ w6.
  rewrite !bind_assoc.
  apply bind_ext; intros cl w7.
  rewrite !bind_assoc.
  apply bind_ext; intros _ w8.
  done.
Qed.

Lemma emits_show_help ks argv error : emits ks (show_help_then_exit argv error).
Proof. unfold show_help_then_exit. repeat case_match; auto 20 with emits. Qed.

Lemma emits_main_args argv : emits [] (main_args argv).
Proof.
  unfold main_args. apply emits_bind; [auto with emits|intros _].
  apply emits_bind; [|auto with emits].
  case_match; [apply emits_show_help|].
  apply emits_bind; [auto with emits|intros a0]. case_match; [apply emits_show_help|auto with emits].
Qed.

Lemma emits_main_config os path : emits [KReadText; KJsonLoads] (main_config os path).
Proof.
  unfold main_config, read_nqjson_file, read_text, json_loads.
  auto 10 with emits.
Qed.

Lemma emits_main_credentials os path config :
  emits [KMessageBox] (main_credentials os path config).
Proof. unfold main_credentials, MessageBox. auto 10 with emits. Qed.

Lemma emits_startup os argv : emits startup_kinds (startup os argv).
Proof.
  unfold startup.
  apply emits_bind; [|intros path; apply emits_bind; [|intros config]].
  - eapply emits_mono; [|apply emits_main_args]. set_solver.
  - eapply emits_mono; [|apply emits_main_config]. set_solver.
  - eapply emits_mono; [|apply emits_main_credentials]. set_solver.
Qed.

(** ** Inversions *)

Lemma call_inv {A} (answer : list event -> exn + A) ev w o w' :
  call answer ev w = (o, w') ->
  w' = record_event (ev (answer (trace w))) w
  /\ o = match answer (trace w) with inl e => Raised e | inr a => Done a end.
Proof. unfold call. destruct (answer (trace w)); by intros [= <- <-]. Qed.

Lemma try_finally_inv {A} (body : M A) (fin : M unit) w o w' :
  try_finally body fin w = (o, w') ->
  exists o1 w1, body w = (o1, w1) /\
    match o1 with
    | Pending => o = Pending /\ w' = w1
    | _ => exists o2, fin w1 = (o2, w') /\
             o = match o2 with Done _ => o1 | Raised e => Raised e | Pending => Pending end
    end.
Proof.
  unfold try_finally. destruct (body w) as [o1 w1]. intros H. exists o1, w1.
  split; [done|].
  destruct o1; [| |by simplify_eq];
    destruct (fin w1) as [[[]|e'|] w2]; simplify_eq; eauto.
Qed.

Lemma Forall_kind (ks : list kind) (evs : list event) (ev : event) :
  Forall (fun ev => kind_of ev ∈ ks) evs -> ev ∈ evs -> kind_of ev ∈ ks.
Proof. intros H Hin. by apply (proj1 (Forall_forall _ _) H). Qed.

(** What [main] does once the credentials are loaded. *)
Lemma main_hotkey_inv os fuel cred_list w o w' :
  main_hotkey os fuel cred_list w = (o, w') ->
  let answer := os_RegisterHotKey os (trace w) 0 7 80 in
  let w0 := record_event (EvRegisterHotKey 0 7 80 answer) w in
  match answer with
  | inl e => o = Raised e /\ w' = w0
  | inr r =>
      if (r =? 0)%Z
      then o = Raised (Exception "Failed: user32.RegisterHotKey()") /\ w' = w0
      else exists o1 w1 evs,
          message_loop os fuel cred_list 0 MSG0 w0 = (o1, w1)
          /\ trace w1 = trace w0 ++ evs
          /\ Forall (fun ev => kind_of ev ∈ loop_kinds) evs
          /\ match o1 with
             | Pending => o = Pending /\ w' = w1
             | _ =>
                 let answer' := os_UnregisterHotKey os (trace w1) 0 in
                 w' = record_event (EvUnregisterHotKey 0 answer') w1
                 /\ o = match answer' with inl e => Raised e | inr _ => o1 end
             end
  end.
Proof.
  unfold main_hotkey, RegisterHotKey. intros H.
  apply bind_inv in H as [(r & w0 & Hr & H)|[(e & Hr & ->)|[Hr ->]]];
    apply call_inv in Hr as [-> Hr]; simpl;
    destruct (os_RegisterHotKey os (trace w) 0 7 80) as [e'|r'] eqn:Ea;
    simplify_eq; [|done].
  destruct (r' =? 0)%Z eqn:Hz; [by inversion H|].
  apply try_finally_inv in H as (o1 & w1 & Hl & H).
  destruct (emits_message_loop _ _ _ _ _ _ _ _ Hl) as (evs & Ht & Hf).
  exists o1, w1, evs. split_and!; [done..|].
  assert (forall o2, (UnregisterHotKey os 0 ;; mret ()) w1 = (o2, w') ->
     w' = record_event (EvUnregisterHotKey 0 (os_UnregisterHotKey os (trace w1) 0)) w1
     /\ o2 = match os_UnregisterHotKey os (trace w1) 0 with
             | inl e => Raised e | inr _ => Done tt end) as Hu.
  { intros o2 H2. unfold UnregisterHotKey in H2.
    apply bind_inv in H2 as [(u & w2 & Hc & H2)|[(e & Hc & ->)|[Hc ->]]];
      apply call_inv in Hc as [-> Hc];
      destruct (os_UnregisterHotKey os (trace w1) 0);
      unfold mret, M_ret in *; by simplify_eq. }
  destruct o1 as [[]|e1|]; [| |done]; destruct H as (o2 & H2 & ->);
    apply Hu in H2 as [-> ->]; simpl; (split; [done|]);
    by destruct (os_UnregisterHotKey os (trace w1) 0).
Qed.

(** ** Run equations

    What each function does, as a case analysis on the answers of the
    environment. *)

Lemma run_call {A B} (answer : list event -> exn + A) ev (k : A -> M B) w :
  (call answer ev ≫= k) w =
    match answer (trace w) with
    | inl e => (Raised e, record_event (ev (inl e)) w)
    | inr a => k a (record_event (ev (inr a)) w)
    end.
Proof. unfold mbind, M_bind, call. by destruct (answer (trace w)). Qed.

Lemma run_call_last {A} (answer : list event -> exn + A) ev w :
  call answer ev w =
    match answer (trace w) with
    | inl e => (Raised e, record_event (ev (inl e)) w)
    | inr a => (Done a, record_event (ev (inr a)) w)
    end.
Proof. unfold call. by destruct (answer (trace w)). Qed.

Lemma run_lift {A B} (r : exn + A) (k : A -> M B) w :
  (lift r ≫= k) w = match r with inl e => (Raised e, w) | inr a => k a w end.
Proof. by destruct r. Qed.

(** The fields of a world after a step. *)
Lemma trace_record ev w : trace (record_event ev w) = trace w ++ [ev].
Proof. done. Qed.
Lemma trace_line l w : trace (with_line l w) = trace w.
Proof. done. Qed.
Lemma trace_open b w : trace (with_open b w) = trace w.
Proof. done. Qed.
Lemma trace_text f s w : trace (with_text f s w) = trace w.
Proof. done. Qed.
Lemma stdout_record ev w : stdout (record_event ev w) = stdout w.
Proof. done. Qed.
Lemma stdout_line l w : stdout (with_line l w) = stdout w ++ [l].
Proof. done. Qed.
Lemma stdout_open b w : stdout (with_open b w) = stdout w.
Proof. done. Qed.
Lemma stdout_text f s w : stdout (with_text f s w) = stdout w.
Proof. done. Qed.
Lemma clip_open_record ev w : clip_open (record_event ev w) = clip_open w.
Proof. done. Qed.
Lemma clip_open_line l w : clip_open (with_line l w) = clip_open w.
Proof. done. Qed.
Lemma clip_open_open b w : clip_open (with_open b w) = b.
Proof. done. Qed.
Lemma clip_open_text f s w : clip_open (with_text f s w) = clip_open w.
Proof. done. Qed.
Lemma clipboard_record ev w : clipboard (record_event ev w) = clipboard w.
Proof. done. Qed.
Lemma clipboard_line l w : clipboard (with_line l w) = clipboard w.
Proof. done. Qed.
Lemma clipboard_open b w : clipboard (with_open b w) = clipboard w.
Proof. done. Qed.
Lemma clipboard_text f s w : clipboard (with_text f s w) = <[f := s]> (clipboard w).
Proof. done. Qed.

Create Rewrite HintDb world.

#[export] Hint Rewrite trace_record trace_line trace_open trace_text
  stdout_record stdout_line stdout_open stdout_text
  clip_open_record clip_open_line clip_open_open clip_open_text
  clipboard_record clipboard_line clipboard_open clipboard_text : world.

Lemma run_print {B} line (k : unit -> M B) w :
  (print line ≫= k) w = k tt (with_line line w).
Proof. done. Qed.

Lemma run_set_clip_open {B} b (k : unit -> M B) w :
  (set_clip_open b ≫= k) w = k tt (with_open b w).
Proof. done. Qed.

Lemma run_store_clip {B} f s (k : unit -> M B) w :
  (store_clip f s ≫= k) w = k tt (with_text f s w).
Proof. done. Qed.

Lemma run_log os msg w :
  log os msg w =
    (Done tt, with_line (os_now os (trace w) +:+ ": " +:+ msg)
                (record_event (EvNow (os_now os (trace w))) w)).
Proof. done. Qed.

Lemma run_write_both_str os pw w :
  write_both os (JStr pw) w =
    match os_SetClipboardText os (trace w) pw CF_TEXT with
    | inl e => (Raised e, record_event (EvSetClipboardText pw CF_TEXT (inl e)) w)
    | inr u =>
        let w1 := with_text CF_TEXT pw
                    (record_event (EvSetClipboardText pw CF_TEXT (inr u)) w) in
        match os_SetClipboardText os (trace w1) pw CF_UNICODETEXT with
        | inl e =>
            (Raised e, record_event (EvSetClipboardText pw CF_UNICODETEXT (inl e)) w1)
        | inr u' =>
            (Done tt, with_text CF_UNICODETEXT pw
                        (record_event (EvSetClipboardText pw CF_UNICODETEXT (inr u')) w1))
        end
    end.
Proof.
  unfold write_both, SetClipboardText. rewrite bind_assoc, run_call.
  destruct (os_SetClipboardText os (trace w) pw CF_TEXT) as [e|u]; [done|].
  rewrite run_store_clip, run_call. cbv zeta.
  by destruct (os_SetClipboardText os _ pw CF_UNICODETEXT).
Qed.

Lemma run_write_both_other os text w :
  (forall s, text <> JStr s) -> write_both os text w = (Raised TypeError, w).
Proof. intros H. destruct text as [| | |s| |]; try done. by destruct (H s). Qed.

Lemma write_both_not_pending os text w w' : write_both os text w <> (Pending, w').
Proof.
  destruct text as [| | |pw| |]; try (by intros [=]).
  rewrite run_write_both_str. cbv zeta.
  repeat case_match; by intros [=].
Qed.

Lemma run_clipboard_handoff os cred w :
  clipboard_handoff os cred w =
    match os_OpenClipboard os (trace w) with
    | inl e => (Raised e, record_event (EvOpenClipboard (inl e)) w)
    | inr u =>
        let w1 := with_open true (record_event (EvOpenClipboard (inr u)) w) in
        let '(o, w2) := write_both os (password cred) w1 in
        match os_CloseClipboard os (trace w2) with
        | inl e => (Raised e, record_event (EvCloseClipboard (inl e)) w2)
        | inr u' =>
            let w3 := with_open false (record_event (EvCloseClipboard (inr u')) w2) in
            match o with
            | Done _ =>
                log os ("Win32 dialog selected username: " +:+ py_str (username cred)
                        +:+ ": Password copied to clipboard") w3
            | Raised e => (Raised e, w3)
            | Pending => (Pending, w3)
            end
        end
    end.
Proof.
  unfold clipboard_handoff, OpenClipboard. rewrite bind_assoc, run_call.
  destruct (os_OpenClipboard os (trace w)) as [e|u]; [done|].
  rewrite run_set_clip_open. cbv zeta.
  set (w1 := with_open true _).
  unfold mbind at 1, M_bind at 1, try_finally.
  destruct (write_both os (password cred) w1) as [o w2] eqn:Ew.
  assert (o <> Pending) as Hp by (intros ->; by apply write_both_not_pending in Ew).
  unfold CloseClipboard. rewrite run_call.
  destruct (os_CloseClipboard os (trace w2)) as [e|u'];
    destruct o as [[]|e'|]; done.
Qed.

Lemma run_hot_key_callback os cred_list w :
  hot_key_callback os cred_list w =
    match os_DoModal os (trace w) APP_NAME (map username cred_list) with
    | inl e =>
        (Raised e, record_event (EvDoModal APP_NAME (map username cred_list) (inl e)) w)
    | inr code =>
        let w1 := record_event
                    (EvDoModal APP_NAME (map username cred_list) (inr code)) w in
        if (code =? IDOK)%Z then
          match os_selecteditem os (trace w1) with
          | inl e => (Raised e, record_event (EvSelectedItem (inl e)) w1)
          | inr None => log os cancelled (record_event (EvSelectedItem (inr None)) w1)
          | inr (Some i) =>
              let w2 := record_event (EvSelectedItem (inr (Some i))) w1 in
              match py_getitem cred_list i with
              | inl e => (Raised e, w2)
              | inr cred => clipboard_handoff os cred w2
              end
          end
        else log os cancelled w1
    end.
Proof.
  unfold hot_key_callback, DoModal. rewrite run_call.
  destruct (os_DoModal os (trace w) APP_NAME (map username cred_list)) as [e|code];
    [done|].
  cbv zeta. destruct (code =? IDOK)%Z.
  - unfold selecteditem. rewrite run_call.
    destruct (os_selecteditem os _) as [e|[i|]]; [done| |done].
    rewrite run_lift. by destruct (py_getitem cred_list i).
  - done.
Qed.

(** One turn of the loop. *)
Lemma run_message_loop os fuel cred_list idx msg w :
  message_loop os (S fuel) cred_list idx msg w =
    match os_GetMessageA os (trace w) msg with
    | inl e => (Raised e, record_event (EvGetMessageA (inl e)) w)
    | inr (r, m) =>
        let w1 := record_event (EvGetMessageA (inr (r, m))) w in
        if (r =? 0)%Z then (Done tt, w1)
        else
          match (if (message m =? WM_HOTKEY)%Z && (idx =? wParam m)%Z
                 then hot_key_callback os cred_list else mret tt) w1 with
          | (Done _, w2) =>
              match os_TranslateMessage os (trace w2) m with
              | inl e => (Raised e, record_event (EvTranslateMessage m (inl e)) w2)
              | inr t =>
                  let w3 := record_event (EvTranslateMessage m (inr t)) w2 in
                  match os_DispatchMessageA os (trace w3) m with
                  | inl e => (Raised e, record_event (EvDispatchMessageA m (inl e)) w3)
                  | inr d =>
                      message_loop os fuel cred_list idx m
                        (record_event (EvDispatchMessageA m (inr d)) w3)
                  end
              end
          | (Raised e, w2) => (Raised e, w2)
          | (Pending, w2) => (Pending, w2)
          end
    end.
Proof.
  cbn [message_loop]. unfold GetMessageA. rewrite run_call.
  destruct (os_GetMessageA os (trace w) msg) as [e|[r m]]; [done|].
  cbv zeta. destruct (r =? 0)%Z; [done|].
  unfold mbind at 1, M_bind at 1.
  assert ((if (message m =? WM_HOTKEY)%Z
           then if (idx =? wParam m)%Z then hot_key_callback os cred_list else mret ()
           else mret ())
          = (if (message m =? WM_HOTKEY)%Z && (idx =? wParam m)%Z
             then hot_key_callback os cred_list else mret tt)) as ->.
  { by destruct (message m =? WM_HOTKEY)%Z, (idx =? wParam m)%Z. }
  destruct ((if (message m =? WM_HOTKEY)%Z && (idx =? wParam m)%Z
             then hot_key_callback os cred_list else mret tt) _) as [[[]|e|] w2];
    [|done..].
  unfold TranslateMessage, DispatchMessageA. rewrite run_call.
  destruct (os_TranslateMessage os (trace w2) m) as [e|t]; [done|].
  rewrite run_call. by destruct (os_DispatchMessageA os _ m).
Qed.

(** ** The loop ends when the queue reports quit *)

Create HintDb settles.

Lemma settles_ret {A} (a : A) : settles (mret a).
Proof. by intros w w' [=]. Qed.

Lemma settles_raise {A} e : settles (@raise A e).
Proof. by intros w w' [=]. Qed.

Lemma settles_lift {A} (r : exn + A) : settles (lift r).
Proof. destruct r; [apply settles_raise|apply settles_ret]. Qed.

Lemma settles_print line : settles (print line).
Proof. by intros w w' [=]. Qed.

Lemma settles_set_clip_open b : settles (set_clip_open b).
Proof. by intros w w' [=]. Qed.

Lemma settles_store_clip f s : settles (store_clip f s).
Proof. by intros w w' [=]. Qed.

Lemma settles_call {A} (answer : list event -> exn + A) ev : settles (call answer ev).
Proof. intros w w'. unfold call. by destruct (answer (trace w)). Qed.

Lemma settles_bind {A B} (m : M A) (k : A -> M B) :
  settles m -> (forall a, settles (k a)) -> settles (m ≫= k).
Proof.
  intros Hm Hk w w'. unfold mbind, M_bind.
  destruct (m w) as [[a|e|] w1] eqn:E; [apply Hk|done|].
  by destruct (Hm _ _ E).
Qed.

Lemma settles_try_finally {A} (body : M A) (fin : M unit) :
  settles body -> settles fin -> settles (try_finally body fin).
Proof.
  intros Hb Hf w w'. unfold try_finally.
  destruct (body w) as [[a|e|] w1] eqn:E; [| |by destruct (Hb _ _ E)];
    destruct (fin w1) as [[[]|e'|] w2] eqn:E2; try done;
    by destruct (Hf _ _ E2).
Qed.

#[export] Hint Resolve settles_ret settles_raise settles_lift settles_print
  settles_set_clip_open settles_store_clip settles_call settles_bind
  settles_try_finally : settles.
#[export] Hint Extern 2 (settles (if _ then _ else _)) => case_match : settles.
#[export] Hint Extern 2 (settles (match _ with _ => _ end)) => case_match : settles.

Lemma settles_log os msg : settles (log os msg).
Proof. unfold log, now. auto with settles. Qed.

Lemma settles_SetClipboardText os text f : settles (SetClipboardText os text f).
Proof. unfold SetClipboardText. destruct text; auto with settles. Qed.

(** The handler has no loop: it returns or raises. *)
Lemma settles_hot_key_callback os cred_list : settles (hot_key_callback os cred_list).
Proof.
  unfold hot_key_callback, DoModal, selecteditem, OpenClipboard, CloseClipboard.
  apply settles_bind; [auto with settles|intros code].
  apply settles_bind; [auto with settles|intros [i|]]; [|apply settles_log].
  apply settles_bind; [auto with settles|intros cred].
  apply settles_bind; [auto with settles|intros _].
  apply settles_bind; [|intros _; apply settles_log].
  apply settles_try_finally; [|auto with settles].
  apply settles_bind; [|intros _]; apply settles_SetClipboardText.
Qed.

Lemma settles_show_help argv error : settles (show_help_then_exit argv error).
Proof. unfold show_help_then_exit. repeat case_match; auto 20 with settles. Qed.

(** So has the startup. *)
Lemma settles_startup os argv : settles (startup os argv).
Proof.
  unfold startup, main_args, main_config, main_credentials, read_nqjson_file,
    read_text, json_loads, MessageBox.
  repeat (apply settles_bind; [|intros ?]);
    auto using settles_show_help with settles.
  all: repeat case_match; auto using settles_show_help with settles.
Qed.

Lemma count_get_app a b : count_get (a ++ b) = count_get a + count_get b.
Proof. induction a as [|[] a IH]; simpl; lia. Qed.

Lemma count_get_le w w' evs :
  trace w' = trace w ++ evs -> count_get (trace w) <= count_get (trace w').
Proof. intros ->. rewrite count_get_app. lia. Qed.

(** Enough fuel: when the queue reports quit by its [n]-th fetch, the loop
    with more than [n] turns of fuel returns or raises. *)
Lemma message_loop_returns os n fuel cred_list idx msg w :
  quits_by os n -> n <= count_get (trace w) + fuel ->
  (message_loop os (S fuel) cred_list idx msg w).1 <> Pending.
Proof.
  intros Hq. revert msg w. induction fuel as [|fuel IH]; intros msg w Hn;
    rewrite run_message_loop; specialize (Hq (trace w) msg);
    destruct (os_GetMessageA os (trace w) msg) as [e|[r m]]; try done;
    cbv zeta; destruct (r =? 0)%Z eqn:Hr; try done.
  - rewrite Hq in Hr by lia. done.
  - destruct (decide (n <= count_get (trace w))) as [Hle|Hgt].
    { rewrite Hq in Hr by done. done. }
    set (w1 := record_event (EvGetMessageA (inr (r, m))) w).
    assert (count_get (trace w) + 1 <= count_get (trace w1)) as H1.
    { unfold w1. autorewrite with world. rewrite count_get_app. simpl. lia. }
    destruct ((if (message m =? WM_HOTKEY)%Z && (idx =? wParam m)%Z
               then hot_key_callback os cred_list else mret tt) w1)
      as [[[]|e|] w2] eqn:Eh; [|done|].
    + assert (count_get (trace w1) <= count_get (trace w2)) as H2.
      { destruct ((message m =? WM_HOTKEY)%Z && (idx =? wParam m)%Z).
        - destruct (emits_hot_key_callback _ _ _ _ _ Eh) as (evs & Ht & _).
          by eapply count_get_le.
        - by injection Eh as <-. }
      destruct (os_TranslateMessage os (trace w2) m) as [e|t]; [done|].
      cbv zeta. destruct (os_DispatchMessageA os _ m) as [e|d]; [done|].
      apply IH. autorewrite with world. rewrite !count_get_app. lia.
    + destruct ((message m =? WM_HOTKEY)%Z && (idx =? wParam m)%Z).
      * by destruct (settles_hot_key_callback _ _ _ _ Eh).
      * done.
Qed.

(** With that fuel [main] ends: its outcome is a return or an exception. *)
Lemma main_returns os n fuel argv w :
  quits_by os n -> n <= fuel -> (main os (S fuel) argv w).1 <> Pending.
Proof.
  intros Hq Hn. rewrite main_phases. unfold mbind, M_bind.
  destruct (startup os argv w) as [[cl|e|] w1] eqn:Es; [|done|].
  2:{ by destruct (settles_startup _ _ _ _ Es). }
  unfold main_hotkey, RegisterHotKey. rewrite run_call.
  destruct (os_RegisterHotKey os (trace w1) 0 7 80) as [e|r]; [done|].
  destruct (r =? 0)%Z; [done|].
  unfold try_finally.
  pose proof (message_loop_returns os n fuel cl 0 MSG0
                (record_event (EvRegisterHotKey 0 7 80 (inr r)) w1) Hq) as Hl.
  destruct (message_loop os (S fuel) cl 0 MSG0 _) as [[[]|e|] w2];
    [| |destruct Hl; [lia|done]];
    unfold UnregisterHotKey; rewrite run_call;
    by destruct (os_UnregisterHotKey os (trace w2) 0).
Qed.

(** The scripted queues report quit once their messages are fetched. *)
Lemma scripted_quits s : quits_by (scripted_os s) (length (sc_messages s)).
Proof. intros t msg Hn. simpl. by rewrite (lookup_ge_None_2 _ _ Hn). Qed.

(** Under a script, [main] ends when it is given one turn more than the
    queue has messages. *)
Lemma scripted_run_ends s argv w :
  (main (scripted_os s) (S (length (sc_messages s))) argv w).1 <> Pending.
Proof. by apply (main_returns _ _ _ _ _ (scripted_quits s)). Qed.

(** ** The hot key is released *)

Lemma Forall_kind_ne (ks : list kind) (k : kind) (evs : list event) :
  k ∉ ks -> Forall (fun ev => kind_of ev ∈ ks) evs ->
  Forall (fun ev => kind_of ev <> k) evs.
Proof. intros Hk H. eapply Forall_impl; [done|]. intros ev Hin <-. done. Qed.

Lemma startup_trace os argv clip o w :
  startup os argv (init_world clip) = (o, w) ->
  Forall (fun ev => kind_of ev ∈ startup_kinds) (trace w).
Proof.
  intros H. destruct (emits_startup _ _ _ _ _ H) as (evs & -> & Hf). done.
Qed.

(** C1: on every path out of the message loop, the normal one after
    [GetMessageA] returned 0 and the one of an exception raised while a
    message was fetched or dispatched (the hot-key handler included),
    [UnregisterHotKey] is called for the id 0 exactly once, after the last
    call of the loop and as the last call of [main]. The loop is left
    whenever the queue reports quit, or fails, within the turns the run is
    given. *)
Theorem hot_key_unregistered_exactly_once os fuel argv clip o w r :
  main os fuel argv (init_world clip) = (o, w) ->
  EvRegisterHotKey 0 7 80 (inr r) ∈ trace w -> r <> 0%Z ->
  (forall n, quits_by os n -> n < fuel -> o <> Pending)
  /\ (o <> Pending ->
      exists pre u o1,
        trace w = pre ++ [EvUnregisterHotKey 0 u]
        /\ Forall (fun ev => kind_of ev <> KUnregisterHotKey) pre
        /\ (o1 = Done tt \/ exists e, o1 = Raised e)
        /\ o = match u with inl e => Raised e | inr _ => o1 end).
Proof.
  intros H Hin Hr. split.
  { intros n Hq Hn. destruct fuel as [|fuel]; [lia|].
    pose proof (main_returns os n fuel argv (init_world clip) Hq) as Hm.
    rewrite H in Hm. apply Hm. lia. }
  intros Hp. rewrite main_phases in H.
  apply bind_inv in H as [(cl & w1 & Hs & H)|[(e & Hs & ->)|[Hs ->]]]; [|
    apply startup_trace in Hs;
    apply (Forall_kind _ _ _ Hs) in Hin; set_solver..].
  apply startup_trace in Hs.
  apply main_hotkey_inv in H. simpl in H.
  destruct (os_RegisterHotKey os (trace w1) 0 7 80) as [e|r'] eqn:Ea.
  { destruct H as [-> ->]. simpl in Hin.
    apply elem_of_app in Hin as [Hin|Hin%list_elem_of_singleton]; [|done].
    apply (Forall_kind _ _ _ Hs) in Hin. set_solver. }
  destruct (r' =? 0)%Z eqn:Hz.
  { destruct H as [-> ->]. simpl in Hin. apply Z.eqb_eq in Hz as ->.
    apply elem_of_app in Hin as [Hin|Hin%list_elem_of_singleton]; [|congruence].
    apply (Forall_kind _ _ _ Hs) in Hin. set_solver. }
  destruct H as (o1 & w2 & evs & Hl & Ht & Hf & H).
  simpl in Ht.
  assert (Forall (fun ev => kind_of ev <> KUnregisterHotKey) (trace w2)) as Hpre.
  { rewrite Ht. repeat apply Forall_app_2.
    - eapply Forall_kind_ne; [|done]. set_solver.
    - by repeat constructor.
    - eapply Forall_kind_ne; [|done]. set_solver. }
  destruct o1 as [[]|e1|]; [| |by destruct H]; destruct H as [-> ->];
    eexists (trace w2), _, _; (split_and!; [done|done| |done]); eauto.
Qed.

(** ** A hot key that cannot be registered *)

(** C6: when [RegisterHotKey] returns 0, [main] ends with the exception
    [Failed: user32.RegisterHotKey()]; the failed registration is its last
    call, so [GetMessageA] is never called and [UnregisterHotKey] is never
    attempted. *)
Theorem registration_failure_is_fatal os fuel argv clip o w :
  main os fuel argv (init_world clip) = (o, w) ->
  EvRegisterHotKey 0 7 80 (inr 0%Z) ∈ trace w ->
  o = Raised (Exception "Failed: user32.RegisterHotKey()")
  /\ exit_status o = Some 1%Z
  /\ (exists pre, trace w = pre ++ [EvRegisterHotKey 0 7 80 (inr 0%Z)]
                  /\ Forall (fun ev => kind_of ev ∈ startup_kinds) pre)
  /\ Forall (fun ev => kind_of ev <> KGetMessageA
                       /\ kind_of ev <> KUnregisterHotKey) (trace w).
Proof.
  intros H Hin. rewrite main_phases in H.
  apply bind_inv in H as [(cl & w1 & Hs & H)|[(e & Hs & ->)|[Hs ->]]]; [|
    apply startup_trace in Hs;
    apply (Forall_kind _ _ _ Hs) in Hin; set_solver..].
  apply startup_trace in Hs.
  apply main_hotkey_inv in H. simpl in H.
  destruct (os_RegisterHotKey os (trace w1) 0 7 80) as [e|r'] eqn:Ea.
  { destruct H as [-> ->]. simpl in Hin.
    apply elem_of_app in Hin as [Hin|Hin%list_elem_of_singleton]; [|done].
    apply (Forall_kind _ _ _ Hs) in Hin. set_solver. }
  destruct (r' =? 0)%Z eqn:Hz.
  { destruct H as [-> ->]. apply Z.eqb_eq in Hz as ->. simpl.
    split_and!; [done|done|by eexists|].
    apply Forall_app_2; [|by repeat constructor].
    eapply Forall_impl; [done|]. intros ev Hk. simpl in Hk.
    split; intros Heq; rewrite Heq in Hk; set_solver. }
  exfalso. destruct H as (o1 & w2 & evs & Hl & Ht & Hf & H). simpl in Ht.
  assert (EvRegisterHotKey 0 7 80 (inr 0%Z) ∈ trace w2 -> False) as Hno.
  { rewrite Ht. intros Hin2.
    apply elem_of_app in Hin2 as [Hin2|Hin2].
    - apply elem_of_app in Hin2 as [Hin2|Hin2%list_elem_of_singleton].
      + apply (Forall_kind _ _ _ Hs) in Hin2. set_solver.
      + apply Z.eqb_neq in Hz. congruence.
    - apply (Forall_kind _ _ _ Hf) in Hin2. set_solver. }
  destruct o1 as [[]|e1|]; destruct H as [-> ->]; simpl in Hin;
    try (apply elem_of_app in Hin as [Hin|Hin%list_elem_of_singleton]; [|done]);
    auto.
Qed.

(** ** Reading the configuration *)

Lemma read_nqjson_file_inv os path w o w' :
  read_nqjson_file os path w = (o, w') ->
  let answer := os_read_text os (trace w) path in
  w' = record_event (EvReadText path answer) w
  /\ o = match answer with
         | inl e => Raised e
         | inr text =>
             Done (py_join EmptyString
                     (map strip_comment (readlines (universal_newlines text))))
         end.
Proof.
  unfold read_nqjson_file, read_text. intros H.
  apply bind_inv in H as [(text & w1 & Hc & H)|[(e & Hc & ->)|[Hc ->]]];
    apply call_inv in Hc as [-> Hc]; simpl;
    destruct (os_read_text os (trace w) path) as [e'|text'];
    simplify_eq; [|done].
  rewrite strip_lines_all in H. simpl in H. unfold mbind, M_bind, mret, M_ret in H.
  simplify_eq. split; [done|]. do 2 f_equal.
  apply Forall_fmap_ext_1. eapply Forall_impl; [apply readlines_lines|].
  intros l Hl. by apply re_sub_line.
Qed.

Lemma main_config_inv os path w o w' :
  main_config os path w = (o, w') ->
  let p := os_abspath os path in
  match os_read_text os (trace w) p with
  | inl e => o = Raised e /\ w' = record_event (EvReadText p (inl e)) w
  | inr text =>
      let json_text :=
        py_join EmptyString (map strip_comment (readlines (universal_newlines text))) in
      let decoded := os_json_loads os json_text in
      w' = record_event (EvJsonLoads json_text decoded)
             (record_event (EvReadText p (inr text)) w)
      /\ o = match decoded with inl e => Raised e | inr config => Done config end
  end.
Proof.
  unfold main_config. intros H.
  apply bind_inv in H as [(jt & w1 & Hc & H)|[(e & Hc & ->)|[Hc ->]]];
    apply read_nqjson_file_inv in Hc as [-> Hc]; simpl in *;
    destruct (os_read_text os (trace w) (os_abspath os path)) as [e'|text'];
    simplify_eq; [|done].
  unfold json_loads in H. apply call_inv in H as [-> ->]. done.
Qed.

(** ** The history of [main] *)

Lemma emits_main_hotkey os fuel cred_list :
  emits serving_kinds (main_hotkey os fuel cred_list).
Proof.
  unfold main_hotkey, RegisterHotKey, UnregisterHotKey.
  apply emits_bind; [auto with emits|intros r].
  case_match; [auto with emits|].
  apply emits_try_finally; [|auto with emits].
  eapply emits_mono; [|apply emits_message_loop].
  intros k Hk. apply elem_of_app. by right.
Qed.

Lemma emits_serving os fuel path config :
  emits serving_kinds
    (cred_list ← main_credentials os path config; main_hotkey os fuel cred_list).
Proof.
  apply emits_bind; [|intros; apply emits_main_hotkey].
  eapply emits_mono; [|apply emits_main_credentials]. set_solver.
Qed.

Lemma Forall_no_kind (evs : list event) :
  Forall (fun ev => kind_of ev ∈ @nil kind) evs -> evs = [].
Proof. destruct evs; [done|]. inversion 1; set_solver. Qed.

(** [main], seen from its history: either nothing was called (the command
    line was refused), or the configuration file was read; when it could be
    read, the decoder was given the text without its comments; when that
    could be decoded, the rest of [main] ran on the document. *)
Lemma main_inv os fuel argv clip o w :
  main os fuel argv (init_world clip) = (o, w) ->
  trace w = []
  \/ exists path w0,
      main_args argv (init_world clip) = (Done path, w0) /\ trace w0 = [] /\
      let p := os_abspath os path in
      match os_read_text os [] p with
      | inl e => trace w = [EvReadText p (inl e)] /\ o = Raised e
      | inr text =>
          let json_text :=
            py_join EmptyString (map strip_comment (readlines (universal_newlines text))) in
          let decoded := os_json_loads os json_text in
          let w2 := record_event (EvJsonLoads json_text decoded)
                      (record_event (EvReadText p (inr text)) w0) in
          match decoded with
          | inl e => w = w2 /\ o = Raised e
          | inr config =>
              (cred_list ← main_credentials os path config;
               main_hotkey os fuel cred_list) w2 = (o, w)
              /\ exists rest,
                  trace w = EvReadText p (inr text) :: EvJsonLoads json_text decoded :: rest
                  /\ Forall (fun ev => kind_of ev ∈ serving_kinds) rest
          end
      end.
Proof.
  intros H. rewrite main_phases in H. unfold startup in H. rewrite !bind_assoc in H.
  apply bind_inv in H as [(path & w0 & Ha & H)|[(e & Ha & ->)|[Ha ->]]].
  2,3: by destruct (emits_main_args _ _ _ _ Ha) as (evs & -> & ->%Forall_no_kind);
    left.
  right. exists path, w0.
  destruct (emits_main_args _ _ _ _ Ha) as (evs & Ht0 & Hf).
  apply Forall_no_kind in Hf as ->. simpl in Ht0. split_and!; [done..|].
  rewrite bind_assoc in H.
  apply bind_inv in H as [(config & w2 & Hc & H)|[(e & Hc & ->)|[Hc ->]]];
    apply main_config_inv in Hc; simpl in Hc; rewrite Ht0 in Hc; simpl;
    destruct (os_read_text os [] (os_abspath os path)) as [e1|text];
    destruct Hc as [Hc1 Hc2].
  - done.
  - subst w2. destruct (os_json_loads os _) as [e2|config'] eqn:Ed; [done|].
    simplify_eq. split; [done|].
    destruct (emits_serving _ _ _ _ _ _ _ H) as (rest & Ht & Hfr).
    exists rest. simpl in Ht. rewrite Ht0 in Ht. done.
  - simplify_eq. simpl. by rewrite Ht0.
  - subst w. destruct (os_json_loads os _) as [e2|config'] eqn:Ed; by simplify_eq.
  - done.
  - destruct (os_json_loads os _); done.
Qed.

(** ** The comment stripper *)

Lemma line_body_ending s : line_body s +:+ line_ending s = s.
Proof.
  induction s as [|c s IH]; [done|]. simpl.
  destruct s as [|d s]; [by destruct (Ascii.eqb c LF) eqn:E; [apply Ascii.eqb_eq in E as ->|]|].
  simpl in *. by rewrite IH.
Qed.

Lemma line_body_mem c s : string_mem c s = false -> string_mem c (line_body s) = false.
Proof.
  induction s as [|d s IH]; [done|]. simpl. intros [Hd Hs]%orb_false_elim.
  destruct s as [|d' s]; [by destruct (Ascii.eqb d LF); simpl; rewrite ?Hd|].
  simpl in *. rewrite Hd. by apply IH.
Qed.

Lemma before_hash_id s : string_mem HASH s = false -> before_hash s = s.
Proof.
  induction s as [|c s IH]; [done|]. simpl. intros [Hc Hs]%orb_false_elim.
  rewrite Ascii.eqb_sym, Hc. by rewrite IH.
Qed.

(** A line without [#] is left as it is. *)
Lemma strip_comment_no_hash line :
  string_mem HASH line = false -> strip_comment line = line.
Proof.
  intros H. unfold strip_comment.
  rewrite before_hash_id; [apply line_body_ending | by apply line_body_mem].
Qed.

Lemma line_body_app_cons a c b : line_body (a +:+ String c b) = a +:+ line_body (String c b).
Proof.
  induction a as [|d a IH]; [done|].
  change (String d a +:+ String c b) with (String d (a +:+ String c b)).
  cbn [line_body]. rewrite IH. by destruct a.
Qed.

Lemma line_ending_app_cons a c b : line_ending (a +:+ String c b) = line_ending (String c b).
Proof.
  induction a as [|d a IH]; [done|].
  change (String d a +:+ String c b) with (String d (a +:+ String c b)).
  cbn [line_ending]. rewrite IH. by destruct a.
Qed.

Lemma before_hash_app pre x :
  string_mem HASH pre = false -> before_hash (pre +:+ String HASH x) = pre.
Proof.
  induction pre as [|c pre IH]; simpl.
  - intros _. by rewrite ?Ascii.eqb_refl.
  - intros [Hc Hs]%orb_false_elim. rewrite Ascii.eqb_sym, Hc. by rewrite IH.
Qed.

Lemma line_body_hash rest : exists x, line_body (String HASH rest) = String HASH x.
Proof.
  destruct rest as [|d rest]; simpl; by eauto.
Qed.

(** A line with a [#] keeps what stands before the first [#], and its
    terminator. *)
Lemma strip_comment_hash pre rest :
  string_mem HASH pre = false ->
  strip_comment (pre +:+ String HASH rest) = pre +:+ line_ending (pre +:+ String HASH rest).
Proof.
  intros H. unfold strip_comment. rewrite line_body_app_cons.
  destruct (line_body_hash rest) as [x ->]. by rewrite before_hash_app.
Qed.

Lemma line_ending_cases s : line_ending s = EmptyString \/ line_ending s = str1 LF.
Proof.
  induction s as [|c s IH]; [by left|]. simpl.
  destruct s; [|done]. destruct (Ascii.eqb c LF); auto.
Qed.

Lemma string_mem_app c a b : string_mem c (a +:+ b) = string_mem c a || string_mem c b.
Proof. induction a as [|d a IH]; simpl; [done|]. by rewrite IH, orb_assoc. Qed.

Lemma before_hash_mem s : string_mem HASH (before_hash s) = false.
Proof.
  induction s as [|c s IH]; [done|]. simpl.
  destruct (Ascii.eqb c HASH) eqn:E; [done|]. simpl. by rewrite Ascii.eqb_sym, E.
Qed.

(** No [#] is left in a stripped line. *)
Lemma strip_comment_mem line : string_mem HASH (strip_comment line) = false.
Proof.
  unfold strip_comment. rewrite string_mem_app, before_hash_mem.
  by destruct (line_ending_cases line) as [-> | ->].
Qed.

Lemma py_join_mem c (l : list string) :
  Forall (fun x => string_mem c x = false) l ->
  string_mem c (py_join EmptyString l) = false.
Proof.
  induction 1 as [|x l Hx Hl IH]; [done|].
  destruct l as [|y l]; [done|].
  change (py_join EmptyString (x :: y :: l))
    with (x +:+ EmptyString +:+ py_join EmptyString (y :: l)).
  by rewrite !string_mem_app, Hx, IH.
Qed.

(** Once the file could be read, the next call of [main] is the decoder,
    on the stripped text; [main] goes on only with a decoded document. *)
Lemma main_decodes os fuel argv clip o w path text :
  main os fuel argv (init_world clip) = (o, w) ->
  EvReadText path (inr text) ∈ trace w ->
  let json_text :=
    py_join EmptyString (map strip_comment (readlines (universal_newlines text))) in
  exists rest,
    trace w = EvReadText path (inr text)
              :: EvJsonLoads json_text (os_json_loads os json_text) :: rest
    /\ Forall (fun ev => kind_of ev ∈ serving_kinds) rest
    /\ match os_json_loads os json_text with
       | inl e => o = Raised e /\ rest = []
       | inr config =>
           exists p w2,
             trace w2 = [EvReadText path (inr text); EvJsonLoads json_text (inr config)]
             /\ (cred_list ← main_credentials os p config;
                 main_hotkey os fuel cred_list) w2 = (o, w)
       end.
Proof.
  intros H Hin json_text.
  apply main_inv in H as [Ht|(p & w0 & Ha & Ht0 & H)].
  { rewrite Ht in Hin. by apply elem_of_nil in Hin. }
  simpl in H. destruct (os_read_text os [] (os_abspath os p)) as [e|text'].
  { destruct H as [Ht _]. rewrite Ht in Hin.
    by apply list_elem_of_singleton in Hin. }
  assert (path = os_abspath os p /\ text = text') as [-> ->].
  { destruct (os_json_loads os _) as [e|config].
    - destruct H as [-> _]. simpl in Hin. rewrite Ht0 in Hin. simpl in Hin.
      apply elem_of_cons in Hin as [Hin|Hin]; [by simplify_eq|].
      by apply list_elem_of_singleton in Hin.
    - destruct H as [_ (rest & Ht & Hf)]. rewrite Ht in Hin.
      apply elem_of_cons in Hin as [Hin|Hin]; [by simplify_eq|].
      apply elem_of_cons in Hin as [Hin|Hin]; [done|].
      apply (Forall_kind _ _ _ Hf) in Hin. set_solver. }
  fold json_text in H. destruct (os_json_loads os json_text) as [e|config].
  - destruct H as [-> ->]. exists []. simpl. by rewrite Ht0.
  - destruct H as [H (rest & Ht & Hf)]. exists rest. split_and!; [done..|].
    eexists p, _. split; [|done]. simpl. by rewrite Ht0.
Qed.

(** C9: [main] hands to [json.loads] the lines of the file, each cut at its
    first [#] (the line terminator stays, a line without [#] is unchanged),
    joined again; each line is transformed on its own. *)
Theorem comments_are_stripped_line_by_line os fuel argv clip o w path text :
  main os fuel argv (init_world clip) = (o, w) ->
  EvReadText path (inr text) ∈ trace w ->
  let lines := readlines (universal_newlines text) in
  let json_text := py_join EmptyString (map strip_comment lines) in
  map (re_sub regex) lines = map strip_comment lines
  /\ Forall (fun line => string_mem HASH line = false -> strip_comment line = line) lines
  /\ Forall (fun line => forall pre rest,
               line = pre +:+ String HASH rest -> string_mem HASH pre = false ->
               strip_comment line = pre +:+ line_ending line) lines
  /\ exists rest,
      trace w = EvReadText path (inr text)
                :: EvJsonLoads json_text (os_json_loads os json_text) :: rest.
Proof.
  intros H Hin lines json_text. split_and!.
  - apply Forall_fmap_ext_1. eapply Forall_impl; [apply readlines_lines|].
    intros l Hl. by apply re_sub_line.
  - apply Forall_forall. intros line _. apply strip_comment_no_hash.
  - apply Forall_forall. intros line _ pre rest -> Hpre. by apply strip_comment_hash.
  - destruct (main_decodes _ _ _ _ _ _ _ _ H Hin) as (rest & Ht & _). by exists rest.
Qed.

(** ** A [#] inside a string literal *)

Lemma py_join_cons x l : py_join EmptyString (x :: l) = x +:+ py_join EmptyString l.
Proof. destruct l; simpl; [by rewrite append_nil_r|done]. Qed.

Lemma py_join_app l1 l2 :
  py_join EmptyString (l1 ++ l2) = py_join EmptyString l1 +:+ py_join EmptyString l2.
Proof.
  induction l1 as [|x l1 IH]; [done|].
  change ((x :: l1) ++ l2) with (x :: (l1 ++ l2)).
  by rewrite !py_join_cons, IH, append_assoc.
Qed.

Lemma lex_app st a b : lex st (a +:+ b) = lex (lex st a) b.
Proof. revert st. induction a as [|c a IH]; intros st; simpl; [done|apply IH]. Qed.

Lemma lex_err s : lex LErr s = LErr.
Proof. induction s; simpl; auto. Qed.

Lemma lex_step_LF st : in_literal st = true -> lex_step st LF = LErr.
Proof. by destruct st. Qed.

(** Every line that [readlines] returns, but the last, ends with LF. *)
Lemma readlines_endings s i line :
  readlines s !! i = Some line -> S i < length (readlines s) ->
  line_ending line = str1 LF.
Proof.
  revert i line. induction s as [|c s IH]; intros i line; [done|]. simpl.
  destruct (Ascii.eqb c LF) eqn:Hc.
  - destruct i as [|i]; simpl.
    + intros [= <-] _. done.
    + intros H Hl. apply (IH i); [done|lia].
  - destruct (readlines s) as [|l ls] eqn:E.
    + destruct i as [|i]; simpl; [lia|done].
    + destruct i as [|i]; simpl.
      * intros [= <-] Hl.
        assert (line_ending l = str1 LF) as Hend by (apply (IH 0); simpl; [done|lia]).
        destruct l as [|d l]; [done|]. done.
      * intros H Hl. by apply (IH (S i)).
Qed.

(** C10: the stripper cannot tell a [#] inside a JSON string literal from
    a comment marker. When the first [#] of a line stands inside a literal,
    the [#] and the rest of the line are removed before decoding; what the
    decoder gets has the literal broken by the end of the line, and with a
    decoder that rejects such a text (as [json.loads] does) startup ends
    with the decoder's exception, before any credential is loaded. *)
Theorem hash_inside_a_literal_is_cut os fuel argv clip o w path text i line pre rest :
  main os fuel argv (init_world clip) = (o, w) ->
  EvReadText path (inr text) ∈ trace w ->
  let lines := readlines (universal_newlines text) in
  lines !! i = Some line ->
  line = pre +:+ String HASH rest -> string_mem HASH pre = false ->
  let seen := py_join EmptyString (map strip_comment (take i lines)) +:+ pre in
  in_literal (lex LOut seen) = true ->
  (forall t, json_lex_error t = true -> exists e, os_json_loads os t = inl e) ->
  let json_text := py_join EmptyString (map strip_comment lines) in
  strip_comment line = pre +:+ line_ending line
  /\ (exists after, json_text = seen +:+ line_ending line +:+ after)
  /\ string_mem HASH json_text = false
  /\ exists e,
      os_json_loads os json_text = inl e /\ o = Raised e
      /\ trace w = [EvReadText path (inr text); EvJsonLoads json_text (inl e)].
Proof.
  intros H Hin lines Hi Hline Hpre seen Hlit Hstrict json_text.
  assert (strip_comment line = pre +:+ line_ending line) as Hstrip.
  { rewrite Hline. by apply strip_comment_hash. }
  assert (json_text = seen +:+ line_ending line
                      +:+ py_join EmptyString (map strip_comment (drop (S i) lines)))
    as Hsplit.
  { unfold json_text, seen.
    rewrite <- (take_drop_middle lines i line Hi) at 1.
    rewrite map_app, py_join_app. simpl map. rewrite py_join_cons, Hstrip.
    by rewrite !append_assoc. }
  assert (json_lex_error json_text = true) as Herr.
  { unfold json_lex_error. rewrite Hsplit, !lex_app.
    destruct (decide (S i < length lines)) as [Hlt|Hge].
    - rewrite (readlines_endings _ _ _ Hi Hlt). simpl.
      rewrite lex_step_LF; [|done]. by rewrite lex_err.
    - rewrite drop_ge; [|lia]. simpl.
      destruct (line_ending_cases line) as [-> | ->]; simpl; [done|].
      by rewrite lex_step_LF. }
  split_and!; [done|by eexists| |].
  - apply py_join_mem, Forall_fmap, Forall_forall. intros l _. apply strip_comment_mem.
  - destruct (Hstrict _ Herr) as [e He]. exists e. split; [done|].
    destruct (main_decodes _ _ _ _ _ _ _ _ H Hin) as (rst & Ht & _ & Ho).
    fold lines in Ht, Ho. fold json_text in Ht, Ho. rewrite He in Ht, Ho.
    destruct Ho as [-> ->]. done.
Qed.

(** ** Duplicate usernames *)

Lemma counter_incr_str k c :
  counter_incr (JStr k) (as_counter c) = as_counter (incr k c).
Proof.
  induction c as [|[k' n] c IH]; [done|]. simpl.
  destruct (String.eqb k' k); [done|]. by rewrite IH.
Qed.

Lemma counter_update_str names c :
  counter_update (map JStr names) (as_counter c) = inr (as_counter (tally names c)).
Proof.
  revert c. induction names as [|k names IH]; intros c; [done|].
  simpl. by rewrite counter_incr_str, IH.
Qed.

Lemma count_of_incr v k c :
  count_of v (incr k c) = count_of v c + (if String.eqb k v then 1 else 0).
Proof.
  induction c as [|[k' n] c IH]; simpl.
  - destruct (String.eqb k v); lia.
  - destruct (String.eqb k' k) eqn:E; simpl.
    + apply String.eqb_eq in E as ->. destruct (String.eqb k v); lia.
    + destruct (String.eqb k' v) eqn:E'; [|done].
      apply String.eqb_eq in E' as ->. rewrite String.eqb_sym, E. lia.
Qed.

Lemma count_of_tally v names c :
  count_of v (tally names c) = count_of v c + occurrences v names.
Proof.
  revert c. induction names as [|k names IH]; intros c; simpl; [lia|].
  rewrite IH, count_of_incr. lia.
Qed.

Lemma incr_keys k c v : v ∈ map fst (incr k c) <-> v = k \/ v ∈ map fst c.
Proof.
  induction c as [|[k' n] c IH]; simpl.
  - rewrite list_elem_of_singleton, elem_of_nil. tauto.
  - destruct (String.eqb k' k) eqn:E; simpl.
    + apply String.eqb_eq in E as ->. rewrite elem_of_cons. tauto.
    + rewrite !elem_of_cons, IH. tauto.
Qed.

Lemma incr_NoDup k c : NoDup (map fst c) -> NoDup (map fst (incr k c)).
Proof.
  induction c as [|[k' n] c IH]; simpl.
  - intros _. apply NoDup_singleton.
  - intros [Hk Hc]%NoDup_cons. destruct (String.eqb k' k) eqn:E; simpl.
    + by apply NoDup_cons.
    + apply NoDup_cons. split; [|by apply IH].
      rewrite incr_keys. intros [->|?]; [|done].
      by rewrite String.eqb_refl in E.
Qed.

Lemma tally_NoDup names c : NoDup (map fst c) -> NoDup (map fst (tally names c)).
Proof.
  revert c. induction names as [|k names IH]; intros c Hc; [done|].
  simpl. by apply IH, incr_NoDup.
Qed.

Lemma repeated_keys c v : v ∈ repeated c -> v ∈ map fst c.
Proof.
  unfold repeated. intros ([k n] & -> & Hin%list_elem_of_filter)%list_elem_of_fmap.
  apply list_elem_of_fmap. exists (k, n). tauto.
Qed.

Lemma repeated_count c v :
  NoDup (map fst c) -> v ∈ repeated c <-> 1 < count_of v c.
Proof.
  induction c as [|[k n] c IH]; simpl.
  - intros _. unfold repeated. simpl. rewrite elem_of_nil. lia.
  - intros [Hk Hc]%NoDup_cons. specialize (IH Hc).
    unfold repeated in *. rewrite filter_cons. simpl.
    destruct (String.eqb k v) eqn:E.
    + apply String.eqb_eq in E as ->. case_decide; simpl.
      * rewrite elem_of_cons. tauto.
      * split; [|lia]. intros Hin. by apply (repeated_keys c) in Hin.
    + assert (v <> k) by (intros ->; by rewrite String.eqb_refl in E).
      case_decide; simpl; rewrite ?elem_of_cons; tauto.
Qed.

Lemma repeated_NoDup c : NoDup (map fst c) -> NoDup (repeated c).
Proof.
  induction c as [|[k n] c IH]; simpl; [done|].
  intros [Hk Hc]%NoDup_cons. unfold repeated in *. rewrite filter_cons. simpl.
  case_decide; simpl; [|by apply IH].
  apply NoDup_cons. split; [|by apply IH].
  intros Hin. by apply (repeated_keys c) in Hin.
Qed.

Lemma repeated_as_counter c :
  map fst (filter (fun kv : json * nat => 1 < kv.2) (as_counter c)) = map JStr (repeated c).
Proof.
  unfold repeated. induction c as [|[k n] c IH]; [done|].
  simpl. rewrite !filter_cons. simpl. case_decide; simpl; by rewrite IH.
Qed.

Lemma mapM_usernames records names :
  Forall2 (fun record name => py_subscript record "username" = inr (JStr name))
    records names ->
  mapM_exn (fun cdict => py_subscript cdict "username") records = inr (map JStr names).
Proof.
  induction 1 as [|record name records names Hr _ IH]; [done|].
  simpl. by rewrite Hr, IH.
Qed.

Lemma py_repr_strs l :
  py_repr (JArr (map JStr l)) = "[" +:+ py_join ", " (map repr_str l) +:+ "]".
Proof. simpl. by rewrite map_map. Qed.

(** What [assert_no_dupe_username] does on a table of records with string
    usernames. *)
Lemma assert_no_dupe_username_str config records names :
  py_subscript config "credential_list" = inr (JArr records) ->
  Forall2 (fun record name => py_subscript record "username" = inr (JStr name))
    records names ->
  assert_no_dupe_username config =
    match repeated (tally names []) with
    | [] => inr tt
    | dupes =>
        inl (Exception ("Duplicate username(s): ["
                        +:+ py_join ", " (map repr_str dupes) +:+ "]"))
    end.
Proof.
  intros Hc Hn. unfold assert_no_dupe_username. rewrite Hc.
  unfold mbind, exn_bind. cbn [py_iter].
  rewrite (mapM_usernames _ _ Hn). cbv beta iota. unfold Counter.
  pose proof (counter_update_str names []) as Hcu.
  change (as_counter []) with (@nil (json * nat)) in Hcu. rewrite Hcu.
  cbv beta iota zeta.
  rewrite repeated_as_counter, length_map.
  destruct (repeated (tally names [])) as [|d ds] eqn:E; [done|].
  change (0 <? length (d :: ds))%nat with true. cbv iota.
  by rewrite py_repr_strs.
Qed.

(** The run of [main] after a document was decoded. *)
Lemma main_decoded os fuel argv clip o w json_text config :
  main os fuel argv (init_world clip) = (o, w) ->
  EvJsonLoads json_text (inr config) ∈ trace w ->
  exists path file p w2,
    trace w2 = [EvReadText path (inr file); EvJsonLoads json_text (inr config)]
    /\ (cred_list ← main_credentials os p config;
        main_hotkey os fuel cred_list) w2 = (o, w).
Proof.
  intros H Hin.
  apply main_inv in H as [Ht|(p & w0 & Ha & Ht0 & H)].
  { rewrite Ht in Hin. by apply elem_of_nil in Hin. }
  simpl in H. destruct (os_read_text os [] (os_abspath os p)) as [e|text'].
  { destruct H as [Ht _]. rewrite Ht in Hin.
    by apply list_elem_of_singleton in Hin. }
  destruct (os_json_loads os _) as [e|config'] eqn:Ed.
  - destruct H as [-> _]. simpl in Hin. rewrite Ht0 in Hin. simpl in Hin.
    apply elem_of_cons in Hin as [Hin|Hin]; [done|].
    by apply list_elem_of_singleton in Hin.
  - destruct H as [H (rest & Ht & Hf)]. rewrite Ht in Hin.
    apply elem_of_cons in Hin as [Hin|Hin]; [done|].
    apply elem_of_cons in Hin as [Hin|Hin].
    + simplify_eq. eexists _, _, p, _. split; [|done]. simpl. by rewrite Ht0.
    + apply (Forall_kind _ _ _ Hf) in Hin. set_solver.
Qed.

(** C5: when two or more records of the decoded [credential_list] have the
    same username, [main] ends with the exception [Duplicate username(s):]
    followed by the list of the usernames that occur more than once; the
    decoder's call is the last call of [main], so [RegisterHotKey] is never
    called and the message loop never starts. *)
Theorem duplicate_usernames_are_fatal os fuel argv clip o w json_text config records names u :
  main os fuel argv (init_world clip) = (o, w) ->
  EvJsonLoads json_text (inr config) ∈ trace w ->
  py_subscript config "credential_list" = inr (JArr records) ->
  Forall2 (fun record name => py_subscript record "username" = inr (JStr name))
    records names ->
  2 <= occurrences u names ->
  exists dupes,
    o = Raised (Exception ("Duplicate username(s): ["
                           +:+ py_join ", " (map repr_str dupes) +:+ "]"))
    /\ u ∈ dupes
    /\ (forall v, v ∈ dupes <-> 2 <= occurrences v names)
    /\ NoDup dupes
    /\ exit_status o = Some 1%Z
    /\ (exists path file,
          trace w = [EvReadText path (inr file); EvJsonLoads json_text (inr config)])
    /\ Forall (fun ev => kind_of ev <> KRegisterHotKey /\ kind_of ev <> KGetMessageA)
         (trace w).
Proof.
  intros H Hin Hc Hn Hu.
  assert (forall v, v ∈ repeated (tally names []) <-> 2 <= occurrences v names) as Hrep.
  { intros v. rewrite repeated_count; [|apply tally_NoDup, NoDup_nil_2].
    rewrite count_of_tally. simpl. lia. }
  destruct (main_decoded _ _ _ _ _ _ _ _ H Hin) as (path & file & p & w2 & Ht & Hrun).
  pose proof (assert_no_dupe_username_str _ _ _ Hc Hn) as Ha.
  destruct (repeated (tally names [])) as [|d ds] eqn:E.
  { apply Hrep in Hu. by apply elem_of_nil in Hu. }
  assert (o = Raised (Exception ("Duplicate username(s): ["
            +:+ py_join ", " (map repr_str (d :: ds)) +:+ "]")) /\ w = w2) as [-> ->].
  { apply bind_inv in Hrun as [(cl & w3 & Hm & _)|[(e & Hm & ->)|[Hm ->]]];
      unfold main_credentials in Hm; rewrite Ha in Hm;
      apply bind_inv in Hm as [(x & w4 & Hl & _)|[(e' & Hl & ?)|[Hl ?]]];
      unfold lift, raise in Hl; by simplify_eq. }
  exists (d :: ds). split_and!; [done|by apply Hrep|done| |done|by eauto|].
  - rewrite <- E. apply repeated_NoDup, tally_NoDup, NoDup_nil_2.
  - rewrite Ht. by repeat constructor.
Qed.

(** ** The hot-key handler *)

Lemma emits_clipboard_handoff os cred : emits handoff_kinds (clipboard_handoff os cred).
Proof.
  unfold clipboard_handoff, write_both, OpenClipboard, CloseClipboard.
  apply emits_bind; [auto with emits|intros _].
  apply emits_bind; [|intros _; apply emits_log; set_solver].
  apply emits_try_finally; [|auto with emits].
  apply emits_bind; [|intros _]; apply emits_SetClipboardText; set_solver.
Qed.

(** C4: when the prompt is cancelled (the dialog does not return [IDOK], or
    no item is selected), the handler writes its log line and returns; it
    calls nothing of the clipboard, whose content and state are what they
    were before. *)
Theorem cancelled_prompt_leaves_clipboard os cred_list w o w' evs :
  hot_key_callback os cred_list w = (o, w') ->
  trace w' = trace w ++ evs ->
  (exists code, code <> IDOK
                /\ EvDoModal APP_NAME (map username cred_list) (inr code) ∈ evs)
  \/ EvSelectedItem (inr None) ∈ evs ->
  o = Done tt
  /\ clipboard w' = clipboard w
  /\ clip_open w' = clip_open w
  /\ Forall (fun ev => kind_of ev ∈ [KDoModal; KSelectedItem; KNow]) evs
  /\ exists t, stdout w' = stdout w ++ [t +:+ ": " +:+ cancelled].
Proof.
  intros H Ht Hc. rewrite run_hot_key_callback in H.
  destruct (os_DoModal os (trace w) APP_NAME (map username cred_list)) as [e|code].
  { simplify_eq. read_events Ht. destruct Hc as [(c & Hne & Hin)|Hin]; elem_cases Hin. }
  cbv zeta in H. destruct (code =? IDOK)%Z eqn:Hcode.
  - apply Z.eqb_eq in Hcode as ->.
    destruct (os_selecteditem os _) as [e|[i|]].
    + simplify_eq. read_events Ht.
      destruct Hc as [(c & Hne & Hin)|Hin]; elem_cases Hin.
    + exfalso. destruct (py_getitem cred_list i) as [e|cred].
      * simplify_eq. read_events Ht.
        destruct Hc as [(c & Hne & Hin)|Hin]; elem_cases Hin.
      * destruct (emits_clipboard_handoff _ _ _ _ _ H) as (evs' & Ht' & Hf).
        rewrite Ht' in Ht. read_events Ht.
        destruct Hc as [(c & Hne & Hin)|Hin];
          rewrite !elem_of_cons in Hin; destruct_or?; simplify_eq;
          apply (Forall_kind _ _ _ Hf) in Hin; set_solver.
    + rewrite run_log in H. simplify_eq. read_events Ht.
      split_and!; [done..| |by eexists]. repeat constructor; set_solver.
  - rewrite run_log in H. simplify_eq. read_events Ht.
    split_and!; [done..| |by eexists]. repeat constructor; set_solver.
Qed.

Lemma py_getitem_in_bounds {A} (l : list A) (i : Z) (x : A) :
  (0 <= i < Z.of_nat (length l))%Z -> l !! Z.to_nat i = Some x ->
  py_getitem l i = inr x.
Proof.
  intros [Hi _] Hx. unfold py_getitem.
  destruct (i <? 0)%Z eqn:E; [apply Z.ltb_lt in E; lia|].
  cbv zeta. rewrite E, Hx. done.
Qed.

(** C3: when the prompt returns the in-bounds index [i] and the clipboard
    could be opened, the handler writes the password of the record at [i]
    first as [CF_TEXT], then as [CF_UNICODETEXT], between one
    [OpenClipboard] and one [CloseClipboard]; [CloseClipboard] is called
    whether or not a write raised; when both writes succeed the clipboard
    holds the password under both formats. *)
Theorem selected_password_reaches_clipboard os cred_list w o w' evs i cred pw :
  hot_key_callback os cred_list w = (o, w') ->
  trace w' = trace w ++ evs ->
  (0 <= i < Z.of_nat (length cred_list))%Z ->
  EvSelectedItem (inr (Some i)) ∈ evs ->
  EvOpenClipboard (inr tt) ∈ evs ->
  cred_list !! Z.to_nat i = Some cred ->
  password cred = JStr pw ->
  exists writes closed tail,
    evs = [EvDoModal APP_NAME (map username cred_list) (inr IDOK);
           EvSelectedItem (inr (Some i)); EvOpenClipboard (inr tt)]
          ++ writes ++ [EvCloseClipboard closed] ++ tail
    /\ Forall (fun ev => kind_of ev = KNow) tail
    /\ ((exists e, writes = [EvSetClipboardText pw CF_TEXT (inl e)])
        \/ (exists e, writes = [EvSetClipboardText pw CF_TEXT (inr tt);
                                EvSetClipboardText pw CF_UNICODETEXT (inl e)])
        \/ (writes = [EvSetClipboardText pw CF_TEXT (inr tt);
                      EvSetClipboardText pw CF_UNICODETEXT (inr tt)]
            /\ clipboard w' !! CF_TEXT = Some pw
            /\ clipboard w' !! CF_UNICODETEXT = Some pw))
    /\ (closed = inr tt -> clip_open w' = false).
Proof.
  intros H Ht Hi Hsel Hopen Hcred Hpw. rewrite run_hot_key_callback in H.
  destruct (os_DoModal os (trace w) APP_NAME (map username cred_list)) as [e|code].
  { simplify_eq. read_events Ht. elem_cases Hsel. }
  cbv zeta in H. destruct (code =? IDOK)%Z eqn:Hcode.
  2:{ rewrite run_log in H. simplify_eq. read_events Ht. elem_cases Hsel. }
  apply Z.eqb_eq in Hcode as ->.
  destruct (os_selecteditem os _) as [e|[i'|]].
  { simplify_eq. read_events Ht. elem_cases Hsel. }
  2:{ rewrite run_log in H. simplify_eq. read_events Ht. elem_cases Hsel. }
  assert (i' = i) as ->.
  { destruct (py_getitem cred_list i') as [e|cred'].
    - simplify_eq. read_events Ht. by elem_cases Hsel.
    - destruct (emits_clipboard_handoff _ _ _ _ _ H) as (evs' & Ht' & Hf).
      rewrite Ht' in Ht. read_events Ht.
      rewrite !elem_of_cons in Hsel. destruct_or?; simplify_eq; [done|].
      apply (Forall_kind _ _ _ Hf) in Hsel. set_solver. }
  rewrite (py_getitem_in_bounds _ _ _ Hi Hcred), run_clipboard_handoff in H.
  destruct (os_OpenClipboard os _) as [e|[]].
  { simplify_eq. read_events Ht. elem_cases Hopen. }
  cbv zeta in H. rewrite Hpw, run_write_both_str in H. cbv zeta in H.
  destruct (os_SetClipboardText os _ pw CF_TEXT) as [e1|[]].
  - cbv beta iota zeta in H.
    destruct (os_CloseClipboard os _) as [e2|[]]; injection H as <- <-;
      read_events Ht; split_session;
      (split_and!; [reflexivity|by repeat constructor|left; by eexists|]);
      [intros [=]|intros _; by autorewrite with world].
  - destruct (os_SetClipboardText os _ pw CF_UNICODETEXT) as [e1|[]];
      cbv beta iota zeta in H.
    + destruct (os_CloseClipboard os _) as [e2|[]]; injection H as <- <-;
        read_events Ht; split_session;
        (split_and!; [reflexivity|by repeat constructor|right; left; by eexists|]);
        [intros [=]|intros _; by autorewrite with world].
    + destruct (os_CloseClipboard os _) as [e2|[]];
        [|rewrite run_log in H]; injection H as <- <-;
        read_events Ht; split_session;
        (split_and!; [reflexivity|by repeat constructor| |]);
        [|intros [=]| |intros _; by autorewrite with world].
      all: right; right; split; [reflexivity|];
        autorewrite with world; unfold CF_TEXT, CF_UNICODETEXT;
        (split; [rewrite lookup_insert_ne by (intros [=]) |]); apply lookup_insert_eq.
Qed.

(** ** The clipboard is not touched outside the handler *)

Create HintDb keeps.

Lemma keeps_ret {A} (a : A) : keeps_clip (mret a).
Proof. by intros w o w' [= <- <-]. Qed.

Lemma keeps_raise {A} e : keeps_clip (@raise A e).
Proof. by intros w o w' [= <- <-]. Qed.

Lemma keeps_lift {A} (r : exn + A) : keeps_clip (lift r).
Proof. destruct r; [apply keeps_raise|apply keeps_ret]. Qed.

Lemma keeps_print line : keeps_clip (print line).
Proof. by intros w o w' [= <- <-]. Qed.

Lemma keeps_call {A} (answer : list event -> exn + A) ev : keeps_clip (call answer ev).
Proof.
  intros w o w' H. rewrite run_call_last in H.
  by destruct (answer (trace w)); injection H as <- <-.
Qed.

Lemma keeps_bind {A B} (m : M A) (k : A -> M B) :
  keeps_clip m -> (forall a, keeps_clip (k a)) -> keeps_clip (m ≫= k).
Proof.
  intros Hm Hk w o w' H.
  apply bind_inv in H as [(a & w1 & H1 & H2)|[(e & H1 & _)|[H1 _]]].
  - by rewrite (Hk _ _ _ _ H2), (Hm _ _ _ H1).
  - by apply (Hm _ _ _ H1).
  - by apply (Hm _ _ _ H1).
Qed.

#[export] Hint Resolve keeps_ret keeps_raise keeps_lift keeps_print keeps_call
  keeps_bind : keeps.
#[export] Hint Extern 2 (keeps_clip (if _ then _ else _)) => case_match : keeps.
#[export] Hint Extern 2 (keeps_clip (match _ with _ => _ end)) => case_match : keeps.

Lemma keeps_startup os argv : keeps_clip (startup os argv).
Proof.
  unfold startup, main_args, main_config, main_credentials, show_help_then_exit,
    read_nqjson_file, read_text, json_loads, MessageBox.
  auto 30 with keeps.
Qed.

(** ** A clipboard that cannot be opened *)

Lemma emits_write_both os text : emits [KSetClipboardText] (write_both os text).
Proof.
  unfold write_both. apply emits_bind; [|intros _]; apply emits_SetClipboardText;
    set_solver.
Qed.

(** In a run of the handler in which [OpenClipboard] raised, nothing was
    written, to the clipboard or to standard output, and the exception
    left the handler. *)
Lemma handler_open_failure os cred_list w o w' evs e :
  hot_key_callback os cred_list w = (o, w') ->
  trace w' = trace w ++ evs ->
  EvOpenClipboard (inl e) ∈ evs ->
  o = Raised e
  /\ (exists i, evs = [EvDoModal APP_NAME (map username cred_list) (inr IDOK);
                       EvSelectedItem (inr (Some i)); EvOpenClipboard (inl e)])
  /\ stdout w' = stdout w
  /\ clip_state w' = clip_state w.
Proof.
  intros H Ht Hin. rewrite run_hot_key_callback in H.
  destruct (os_DoModal os (trace w) APP_NAME (map username cred_list)) as [e0|code].
  { injection H as <- <-. read_events Ht. elem_cases Hin. }
  cbv zeta in H. destruct (code =? IDOK)%Z eqn:Hcode.
  2:{ rewrite run_log in H. injection H as <- <-. read_events Ht. elem_cases Hin. }
  apply Z.eqb_eq in Hcode as ->.
  destruct (os_selecteditem os _) as [e0|[i|]].
  { injection H as <- <-. read_events Ht. elem_cases Hin. }
  2:{ rewrite run_log in H. injection H as <- <-. read_events Ht. elem_cases Hin. }
  destruct (py_getitem cred_list i) as [e0|cred].
  { injection H as <- <-. read_events Ht. elem_cases Hin. }
  rewrite run_clipboard_handoff in H.
  destruct (os_OpenClipboard os _) as [e0|[]].
  { injection H as <- <-. read_events Ht. elem_cases Hin. split_and!; by eauto. }
  exfalso. cbv zeta in H.
  destruct (write_both os (password cred) _) as [o2 w2] eqn:Ew.
  destruct (emits_write_both _ _ _ _ _ Ew) as (evs2 & Ht2 & Hf2).
  assert (forall evs3, trace w' = trace w2 ++ evs3 ->
            Forall (fun ev => kind_of ev ∈ [KCloseClipboard; KNow]) evs3 -> False)
    as Hrest.
  { intros evs3 Ht3 Hf3. rewrite Ht3, Ht2 in Ht. read_events Ht.
    rewrite !elem_of_cons, !elem_of_app in Hin. destruct_or?; try done.
    - apply (Forall_kind _ _ _ Hf2) in Hin. set_solver.
    - apply (Forall_kind _ _ _ Hf3) in Hin. set_solver. }
  destruct (os_CloseClipboard os (trace w2)) as [e2|[]].
  { injection H as <- <-. apply (Hrest [EvCloseClipboard (inl e2)]);
      [by autorewrite with world|by repeat constructor]. }
  destruct o2 as [[]|e2|]; [rewrite run_log in H| |]; injection H as <- <-.
  - eapply (Hrest [_; _]); [by autorewrite with world; rewrite <- app_assoc|].
    repeat constructor; set_solver.
  - eapply (Hrest [_]); [by autorewrite with world|]. repeat constructor; set_solver.
  - eapply (Hrest [_]); [by autorewrite with world|]. repeat constructor; set_solver.
Qed.

(** A handler that returns leaves the clipboard closed. *)
Lemma handler_done_closed os cred_list w w' :
  hot_key_callback os cred_list w = (Done tt, w') ->
  clip_open w = false -> clip_open w' = false.
Proof.
  intros H Hc. rewrite run_hot_key_callback in H.
  destruct (os_DoModal os (trace w) APP_NAME (map username cred_list)) as [e0|code];
    [done|].
  cbv zeta in H. destruct (code =? IDOK)%Z.
  2:{ rewrite run_log in H. injection H as <-. by autorewrite with world. }
  destruct (os_selecteditem os _) as [e0|[i|]]; [done| |].
  2:{ rewrite run_log in H. injection H as <-. by autorewrite with world. }
  destruct (py_getitem cred_list i) as [e0|cred]; [done|].
  rewrite run_clipboard_handoff in H.
  destruct (os_OpenClipboard os _) as [e0|[]]; [done|].
  cbv zeta in H. destruct (write_both os (password cred) _) as [o2 w2].
  destruct (os_CloseClipboard os (trace w2)) as [e2|[]]; [done|].
  destruct o2 as [[]|e2|]; [|done..].
  rewrite run_log in H. injection H as <-. by autorewrite with world.
Qed.

(** The failure of [OpenClipboard] in a run of the loop ends the loop. *)
Lemma loop_open_failure os fuel cred_list msg w o w' evs e :
  message_loop os fuel cred_list 0 msg w = (o, w') ->
  trace w' = trace w ++ evs ->
  clip_open w = false ->
  EvOpenClipboard (inl e) ∈ evs ->
  o = Raised e
  /\ exists w1 i,
      hot_key_callback os cred_list w1 = (Raised e, w')
      /\ trace w' = trace w1
                    ++ [EvDoModal APP_NAME (map username cred_list) (inr IDOK);
                        EvSelectedItem (inr (Some i)); EvOpenClipboard (inl e)]
      /\ stdout w' = stdout w1
      /\ clipboard w' = clipboard w1
      /\ clip_open w' = false.
Proof.
  revert msg w evs. induction fuel as [|fuel IH]; intros msg w evs H Ht Hc Hin.
  { injection H as <- <-. read_events Ht. elem_cases Hin. }
  rewrite run_message_loop in H.
  destruct (os_GetMessageA os (trace w) msg) as [e0|[r m]].
  { injection H as <- <-. read_events Ht. elem_cases Hin. }
  cbv zeta in H. destruct (r =? 0)%Z.
  { injection H as <- <-. read_events Ht. elem_cases Hin. }
  set (w1 := record_event (EvGetMessageA (inr (r, m))) w) in *.
  destruct ((if (message m =? WM_HOTKEY)%Z && (0 =? wParam m)%Z
             then hot_key_callback os cred_list else mret tt) w1)
    as [oh wh] eqn:Eh.
  assert (exists evsh, trace wh = trace w1 ++ evsh
            /\ Forall (fun ev => kind_of ev ∈ handler_kinds) evsh
            /\ (forall e', EvOpenClipboard (inl e') ∈ evsh ->
                  hot_key_callback os cred_list w1 = (oh, wh)
                  /\ oh = Raised e'
                  /\ (exists i, evsh = [EvDoModal APP_NAME (map username cred_list)
                                          (inr IDOK);
                                        EvSelectedItem (inr (Some i));
                                        EvOpenClipboard (inl e')])
                  /\ stdout wh = stdout w1 /\ clip_state wh = clip_state w1)
            /\ (oh = Done tt -> clip_open wh = false))
    as (evsh & Hth & Hfh & Hfail & Hclosed).
  { destruct ((message m =? WM_HOTKEY)%Z && (0 =? wParam m)%Z).
    - destruct (emits_hot_key_callback _ _ _ _ _ Eh) as (evsh & Hth & Hfh).
      exists evsh. split_and!; [done..| |].
      + intros e' He'. split; [done|]. by eapply handler_open_failure.
      + intros ->. by eapply handler_done_closed.
    - injection Eh as <- <-. exists []. rewrite app_nil_r.
      split_and!; [done|done| |done]. intros e' He'. by apply elem_of_nil in He'. }
  destruct oh as [[]|eh|].
  - destruct (os_TranslateMessage os (trace wh) m) as [e1|t].
    { injection H as <- <-. exfalso. autorewrite with world in Ht.
      rewrite Hth in Ht. unfold w1 in Ht. read_events Ht.
      rewrite !elem_of_cons, !elem_of_app, !elem_of_cons, elem_of_nil in Hin.
      destruct_or?; try done. by destruct (Hfail _ Hin) as (_ & ? & _). }
    cbv zeta in H.
    destruct (os_DispatchMessageA os _ m) as [e1|d].
    { injection H as <- <-. exfalso. autorewrite with world in Ht.
      rewrite Hth in Ht. unfold w1 in Ht. read_events Ht.
      rewrite !elem_of_cons, !elem_of_app, !elem_of_cons, elem_of_nil in Hin.
      destruct_or?; try done. by destruct (Hfail _ Hin) as (_ & ? & _). }
    destruct (emits_message_loop _ _ _ _ _ _ _ _ H) as (evs' & Ht' & _).
    eapply (IH _ _ evs' H Ht'); [by autorewrite with world; auto|].
    rewrite Ht' in Ht. autorewrite with world in Ht.
    rewrite Hth in Ht. unfold w1 in Ht. read_events Ht.
    rewrite !elem_of_cons, !elem_of_app, !elem_of_cons in Hin.
    destruct_or?; try done. by destruct (Hfail _ Hin) as (_ & ? & _).
  - injection H as <- <-. rewrite Hth in Ht. unfold w1 in Ht. read_events Ht.
    rewrite !elem_of_cons in Hin. destruct Hin as [Hin|Hin]; [done|].
    destruct (Hfail _ Hin) as (Hrun & [= ->] & (i & ->) & Hs & [= Ho Hb]).
    split; [done|]. exists w1, i. split_and!; [done..|].
    rewrite Ho. unfold w1. by autorewrite with world.
  - injection H as <- <-. rewrite Hth in Ht. unfold w1 in Ht. read_events Ht.
    rewrite !elem_of_cons in Hin. destruct Hin as [Hin|Hin]; [done|].
    by destruct (Hfail _ Hin) as (_ & ? & _).
Qed.

(** C2, as the code has it: when [OpenClipboard] raises, the handler logs
    nothing and does not return; the exception leaves the handler and the
    message loop, which fetches no further message. Nothing of the
    clipboard is left open ([CloseClipboard] is not called, the clipboard
    is as it was), [UnregisterHotKey] is called, and [main] ends with the
    exception. *)
Theorem busy_clipboard_ends_the_program os fuel argv clip o w e :
  main os fuel argv (init_world clip) = (o, w) ->
  EvOpenClipboard (inl e) ∈ trace w ->
  exists cred_list w1 wh i u,
    hot_key_callback os cred_list w1 = (Raised e, wh)
    /\ trace wh = trace w1
                  ++ [EvDoModal APP_NAME (map username cred_list) (inr IDOK);
                      EvSelectedItem (inr (Some i)); EvOpenClipboard (inl e)]
    /\ stdout wh = stdout w1
    /\ clipboard wh = clipboard w1
    /\ clip_open wh = false
    /\ w = record_event (EvUnregisterHotKey 0 u) wh
    /\ o = match u with inl e' => Raised e' | inr _ => Raised e end.
Proof.
  intros H Hin. rewrite main_phases in H.
  apply bind_inv in H as [(cl & w1 & Hs & H)|[(e0 & Hs & ->)|[Hs ->]]]; [|
    apply startup_trace in Hs;
    apply (Forall_kind _ _ _ Hs) in Hin; set_solver..].
  pose proof (keeps_startup _ _ _ _ _ Hs) as [= Hopen _].
  apply startup_trace in Hs.
  apply main_hotkey_inv in H. simpl in H.
  destruct (os_RegisterHotKey os (trace w1) 0 7 80) as [e0|r].
  { destruct H as [-> ->]. autorewrite with world in Hin.
    apply elem_of_app in Hin as [Hin|Hin%list_elem_of_singleton]; [|done].
    apply (Forall_kind _ _ _ Hs) in Hin. set_solver. }
  destruct (r =? 0)%Z.
  { destruct H as [-> ->]. autorewrite with world in Hin.
    apply elem_of_app in Hin as [Hin|Hin%list_elem_of_singleton]; [|done].
    apply (Forall_kind _ _ _ Hs) in Hin. set_solver. }
  destruct H as (o1 & w2 & evs & Hl & Ht & Hf & H).
  assert (EvOpenClipboard (inl e) ∈ evs) as Hin'.
  { assert (EvOpenClipboard (inl e) ∈ trace w2) as Hin2.
    { destruct o1 as [[]|e1|]; destruct H as [-> ->]; autorewrite with world in Hin;
        try done; by apply elem_of_app in Hin as [Hin|Hin%list_elem_of_singleton]. }
    rewrite Ht in Hin2. autorewrite with world in Hin2.
    rewrite !elem_of_app, list_elem_of_singleton in Hin2. destruct_or?; try done.
    apply (Forall_kind _ _ _ Hs) in Hin2. set_solver. }
  destruct (loop_open_failure _ _ _ _ _ _ _ _ _ Hl Ht Hopen Hin')
    as (-> & w0 & i & Hrun & Htr & Hso & Hcb & Hco).
  destruct H as [-> ->].
  exists cl, w0, w2, i, (os_UnregisterHotKey os (trace w2) 0).
  split_and!; [done..|]. by destruct (os_UnregisterHotKey os (trace w2) 0).
Qed.

(** ** One message at a time *)

(** The handler begins with the dialog, and returns or raises. *)
Lemma handler_starts_with_dialog os cred_list w o w' evs :
  hot_key_callback os cred_list w = (o, w') ->
  trace w' = trace w ++ evs ->
  o <> Pending
  /\ exists a rest, evs = EvDoModal APP_NAME (map username cred_list) a :: rest.
Proof.
  intros H Ht. rewrite run_hot_key_callback in H.
  destruct (os_DoModal os (trace w) APP_NAME (map username cred_list)) as [e0|code].
  { injection H as <- <-. read_events Ht. split; [done|by eauto]. }
  cbv zeta in H.
  assert (forall w1 evs1, trace w1 = trace w ++ evs ->
            trace w1 = trace (record_event
                         (EvDoModal APP_NAME (map username cred_list) (inr code)) w)
                       ++ evs1 ->
            exists a rest, evs = EvDoModal APP_NAME (map username cred_list) a :: rest)
    as Hfirst.
  { intros w1 evs1 Ht1 Ht2. rewrite Ht2 in Ht1. read_events Ht1. by eauto. }
  destruct (code =? IDOK)%Z.
  2:{ rewrite run_log in H. injection H as <- <-. split; [done|].
      eapply (Hfirst _ [_]); [done|]. by autorewrite with world. }
  destruct (os_selecteditem os _) as [e0|[i|]].
  { injection H as <- <-. split; [done|].
    eapply (Hfirst _ [_]); [done|]. by autorewrite with world. }
  2:{ rewrite run_log in H. injection H as <- <-. split; [done|].
      eapply (Hfirst _ [_; _]); [done|]. autorewrite with world.
      by rewrite <- !app_assoc. }
  destruct (py_getitem cred_list i) as [e0|cred].
  { injection H as <- <-. split; [done|].
    eapply (Hfirst _ [_]); [done|]. by autorewrite with world. }
  destruct (emits_clipboard_handoff _ _ _ _ _ H) as (evs' & Ht' & _).
  split.
  - rewrite run_clipboard_handoff in H.
    destruct (os_OpenClipboard os _) as [e0|[]]; [by injection H as <- <-|].
    cbv zeta in H. destruct (write_both os (password cred) _) as [o2 w2] eqn:Ew.
    destruct (os_CloseClipboard os (trace w2)) as [e2|[]]; [by injection H as <- <-|].
    destruct o2 as [[]|e2|]; [rewrite run_log in H| |]; injection H as <- <-; try done.
    by apply write_both_not_pending in Ew.
  - eapply (Hfirst _ (_ :: evs')); [done|]. rewrite Ht'. autorewrite with world.
    by rewrite <- !app_assoc.
Qed.

(** Where an event that [l1] cannot hold lies in [l1 ++ l2]. *)
Lemma app_eq_beyond (P : event -> Prop) l1 l2 pre x post :
  Forall P l1 -> ~ P x ->
  l1 ++ l2 = pre ++ x :: post ->
  exists pre', pre = l1 ++ pre' /\ l2 = pre' ++ x :: post.
Proof.
  intros Hf Hx. revert pre. induction Hf as [|a l1 Ha _ IH]; intros pre H.
  { by exists pre. }
  destruct pre as [|b pre]; cbn [app] in H.
  { injection H as -> _. done. }
  injection H as -> H. destruct (IH _ H) as (pre' & -> & ->). by exists pre'.
Qed.

Lemma handler_fetches_nothing evs :
  Forall (fun ev => kind_of ev ∈ handler_kinds) evs ->
  Forall (fun ev => kind_of ev <> KGetMessageA) evs.
Proof.
  intros Hf. eapply Forall_impl; [exact Hf|].
  intros ev Hk E. cbv beta in Hk, E. rewrite E in Hk.
  unfold handler_kinds in Hk. elem_cases Hk.
Qed.

(** A turn of the loop begins with the fetch. What follows holds no other
    fetch, or it is the activation, [TranslateMessage] and
    [DispatchMessageA], and then the loop again. *)
Lemma message_loop_turn os fuel cred_list msg w o w' :
  message_loop os (S fuel) cred_list 0 msg w = (o, w') ->
  exists tail,
    trace w' = trace w ++ EvGetMessageA (os_GetMessageA os (trace w) msg) :: tail
    /\ (Forall (fun ev => kind_of ev <> KGetMessageA) tail
        \/ exists mid m w3 evs3,
             Forall (fun ev => kind_of ev <> KGetMessageA) mid
             /\ tail = mid ++ evs3
             /\ trace w3 = trace w ++ EvGetMessageA (os_GetMessageA os (trace w) msg) :: mid
             /\ message_loop os fuel cred_list 0 m w3 = (o, w')
             /\ trace w' = trace w3 ++ evs3).
Proof.
  intros H. rewrite run_message_loop in H.
  destruct (os_GetMessageA os (trace w) msg) as [e|[r m]].
  { injection H as <- <-. exists []. split; [by rewrite trace_record|by left]. }
  cbv zeta in H. destruct (r =? 0)%Z.
  { injection H as <- <-. exists []. split; [by rewrite trace_record|by left]. }
  set (w1 := record_event _ w) in H.
  destruct ((if (message m =? WM_HOTKEY)%Z && (0 =? wParam m)%Z
             then hot_key_callback os cred_list else mret tt) w1)
    as [oh w2] eqn:Eh.
  assert (exists evs2, trace w2 = trace w ++ EvGetMessageA (inr (r, m)) :: evs2
            /\ Forall (fun ev => kind_of ev <> KGetMessageA) evs2)
    as (evs2 & Ht2 & Hf2).
  { destruct ((message m =? WM_HOTKEY)%Z && (0 =? wParam m)%Z).
    - destruct (emits_hot_key_callback _ _ _ _ _ Eh) as (evs2 & Ht2 & Hf2).
      exists evs2. unfold w1 in Ht2. rewrite trace_record, <- app_assoc in Ht2.
      split; [done|]. by apply handler_fetches_nothing.
    - injection Eh as <- <-. exists []. split; [|done].
      unfold w1. by rewrite trace_record. }
  destruct oh as [[]|e|]; [|injection H as <- <-; exists evs2; split; [done|by left]..].
  destruct (os_TranslateMessage os (trace w2) m) as [e|t].
  { injection H as <- <-. exists (evs2 ++ [EvTranslateMessage m (inl e)]).
    rewrite trace_record, Ht2, <- app_assoc. split; [done|]. left.
    apply Forall_app. split; [done|]. by repeat constructor. }
  cbv zeta in H. destruct (os_DispatchMessageA os _ m) as [e|d].
  { injection H as <- <-.
    exists (evs2 ++ [EvTranslateMessage m (inr t); EvDispatchMessageA m (inl e)]).
    rewrite !trace_record, Ht2, <- !app_assoc. split; [done|]. left.
    apply Forall_app. split; [done|]. by repeat constructor. }
  destruct (emits_message_loop _ _ _ _ _ _ _ _ H) as (evs3 & Ht3 & _).
  exists ((evs2 ++ [EvTranslateMessage m (inr t); EvDispatchMessageA m (inr d)]) ++ evs3).
  split.
  { rewrite Ht3, !trace_record, Ht2, <- !app_assoc. done. }
  right. eexists _, m, _, evs3. split_and!; [|done| |exact H|exact Ht3].
  - apply Forall_app. split; [done|]. by repeat constructor.
  - rewrite !trace_record, Ht2, <- !app_assoc. done.
Qed.

(** The loop begins with a fetch, unless its bound is reached at once. *)
Lemma message_loop_starts os fuel cred_list msg w o w' :
  message_loop os fuel cred_list 0 msg w = (o, w') ->
  exists evs,
    trace w' = trace w ++ evs
    /\ ((o = Pending /\ evs = []) \/ exists g rest, evs = EvGetMessageA g :: rest).
Proof.
  destruct fuel as [|fuel]; intros H.
  { injection H as <- <-. exists []. split; [by rewrite app_nil_r|by left]. }
  apply message_loop_turn in H as (tail & Ht & _).
  eexists. split; [exact Ht|]. right. by eexists _, _.
Qed.

(** Every fetch of a run begins a turn of the loop. *)
Lemma fetch_begins_a_turn os fuel cred_list msg w o w' pre g post :
  message_loop os fuel cred_list 0 msg w = (o, w') ->
  trace w' = trace w ++ pre ++ EvGetMessageA g :: post ->
  exists fuel' msg' w0,
    message_loop os (S fuel') cred_list 0 msg' w0 = (o, w')
    /\ trace w0 = trace w ++ pre
    /\ os_GetMessageA os (trace w0) msg' = g.
Proof.
  revert msg w pre. induction fuel as [|fuel IH]; intros msg w pre H Ht.
  { injection H as <- <-. rewrite <- (app_nil_r (trace w)) in Ht at 1.
    apply app_inv_head in Ht. by destruct pre. }
  destruct (message_loop_turn _ _ _ _ _ _ _ H) as (tail & Ht' & Htail).
  rewrite Ht' in Ht. apply app_inv_head in Ht.
  destruct pre as [|a pre]; cbn [app] in Ht.
  { injection Ht as <- _. exists fuel, msg, w. by rewrite app_nil_r. }
  injection Ht as <- Ht.
  destruct Htail as [Hf|(mid & m & w3 & evs3 & Hmid & -> & Ht3 & Hrun & Ht3')].
  { rewrite Ht in Hf. apply Forall_app in Hf as [_ Hf]. by inversion Hf. }
  destruct (app_eq_beyond (fun ev => kind_of ev <> KGetMessageA) mid evs3 pre
              (EvGetMessageA g) post Hmid (fun Hk => Hk eq_refl) Ht)
    as (pre3 & -> & ->).
  destruct (IH _ _ _ Hrun Ht3') as (fuel' & msg' & w0 & H0 & Ht0 & Hg).
  exists fuel', msg', w0. split_and!; [done| |done].
  by rewrite Ht0, Ht3, <- app_assoc.
Qed.

(** A turn of the loop for a message that is not the quit message: the
    activation, if the message is the hot key with the identifier 0, and
    then the translation and dispatch by the OS. *)
Lemma turn_of_the_loop os fuel cred_list msg w r m o w' :
  os_GetMessageA os (trace w) msg = inr (r, m) -> r <> 0%Z ->
  message_loop os (S fuel) cred_list 0 msg w = (o, w') ->
  let w1 := record_event (EvGetMessageA (inr (r, m))) w in
  exists oh wh after,
    (if (message m =? WM_HOTKEY)%Z && (0 =? wParam m)%Z
     then hot_key_callback os cred_list else mret tt) w1 = (oh, wh)
    /\ trace w' = trace wh ++ after
    /\ match oh with
       | Done _ => handed_to_os m o after
       | Raised e => o = Raised e /\ after = []
       | Pending => o = Pending /\ after = []
       end.
Proof.
  intros Hget Hr H w1. rewrite run_message_loop, Hget in H. cbv zeta in H.
  apply Z.eqb_neq in Hr. rewrite Hr in H. fold w1 in H.
  destruct ((if (message m =? WM_HOTKEY)%Z && (0 =? wParam m)%Z
             then hot_key_callback os cred_list else mret tt) w1)
    as [oh wh] eqn:Eh.
  exists oh, wh.
  destruct oh as [[]|e|];
    [|injection H as <- <-; exists []; by rewrite app_nil_r..].
  destruct (os_TranslateMessage os (trace wh) m) as [e|t].
  { injection H as <- <-. exists [EvTranslateMessage m (inl e)].
    split_and!; [done|by rewrite trace_record|]. by exists (inl e), []. }
  cbv zeta in H. destruct (os_DispatchMessageA os _ m) as [e|d].
  { injection H as <- <-.
    exists [EvTranslateMessage m (inr t); EvDispatchMessageA m (inl e)].
    split_and!; [done|by rewrite !trace_record, <- app_assoc|].
    exists (inr t), [EvDispatchMessageA m (inl e)]. split; [done|].
    by exists (inl e), []. }
  destruct (message_loop_starts _ _ _ _ _ _ _ H) as (evs & Ht & Hevs).
  exists (EvTranslateMessage m (inr t) :: EvDispatchMessageA m (inr d) :: evs).
  split_and!; [done|by rewrite Ht, !trace_record, <- !app_assoc|].
  exists (inr t), (EvDispatchMessageA m (inr d) :: evs). split; [done|].
  exists (inr d), evs. split; [done|].
  destruct Hevs as [[-> ->]|(g & rest & ->)]; [by left|right; by eauto].
Qed.

(** C8: every message that [GetMessageA] delivers in a run of the loop,
    with a result other than 0. [pre] are the calls of the loop before the
    fetch and [post] the calls after it.

    If the message is the hot-key message with the registered identifier 0,
    the calls after the fetch begin with the whole run of the handler from
    the state at the fetch, [hevs]: its first call is the dialog over the
    usernames of the table and none of its calls is a fetch. The handler
    has ended (it is never [Pending]). If it raised, the loop ends with
    that exception and calls nothing more; if it returned, the message goes
    to the OS as below.

    Any other message goes to the OS directly, and the handler is not run:
    the call after the fetch is [TranslateMessage] on the message, the next
    is [DispatchMessageA] on the message, and the next after that is the
    following fetch; the loop ends instead if one of the two calls raised
    (or the bound of the model is reached). *)
Theorem messages_are_dispatched_in_turn os fuel cred_list msg w o w' pre r m post :
  message_loop os fuel cred_list 0 msg w = (o, w') ->
  trace w' = trace w ++ pre ++ EvGetMessageA (inr (r, m)) :: post ->
  r <> 0%Z ->
  (message m = WM_HOTKEY /\ wParam m = 0%Z ->
     exists wg oh wh hevs after,
       trace wg = trace w ++ pre ++ [EvGetMessageA (inr (r, m))]
       /\ hot_key_callback os cred_list wg = (oh, wh)
       /\ trace wh = trace wg ++ hevs
       /\ post = hevs ++ after
       /\ (exists a rest, hevs = EvDoModal APP_NAME (map username cred_list) a :: rest)
       /\ Forall (fun ev => kind_of ev ∈ handler_kinds /\ kind_of ev <> KGetMessageA) hevs
       /\ match oh with
          | Done _ => handed_to_os m o after
          | Raised e => o = Raised e /\ after = []
          | Pending => False
          end)
  /\ (~ (message m = WM_HOTKEY /\ wParam m = 0%Z) -> handed_to_os m o post).
Proof.
  intros H Ht Hr.
  destruct (fetch_begins_a_turn _ _ _ _ _ _ _ _ _ _ H Ht)
    as (fuel' & msg' & w0 & H0 & Ht0 & Hget).
  destruct (turn_of_the_loop _ _ _ _ _ _ _ _ _ Hget Hr H0)
    as (oh & wh & after & Eh & Ht' & Hafter).
  set (w1 := record_event (EvGetMessageA (inr (r, m))) w0) in *.
  assert (trace w1 = trace w ++ pre ++ [EvGetMessageA (inr (r, m))]) as Ht1.
  { unfold w1. by rewrite trace_record, Ht0, <- app_assoc. }
  split.
  - intros [Hm Hw]. rewrite Hm, Hw in Eh. cbn [andb] in Eh.
    change ((WM_HOTKEY =? WM_HOTKEY)%Z && (0 =? 0)%Z) with true in Eh.
    destruct (emits_hot_key_callback _ _ _ _ _ Eh) as (hevs & Hth & Hfh).
    destruct (handler_starts_with_dialog _ _ _ _ _ _ Eh Hth) as (Hp & Hdlg).
    exists w1, oh, wh, hevs, after. split_and!; [done|done|done| |done| |].
    + rewrite Ht', Hth, Ht1, <- !app_assoc in Ht. apply app_inv_head in Ht.
      apply app_inv_head in Ht. cbn [app] in Ht. by injection Ht as <-.
    + apply Forall_and. split; [done|]. by apply handler_fetches_nothing.
    + by destruct oh as [[]|e|].
  - intros Hn.
    assert ((message m =? WM_HOTKEY)%Z && (0 =? wParam m)%Z = false) as Hc.
    { apply andb_false_iff.
      destruct (message m =? WM_HOTKEY)%Z eqn:E1; [|by left]. right.
      apply Z.eqb_eq in E1. apply Z.eqb_neq. intros E2. by apply Hn. }
    rewrite Hc in Eh. injection Eh as <- <-.
    rewrite Ht', Ht1, <- !app_assoc in Ht. apply app_inv_head in Ht.
    apply app_inv_head in Ht. cbn [app] in Ht. by injection Ht as <-.
Qed.

(** ** The command line *)

Lemma run_raise {A B} e (k : A -> M B) w : (raise e ≫= k) w = (Raised e, w).
Proof. done. Qed.

Lemma run_ret {A B} (a : A) (k : A -> M B) w : (mret a ≫= k) w = k a w.
Proof. done. Qed.

Lemma run_show_help {B} sys_argv prog error (k : unit -> M B) w :
  sys_argv !! 0 = Some prog ->
  exists w',
    (show_help_then_exit sys_argv error ≫= k) w = (Raised (SystemExit 1), w')
    /\ trace w' = trace w
    /\ stdout w' = stdout w
                   ++ match error with
                      | Some e => ["ERROR: " +:+ e]
                      | None => []
                      end ++ usage prog.
Proof.
  intros Hp.
  assert (py_getitem sys_argv 0 = inr prog) as Hget.
  { unfold py_getitem. change (0 <? 0)%Z with false. cbv beta iota zeta.
    change (Z.to_nat 0) with 0%nat. by rewrite Hp. }
  unfold show_help_then_exit. rewrite !bind_assoc.
  destruct error as [e|].
  - rewrite run_print, bind_assoc, run_lift, Hget.
    rewrite !bind_assoc. repeat (rewrite run_print, ?bind_assoc). rewrite run_raise.
    eexists. split; [done|]. autorewrite with world.
    split; [done|]. by rewrite <- !app_assoc.
  - rewrite run_ret.
    rewrite bind_assoc, run_lift, Hget.
    rewrite !bind_assoc. repeat (rewrite run_print, ?bind_assoc). rewrite run_raise.
    eexists. split; [done|]. autorewrite with world.
    split; [done|]. by rewrite <- !app_assoc.
Qed.

(** With a missing or an extra argument [main] prints the usage text and
    exits with status 1. *)
Lemma wrong_argument_count_shows_usage os fuel argv prog w :
  length argv <> 2 -> argv !! 0 = Some prog ->
  exists w',
    main os fuel argv w = (Raised (SystemExit 1), w')
    /\ exit_status (Raised (SystemExit 1)) = Some 1%Z
    /\ trace w' = trace w
    /\ stdout w' = stdout w
                   ++ [EmptyString; "ERROR: Missing requirement argument: JSON_CONFIG_FILE"]
                   ++ usage prog.
Proof.
  intros Hn Hp. unfold main. rewrite run_print.
  apply Nat.eqb_neq in Hn. rewrite Hn. cbn [negb].
  match goal with
  | |- context [(show_help_then_exit _ _ ≫= ?k) ?w1] =>
      destruct (run_show_help argv prog
                  (Some "Missing requirement argument: JSON_CONFIG_FILE") k w1 Hp)
        as (w' & Hrun & Ht & Hs)
  end.
  exists w'. split_and!; [exact Hrun|done| |].
  - by rewrite Ht.
  - rewrite Hs. autorewrite with world. by rewrite <- !app_assoc.
Qed.

(** With two elements in [argv], [main] compares the program name
    [argv[0]] with the help flags, and never [argv[1]]: whatever the
    argument is, it is taken for the path of the configuration file. *)
Lemma argument_is_taken_for_the_path os fuel prog arg w :
  prog ∉ ["/?"; "-h"; "--help"] ->
  main os fuel [prog; arg] w =
    (config ← main_config os arg;
     cred_list ← main_credentials os arg config;
     main_hotkey os fuel cred_list) (with_line EmptyString w).
Proof.
  intros Hp.
  rewrite main_phases. unfold startup, main_args. rewrite !bind_assoc, run_print.
  cbn [length Nat.eqb negb]. rewrite !bind_assoc.
  change (py_getitem [prog; arg] 0) with (@inr exn _ prog). rewrite run_lift.
  rewrite bool_decide_eq_false_2 by done.
  change (py_getitem [prog; arg] 1) with (@inr exn _ arg).
  rewrite run_ret, run_lift. by rewrite bind_assoc.
Qed.

(** C7, at the input [main.py -h] when no file has the name [-h]: [main]
    does not print the usage text; it asks for the file [-h] and ends with
    the exception of the failed [open]. *)
Theorem help_flag_is_taken_for_the_config_file :
  let run := main (scripted_os script_no_file) 1 ["main.py"; "-h"] (init_world ∅) in
  run.1 = Raised (Fault "FileNotFoundError")
  /\ trace run.2 = [EvReadText "C:\-h" (inl (Fault "FileNotFoundError"))]
  /\ stdout run.2 = [EmptyString]
  /\ run.1 <> Raised (SystemExit 1).
Proof. vm_compute. split_and!; [reflexivity..|discriminate]. Qed.

(** ** The scenarios, run *)

Lemma hot_key_unregistered_exactly_once_witness :
  (forall n, quits_by (scripted_os script_busy) n -> n < 3 ->
     (run_of script_busy 3 argv_ok).1 <> Pending)
  /\ ((run_of script_busy 3 argv_ok).1 <> Pending ->
      exists pre u o1,
        trace (run_of script_busy 3 argv_ok).2 = pre ++ [EvUnregisterHotKey 0 u]
        /\ Forall (fun ev => kind_of ev <> KUnregisterHotKey) pre
        /\ (o1 = Done tt \/ exists e, o1 = Raised e)
        /\ (run_of script_busy 3 argv_ok).1
           = match u with inl e => Raised e | inr _ => o1 end).
Proof.
  apply (hot_key_unregistered_exactly_once
           (scripted_os script_busy) 3 argv_ok ∅ _ _ 1).
  - apply surjective_pairing.
  - in_list.
  - lia.
Defined.

(** The same on the normal path: the queue reports quit after two
    messages. *)
Example unregistered_after_quit :
  (run_of script_select 3 argv_ok).1 = Done tt
  /\ last (trace (run_of script_select 3 argv_ok).2)
     = Some (EvUnregisterHotKey 0 (inr 1%Z))
  /\ length (filter (fun ev => kind_of ev = KUnregisterHotKey)
               (trace (run_of script_select 3 argv_ok).2)) = 1.
Proof. vm_compute. done. Qed.

(** C2 as it is stated fails when the clipboard is held by another
    process: the handler raises. *)
Lemma busy_clipboard_is_not_survived :
  ~ busy_clipboard_is_survived (scripted_os script_busy) table (init_world ∅).
Proof.
  intros H.
  destruct (H (activation script_busy).1 (activation script_busy).2
              (trace (activation script_busy).2)
              (Fault "OpenClipboard: access is denied")) as [Ho _].
  - apply surjective_pairing.
  - reflexivity.
  - in_list.
  - vm_compute in Ho. discriminate.
Qed.

(** With two hot-key messages in the queue, the second is never fetched. *)
Example busy_clipboard_stops_the_loop :
  (run_of script_busy 5 argv_ok).1 = Raised (Fault "OpenClipboard: access is denied")
  /\ count_get (trace (run_of script_busy 5 argv_ok).2) = 1
  /\ stdout (run_of script_busy 5 argv_ok).2 = [EmptyString].
Proof. vm_compute. done. Qed.

Lemma busy_clipboard_ends_the_program_witness :
  exists cred_list w1 wh i u,
    hot_key_callback (scripted_os script_busy) cred_list w1
      = (Raised (Fault "OpenClipboard: access is denied"), wh)
    /\ trace wh = trace w1
                  ++ [EvDoModal APP_NAME (map username cred_list) (inr IDOK);
                      EvSelectedItem (inr (Some i));
                      EvOpenClipboard (inl (Fault "OpenClipboard: access is denied"))]
    /\ stdout wh = stdout w1
    /\ clipboard wh = clipboard w1
    /\ clip_open wh = false
    /\ (run_of script_busy 3 argv_ok).2 = record_event (EvUnregisterHotKey 0 u) wh
    /\ (run_of script_busy 3 argv_ok).1
       = match u with
         | inl e' => Raised e'
         | inr _ => Raised (Fault "OpenClipboard: access is denied")
         end.
Proof.
  apply (busy_clipboard_ends_the_program (scripted_os script_busy) 3 argv_ok ∅).
  - apply surjective_pairing.
  - in_list.
Defined.

Lemma selected_password_reaches_clipboard_witness :
  exists writes closed tail,
    trace (activation script_select).2
    = [EvDoModal APP_NAME (map username table) (inr IDOK);
       EvSelectedItem (inr (Some 1%Z)); EvOpenClipboard (inr tt)]
      ++ writes ++ [EvCloseClipboard closed] ++ tail
    /\ Forall (fun ev => kind_of ev = KNow) tail
    /\ ((exists e, writes = [EvSetClipboardText "p2" CF_TEXT (inl e)])
        \/ (exists e, writes = [EvSetClipboardText "p2" CF_TEXT (inr tt);
                                EvSetClipboardText "p2" CF_UNICODETEXT (inl e)])
        \/ (writes = [EvSetClipboardText "p2" CF_TEXT (inr tt);
                      EvSetClipboardText "p2" CF_UNICODETEXT (inr tt)]
            /\ clipboard (activation script_select).2 !! CF_TEXT = Some "p2"
            /\ clipboard (activation script_select).2 !! CF_UNICODETEXT = Some "p2"))
    /\ (closed = inr tt -> clip_open (activation script_select).2 = false).
Proof.
  apply (selected_password_reaches_clipboard (scripted_os script_select) table
           (init_world ∅) (activation script_select).1 _ _ 1
           (mkCredential (JStr "bob") (JStr "p2")) "p2").
  - apply surjective_pairing.
  - reflexivity.
  - vm_compute. split; [discriminate|reflexivity].
  - in_list.
  - in_list.
  - reflexivity.
  - reflexivity.
Defined.

(** Scenario A: the table of alice and bob, index 1: both formats hold
    [p2], written in one session. *)
Example scenario_A :
  (activation script_select).1 = Done tt
  /\ clipboard (activation script_select).2 !! CF_TEXT = Some "p2"
  /\ clipboard (activation script_select).2 !! CF_UNICODETEXT = Some "p2"
  /\ clip_open (activation script_select).2 = false
  /\ filter (fun ev => kind_of ev ∈ handoff_kinds) (trace (activation script_select).2)
     = [EvOpenClipboard (inr tt); EvSetClipboardText "p2" CF_TEXT (inr tt);
        EvSetClipboardText "p2" CF_UNICODETEXT (inr tt); EvCloseClipboard (inr tt);
        EvNow "2026-11-04 12:00:00.000000"].
Proof. vm_compute. done. Qed.

Lemma cancelled_prompt_leaves_clipboard_witness :
  (activation script_cancel).1 = Done tt
  /\ clipboard (activation script_cancel).2 = clipboard (init_world ∅)
  /\ clip_open (activation script_cancel).2 = clip_open (init_world ∅)
  /\ Forall (fun ev => kind_of ev ∈ [KDoModal; KSelectedItem; KNow])
       (trace (activation script_cancel).2)
  /\ exists t,
      stdout (activation script_cancel).2
      = stdout (init_world ∅) ++ [t +:+ ": " +:+ cancelled].
Proof.
  apply (cancelled_prompt_leaves_clipboard (scripted_os script_cancel) table
           (init_world ∅)).
  - apply surjective_pairing.
  - reflexivity.
  - left. exists 2%Z. split; [discriminate|in_list].
Defined.

Lemma duplicate_usernames_are_fatal_witness :
  exists dupes,
    (run_of script_dupe 3 argv_ok).1
    = Raised (Exception ("Duplicate username(s): ["
                         +:+ py_join ", " (map repr_str dupes) +:+ "]"))
    /\ "alice" ∈ dupes
    /\ (forall v, v ∈ dupes <-> 2 <= occurrences v ["alice"; "bob"; "alice"])
    /\ NoDup dupes
    /\ exit_status (run_of script_dupe 3 argv_ok).1 = Some 1%Z
    /\ (exists path file,
          trace (run_of script_dupe 3 argv_ok).2
          = [EvReadText path (inr file);
             EvJsonLoads
               (py_join EmptyString
                  (map strip_comment (readlines (universal_newlines dupe_file))))
               (inr dupe_config)])
    /\ Forall (fun ev => kind_of ev <> KRegisterHotKey /\ kind_of ev <> KGetMessageA)
         (trace (run_of script_dupe 3 argv_ok).2).
Proof.
  apply (duplicate_usernames_are_fatal (scripted_os script_dupe) 3 argv_ok ∅ _ _ _
           dupe_config
           [credential_dict "alice" "p1"; credential_dict "bob" "p2";
            credential_dict "alice" "p3"]).
  - apply surjective_pairing.
  - in_list.
  - reflexivity.
  - repeat constructor.
  - vm_compute. lia.
Defined.

(** Scenario C, by evaluation: the message names alice. *)
Example scenario_C :
  (run_of script_dupe 3 argv_ok).1
  = Raised (Exception "Duplicate username(s): ['alice']").
Proof. vm_compute. done. Qed.

Lemma registration_failure_is_fatal_witness :
  (run_of script_taken 3 argv_ok).1 = Raised (Exception "Failed: user32.RegisterHotKey()")
  /\ exit_status (run_of script_taken 3 argv_ok).1 = Some 1%Z
  /\ (exists pre,
        trace (run_of script_taken 3 argv_ok).2
        = pre ++ [EvRegisterHotKey 0 7 80 (inr 0%Z)]
        /\ Forall (fun ev => kind_of ev ∈ startup_kinds) pre)
  /\ Forall (fun ev => kind_of ev <> KGetMessageA /\ kind_of ev <> KUnregisterHotKey)
       (trace (run_of script_taken 3 argv_ok).2).
Proof.
  apply (registration_failure_is_fatal (scripted_os script_taken) 3 argv_ok ∅).
  - apply surjective_pairing.
  - in_list.
Defined.

Lemma messages_are_dispatched_in_turn_witness :
  let os := scripted_os script_select in
  let run := message_loop os 3 table 0 MSG0 (init_world ∅) in
  let turn := [EvTranslateMessage other_message (inr 0%Z);
               EvDispatchMessageA other_message (inr 0%Z)] in
  let hevs := [EvDoModal APP_NAME (map username table) (inr IDOK);
               EvSelectedItem (inr (Some 1%Z));
               EvOpenClipboard (inr tt);
               EvSetClipboardText "p2" CF_TEXT (inr tt);
               EvSetClipboardText "p2" CF_UNICODETEXT (inr tt);
               EvCloseClipboard (inr tt);
               EvNow "2026-11-04 12:00:00.000000"] in
  let after := [EvTranslateMessage hotkey_message (inr 0%Z);
                EvDispatchMessageA hotkey_message (inr 0%Z);
                EvGetMessageA (inr (0%Z, hotkey_message))] in
  (exists wg oh wh hevs' after',
     trace wg = trace (init_world ∅)
                ++ (EvGetMessageA (inr (1%Z, other_message)) :: turn)
                ++ [EvGetMessageA (inr (1%Z, hotkey_message))]
     /\ hot_key_callback os table wg = (oh, wh)
     /\ trace wh = trace wg ++ hevs'
     /\ hevs ++ after = hevs' ++ after'
     /\ (exists a rest, hevs' = EvDoModal APP_NAME (map username table) a :: rest)
     /\ Forall (fun ev => kind_of ev ∈ handler_kinds /\ kind_of ev <> KGetMessageA) hevs'
     /\ match oh with
        | Done _ => handed_to_os hotkey_message run.1 after'
        | Raised e => run.1 = Raised e /\ after' = []
        | Pending => False
        end)
  /\ handed_to_os other_message run.1
       (turn ++ EvGetMessageA (inr (1%Z, hotkey_message)) :: hevs ++ after).
Proof.
  intros os run turn hevs after. split.
  - apply (messages_are_dispatched_in_turn os 3 table MSG0 (init_world ∅) run.1 run.2
             (EvGetMessageA (inr (1%Z, other_message)) :: turn) 1 hotkey_message
             (hevs ++ after)).
    + apply surjective_pairing.
    + reflexivity.
    + lia.
    + split; reflexivity.
  - apply (messages_are_dispatched_in_turn os 3 table MSG0 (init_world ∅) run.1 run.2
             [] 1 other_message
             (turn ++ EvGetMessageA (inr (1%Z, hotkey_message)) :: hevs ++ after)).
    + apply surjective_pairing.
    + reflexivity.
    + lia.
    + intros [Hm _]. discriminate Hm.
Defined.

Lemma comments_are_stripped_line_by_line_witness :
  let lines := readlines (universal_newlines table_file) in
  let json_text := py_join EmptyString (map strip_comment lines) in
  map (re_sub regex) lines = map strip_comment lines
  /\ Forall (fun line => string_mem HASH line = false -> strip_comment line = line) lines
  /\ Forall (fun line => forall pre rest,
               line = pre +:+ String HASH rest -> string_mem HASH pre = false ->
               strip_comment line = pre +:+ line_ending line) lines
  /\ exists rest,
      trace (run_of script_select 3 argv_ok).2
      = EvReadText "C:\pw.json" (inr table_file)
        :: EvJsonLoads json_text (os_json_loads (scripted_os script_select) json_text)
        :: rest.
Proof.
  apply (comments_are_stripped_line_by_line (scripted_os script_select) 3 argv_ok ∅
           (run_of script_select 3 argv_ok).1 (run_of script_select 3 argv_ok).2
           "C:\pw.json" table_file).
  - apply surjective_pairing.
  - in_list.
Defined.

(** The first line of [table_file] loses its comment and keeps its
    terminator. *)
Example first_line_stripped :
  readlines (universal_newlines table_file) !! 0
  = Some ("{ # two credentials" +:+ str1 LF)
  /\ re_sub regex ("{ # two credentials" +:+ str1 LF) = "{ " +:+ str1 LF.
Proof. vm_compute. done. Qed.

Lemma scripted_decoder_is_strict s t :
  json_lex_error t = true -> exists e, os_json_loads (scripted_os s) t = inl e.
Proof. intros Ht. simpl. unfold strict_decoder. rewrite Ht. by eexists. Qed.

Lemma hash_inside_a_literal_is_cut_witness :
  let lines := readlines (universal_newlines hash_file) in
  let line := hash_line_before +:+ String HASH hash_line_after in
  let seen := py_join EmptyString (map strip_comment (take 1 lines)) +:+ hash_line_before in
  let json_text := py_join EmptyString (map strip_comment lines) in
  strip_comment line = hash_line_before +:+ line_ending line
  /\ (exists after, json_text = seen +:+ line_ending line +:+ after)
  /\ string_mem HASH json_text = false
  /\ exists e,
      os_json_loads (scripted_os script_hash) json_text = inl e
      /\ (run_of script_hash 3 argv_ok).1 = Raised e
      /\ trace (run_of script_hash 3 argv_ok).2
         = [EvReadText "C:\pw.json" (inr hash_file); EvJsonLoads json_text (inl e)].
Proof.
  apply (hash_inside_a_literal_is_cut (scripted_os script_hash) 3 argv_ok ∅
           (run_of script_hash 3 argv_ok).1 (run_of script_hash 3 argv_ok).2
           "C:\pw.json" hash_file 1
           (hash_line_before +:+ String HASH hash_line_after)
           hash_line_before hash_line_after).
  - apply surjective_pairing.
  - in_list.
  - vm_compute. reflexivity.
  - reflexivity.
  - vm_compute. reflexivity.
  - vm_compute. reflexivity.
  - apply scripted_decoder_is_strict.
Defined.

(** * Further properties of the program *)

(** ** The command line, continued *)

(** [show_help_then_exit] alone: it always leaves by [sys.exit(1)]. *)
Lemma show_help_exits {B} sys_argv prog error (k : unit -> M B) w :
  sys_argv !! 0 = Some prog ->
  exists w',
    (show_help_then_exit sys_argv error ≫= k) w = (Raised (SystemExit 1), w')
    /\ trace w' = trace w
    /\ stdout w' = stdout w
                   ++ match error with
                      | Some e => ["ERROR: " +:+ e]
                      | None => []
                      end ++ usage prog
    /\ clip_state w' = clip_state w.
Proof.
  intros Hp.
  destruct (run_show_help sys_argv prog error (@mret M _ unit) w Hp)
    as (w' & Hrun & Ht & Hs).
  rewrite bind_ret_r in Hrun. exists w'. split_and!; [|done|done|].
  - unfold mbind, M_bind. by rewrite Hrun.
  - assert (keeps_clip (show_help_then_exit sys_argv error)) as Hk
      by (unfold show_help_then_exit; auto 20 with keeps).
    by apply Hk in Hrun.
Qed.

(** X1: with a missing or an extra argument, whatever the arguments are,
    [main] prints the empty line, the error line and the usage text with
    the program name, calls nothing of the environment, leaves the
    clipboard alone and ends by [sys.exit(1)]. *)
Theorem wrong_argument_count_is_a_usage_error os fuel argv prog clip o w :
  main os fuel argv (init_world clip) = (o, w) ->
  length argv <> 2 -> argv !! 0 = Some prog ->
  o = Raised (SystemExit 1)
  /\ exit_status o = Some 1%Z
  /\ trace w = []
  /\ stdout w = [EmptyString; "ERROR: Missing requirement argument: JSON_CONFIG_FILE"]
                ++ usage prog
  /\ clipboard w = clip.
Proof.
  intros H Hn Hp. unfold main in H. rewrite run_print in H.
  apply Nat.eqb_neq in Hn. rewrite Hn in H. cbn [negb] in H.
  match type of H with
  | context [(show_help_then_exit _ _ ≫= ?k) ?w1] =>
      destruct (show_help_exits argv prog
                  (Some "Missing requirement argument: JSON_CONFIG_FILE") k w1 Hp)
        as (w' & Hrun & Ht & Hs & Hc)
  end.
  rewrite Hrun in H. injection H as <- <-.
  split_and!; [done|done|by rewrite Ht|by rewrite Hs|].
  by injection Hc as _ ->.
Qed.

(** X2: the help flags are looked for in [argv[0]]. When the program is
    started under the name [-h], [--help] or [/?] with one argument, [main]
    prints the usage text without an error line and ends by [sys.exit(1)];
    the argument is not read and no file is opened. *)
Theorem help_flag_as_program_name_shows_usage os fuel flag arg clip o w :
  main os fuel [flag; arg] (init_world clip) = (o, w) ->
  flag ∈ ["/?"; "-h"; "--help"] ->
  o = Raised (SystemExit 1)
  /\ trace w = []
  /\ stdout w = [EmptyString] ++ usage flag
  /\ clipboard w = clip.
Proof.
  intros H Hf. unfold main in H. rewrite run_print in H.
  cbn [length Nat.eqb negb] in H. rewrite !bind_assoc in H.
  change (py_getitem [flag; arg] 0) with (@inr exn _ flag) in H.
  rewrite run_lift in H. rewrite bool_decide_eq_true_2 in H by done.
  match type of H with
  | context [(show_help_then_exit _ _ ≫= ?k) ?w1] =>
      destruct (show_help_exits [flag; arg] flag None k w1 eq_refl)
        as (w' & Hrun & Ht & Hs & Hc)
  end.
  rewrite Hrun in H. injection H as <- <-.
  split_and!; [done|by rewrite Ht|by rewrite Hs|].
  by injection Hc as _ ->.
Qed.

(** ** Reading the configuration, continued *)

(** X3: when the file cannot be opened or read, [main] ends with the
    exception of [io.open]; the one call it made is the read of the
    absolute path of [argv[1]]: nothing is decoded, no message box is shown
    and no hot key is registered. *)
Theorem unreadable_file_is_fatal os fuel prog arg clip o w e :
  main os fuel [prog; arg] (init_world clip) = (o, w) ->
  prog ∉ ["/?"; "-h"; "--help"] ->
  os_read_text os [] (os_abspath os arg) = inl e ->
  o = Raised e
  /\ trace w = [EvReadText (os_abspath os arg) (inl e)]
  /\ stdout w = [EmptyString]
  /\ clipboard w = clip.
Proof.
  intros H Hp He. rewrite argument_is_taken_for_the_path in H by done.
  apply bind_inv in H as [(config & w1 & Hc & _)|[(e' & Hc & ->)|[Hc ->]]];
    apply main_config_inv in Hc; cbv zeta in Hc;
    autorewrite with world in Hc; simpl in Hc; rewrite He in Hc;
    destruct Hc as [Ho ->]; [done| |done].
  injection Ho as <-. by autorewrite with world.
Qed.

(** ** The comment stripper, continued *)

Lemma string_ind2 (P : string -> Prop) :
  P EmptyString -> (forall c, P (String c EmptyString)) ->
  (forall c d s, P s -> P (String d s) -> P (String c (String d s))) ->
  forall s, P s.
Proof.
  intros H0 H1 H2.
  assert (forall s, P s /\ forall c, P (String c s)) as H.
  { induction s as [|d s [IH1 IH2]]; [by split|]. split; [apply IH2|].
    intros c. by apply H2. }
  intros s. apply H.
Qed.

Lemma universal_newlines_cons a b s :
  universal_newlines (String a (String b s))
  = if Ascii.eqb a CR
    then if Ascii.eqb b LF then String LF (universal_newlines s)
         else String LF (universal_newlines (String b s))
    else String a (universal_newlines (String b s)).
Proof. done. Qed.

Lemma universal_newlines_mem c s :
  Ascii.eqb c CR = false -> Ascii.eqb c LF = false ->
  string_mem c (universal_newlines s) = string_mem c s.
Proof.
  intros Hcr Hlf. induction s as [|a|a b s IH1 IH2] using string_ind2.
  - done.
  - simpl. destruct (Ascii.eqb a CR) eqn:E; simpl; [|done].
    apply Ascii.eqb_eq in E as ->. by rewrite Hcr, Hlf.
  - rewrite universal_newlines_cons. destruct (Ascii.eqb a CR) eqn:E.
    + apply Ascii.eqb_eq in E as ->. destruct (Ascii.eqb b LF) eqn:E2.
      * apply Ascii.eqb_eq in E2 as ->. cbn [string_mem].
        by rewrite IH1, Hcr, Hlf.
      * cbn [string_mem]. rewrite IH2. cbn [string_mem]. by rewrite Hcr, Hlf.
    + cbn [string_mem]. by rewrite IH2.
Qed.

Lemma universal_newlines_no_CR s : string_mem CR (universal_newlines s) = false.
Proof.
  induction s as [|a|a b s IH1 IH2] using string_ind2.
  - done.
  - simpl. destruct (Ascii.eqb a CR) eqn:E; simpl; [done|].
    by rewrite Ascii.eqb_sym, E.
  - rewrite universal_newlines_cons. destruct (Ascii.eqb a CR) eqn:E.
    + destruct (Ascii.eqb b LF) eqn:E2; cbn [string_mem]; [by rewrite IH1|].
      by rewrite IH2.
    + cbn [string_mem]. by rewrite IH2, Ascii.eqb_sym, E.
Qed.

Lemma universal_newlines_fixed s :
  string_mem CR s = false -> universal_newlines s = s.
Proof.
  induction s as [|a|a b s IH1 IH2] using string_ind2; [done| |].
  - simpl. rewrite orb_false_r, Ascii.eqb_sym. by intros ->.
  - rewrite universal_newlines_cons.
    change (string_mem CR (String a (String b s)))
      with (Ascii.eqb CR a || string_mem CR (String b s)).
    rewrite Ascii.eqb_sym.
    destruct (Ascii.eqb a CR); [done|]. cbn [orb]. intros H.
    f_equal. by apply IH2.
Qed.

Lemma py_join_mem_inv c (l : list string) :
  string_mem c (py_join EmptyString l) = false ->
  Forall (fun x => string_mem c x = false) l.
Proof.
  induction l as [|x l IH]; [done|]. rewrite py_join_cons, string_mem_app.
  intros [Hx Hl]%orb_false_iff. constructor; auto.
Qed.

Lemma readlines_mem c s :
  string_mem c s = false -> Forall (fun x => string_mem c x = false) (readlines s).
Proof. intros H. apply py_join_mem_inv. by rewrite readlines_join. Qed.

Lemma before_hash_sub c s : string_mem c s = false -> string_mem c (before_hash s) = false.
Proof.
  induction s as [|d s IH]; [done|]. simpl.
  intros [Hd Hs]%orb_false_iff. destruct (Ascii.eqb d HASH); [done|].
  simpl. by rewrite Hd, IH.
Qed.

Lemma strip_comment_sub c line :
  string_mem c line = false -> string_mem c (strip_comment line) = false.
Proof.
  intros H. unfold strip_comment. rewrite string_mem_app.
  rewrite <- (line_body_ending line), string_mem_app in H.
  apply orb_false_iff in H as [Hb He]. by rewrite before_hash_sub, He.
Qed.

(** What [read_nqjson_file] makes of a text. *)
Lemma read_nqjson_file_text os path w o w' text :
  read_nqjson_file os path w = (o, w') ->
  os_read_text os (trace w) path = inr text ->
  o = Done (py_join EmptyString
              (map strip_comment (readlines (universal_newlines text))))
  /\ w' = record_event (EvReadText path (inr text)) w.
Proof.
  intros H Ht. apply read_nqjson_file_inv in H. cbv zeta in H.
  rewrite Ht in H. by destruct H as [-> ->].
Qed.

Lemma stripped_no_hash text :
  string_mem HASH
    (py_join EmptyString (map strip_comment (readlines (universal_newlines text))))
  = false.
Proof.
  apply py_join_mem, Forall_map, Forall_true. intros l. apply strip_comment_mem.
Qed.

Lemma stripped_no_CR text :
  string_mem CR
    (py_join EmptyString (map strip_comment (readlines (universal_newlines text))))
  = false.
Proof.
  apply py_join_mem, Forall_map.
  eapply Forall_impl; [apply readlines_mem, universal_newlines_no_CR|].
  intros l. apply strip_comment_sub.
Qed.

Lemma unstripped text :
  string_mem HASH text = false ->
  py_join EmptyString (map strip_comment (readlines (universal_newlines text)))
  = universal_newlines text.
Proof.
  intros H.
  assert (string_mem HASH (universal_newlines text) = false) as H'
    by (by rewrite universal_newlines_mem).
  rewrite <- (readlines_join (universal_newlines text)) at 2. f_equal.
  apply readlines_mem in H'. induction H' as [|x l Hx Hl IH]; [done|].
  simpl. by rewrite strip_comment_no_hash, IH.
Qed.

(** X4: a file without [#] passes unchanged: what [read_nqjson_file]
    returns is the text of the file as text mode delivers it. *)
Theorem text_without_hash_is_unchanged os path w o w' text :
  read_nqjson_file os path w = (o, w') ->
  os_read_text os (trace w) path = inr text ->
  string_mem HASH text = false ->
  o = Done (universal_newlines text).
Proof.
  intros H Ht Hh. destruct (read_nqjson_file_text _ _ _ _ _ _ H Ht) as [-> _].
  by rewrite unstripped.
Qed.

(** X5: whatever the file holds, the text [read_nqjson_file] returns has
    no [#] left. *)
Theorem stripped_text_has_no_hash os path w w' json_text :
  read_nqjson_file os path w = (Done json_text, w') ->
  string_mem HASH json_text = false.
Proof.
  intros H. pose proof (read_nqjson_file_inv _ _ _ _ _ H) as [_ Ho].
  destruct (os_read_text os (trace w) path) as [e|text]; [done|].
  injection Ho as ->. apply stripped_no_hash.
Qed.

(** X6: stripping is idempotent: a file that holds what
    [read_nqjson_file] returned is returned as it is. *)
Theorem stripping_twice_changes_nothing os path w w' json_text os2 path2 v o2 v2 :
  read_nqjson_file os path w = (Done json_text, w') ->
  os_read_text os2 (trace v) path2 = inr json_text ->
  read_nqjson_file os2 path2 v = (o2, v2) ->
  o2 = Done json_text.
Proof.
  intros H Ht H2. destruct (read_nqjson_file_text _ _ _ _ _ _ H2 Ht) as [-> _].
  pose proof (read_nqjson_file_inv _ _ _ _ _ H) as [_ Ho].
  destruct (os_read_text os (trace w) path) as [e|text]; [done|].
  injection Ho as ->. f_equal.
  rewrite unstripped by apply stripped_no_hash.
  apply universal_newlines_fixed, stripped_no_CR.
Qed.

Lemma count_char_app c a b : count_char c (a +:+ b) = count_char c a + count_char c b.
Proof. induction a as [|d a IH]; simpl; [done|]. rewrite IH. lia. Qed.

Lemma count_char_none c s : string_mem c s = false -> count_char c s = 0.
Proof.
  induction s as [|d s IH]; [done|]. simpl. intros [Hd Hs]%orb_false_iff.
  by rewrite Hd, IH.
Qed.

Lemma strip_comment_line_feeds l :
  is_line l -> count_char LF (strip_comment l) = count_char LF l.
Proof.
  intros [body e Hb He]. unfold strip_comment.
  destruct (line_body_app body e Hb He) as [-> ->].
  rewrite !count_char_app, (count_char_none LF body Hb).
  by rewrite (count_char_none LF (before_hash body)) by (by apply before_hash_sub).
Qed.

Lemma stripped_line_feeds (lines : list string) :
  Forall is_line lines ->
  count_char LF (py_join EmptyString (map strip_comment lines))
  = count_char LF (py_join EmptyString lines).
Proof.
  induction 1 as [|l lines Hl _ IH]; [done|].
  rewrite map_cons, !py_join_cons, !count_char_app, IH.
  by rewrite strip_comment_line_feeds.
Qed.

(** X7: no line is lost or joined: the text [read_nqjson_file] returns
    has as many line feeds as the text of the file, so a position the
    decoder reports is on the same line of the file. *)
Theorem line_feeds_are_kept os path w o w' text :
  read_nqjson_file os path w = (o, w') ->
  os_read_text os (trace w) path = inr text ->
  exists json_text,
    o = Done json_text
    /\ count_char LF json_text = count_char LF (universal_newlines text).
Proof.
  intros H Ht. destruct (read_nqjson_file_text _ _ _ _ _ _ H Ht) as [-> _].
  eexists. split; [done|].
  rewrite stripped_line_feeds by apply readlines_lines.
  by rewrite readlines_join.
Qed.

(** ** The credential table, checked and loaded *)

Lemma occurrences_notin u names : u ∉ names -> occurrences u names = 0.
Proof.
  induction names as [|v names IH]; [done|]. intros Hn.
  apply not_elem_of_cons in Hn as [Hne Hn]. simpl.
  destruct (String.eqb_spec v u); [congruence|]. by rewrite IH.
Qed.

Lemma occurrences_in u names : u ∈ names -> 1 <= occurrences u names.
Proof.
  induction names as [|v names IH]; [by intros ?%elem_of_nil|].
  intros [->|Hin]%elem_of_cons; simpl.
  - rewrite String.eqb_refl. lia.
  - specialize (IH Hin). lia.
Qed.

Lemma NoDup_occurrences names :
  NoDup names <-> forall v, occurrences v names <= 1.
Proof.
  induction names as [|u names IH].
  - split; [simpl; lia|constructor].
  - rewrite NoDup_cons, IH. split.
    + intros [Hn H] v. simpl. destruct (String.eqb_spec u v) as [<-|Hne].
      * rewrite occurrences_notin by done. lia.
      * apply H.
    + intros H. split.
      * intros Hin. apply occurrences_in in Hin. specialize (H u). simpl in H.
        rewrite String.eqb_refl in H. lia.
      * intros v. specialize (H v). simpl in H. lia.
Qed.

Lemma repeated_nil names : repeated (tally names []) = [] <-> NoDup names.
Proof.
  assert (forall v, v ∈ repeated (tally names []) <-> 2 <= occurrences v names) as Hrep.
  { intros v. rewrite repeated_count; [|apply tally_NoDup, NoDup_nil_2].
    rewrite count_of_tally. simpl. lia. }
  rewrite NoDup_occurrences. split.
  - intros E v. destruct (decide (2 <= occurrences v names)) as [H|H]; [|lia].
    apply Hrep in H. rewrite E in H. by apply elem_of_nil in H.
  - intros H. destruct (repeated (tally names [])) as [|d ds] eqn:E; [done|].
    assert (d ∈ d :: ds) as Hd by left. apply Hrep in Hd. specialize (H d). lia.
Qed.

(** X8: [assert_no_dupe_username] accepts a table exactly when its
    usernames are distinct: it returns without an exception if and only if
    no username occurs twice. *)
Theorem distinct_usernames_are_accepted config records names :
  py_subscript config "credential_list" = inr (JArr records) ->
  Forall2 (fun record name => py_subscript record "username" = inr (JStr name))
    records names ->
  assert_no_dupe_username config = inr tt <-> NoDup names.
Proof.
  intros Hc Hn. rewrite (assert_no_dupe_username_str _ _ _ Hc Hn).
  rewrite <- repeated_nil. by destruct (repeated (tally names [])).
Qed.

(** The keys of the counter are the usernames in the order of their first
    occurrence. *)
Lemma incr_keys_list k c :
  map fst (incr k c)
  = if bool_decide (k ∈ map fst c) then map fst c else map fst c ++ [k].
Proof.
  induction c as [|[k' n] c IH]; [done|]. simpl.
  destruct (String.eqb_spec k' k) as [->|Hne].
  - rewrite bool_decide_eq_true_2 by left. done.
  - simpl. rewrite IH. destruct (decide (k ∈ map fst c)) as [Hin|Hin].
    + rewrite !bool_decide_eq_true_2; [done|by right|done].
    + rewrite !bool_decide_eq_false_2; [done| |done].
      intros [?|?]%elem_of_cons; congruence.
Qed.

Lemma filter_filter_ext {A} (P Q R : A -> Prop)
    `{!forall x, Decision (P x)} `{!forall x, Decision (Q x)} `{!forall x, Decision (R x)}
    (l : list A) :
  (forall x, P x /\ Q x <-> R x) -> filter P (filter Q l) = filter R l.
Proof.
  intros Hiff. induction l as [|x l IH]; [done|].
  rewrite (filter_cons Q), (filter_cons R).
  destruct (decide (Q x)) as [HQ|HQ], (decide (R x)) as [HR|HR].
  - rewrite filter_cons. destruct (decide (P x)) as [HP|HP]; [by rewrite IH|].
    destruct HP. by apply Hiff.
  - rewrite filter_cons. destruct (decide (P x)) as [HP|HP]; [|done].
    destruct HR. by apply Hiff.
  - destruct HQ. by apply Hiff.
  - done.
Qed.

Lemma tally_keys names c :
  map fst (tally names c)
  = map fst c ++ filter (fun v => v ∉ map fst c) (first_seen names).
Proof.
  revert c. induction names as [|k names IH]; intros c.
  - simpl. by rewrite app_nil_r.
  - cbn [tally first_seen]. rewrite IH, incr_keys_list, filter_cons.
    destruct (decide (k ∈ map fst c)) as [Hin|Hin].
    + rewrite bool_decide_eq_true_2 by done.
      rewrite decide_False by (intros Hn; by apply Hn). f_equal.
      symmetry. apply filter_filter_ext. intros x. split; [by intros [? _]|].
      intros Hx. split; [done|]. intros ->. done.
    + rewrite bool_decide_eq_false_2 by done. rewrite decide_True by done.
      rewrite <- app_assoc. f_equal. simpl. f_equal.
      symmetry. apply filter_filter_ext. intros x.
      rewrite elem_of_app, list_elem_of_singleton. tauto.
Qed.

Lemma first_seen_keys names : map fst (tally names []) = first_seen names.
Proof.
  rewrite tally_keys. simpl. induction (first_seen names) as [|x l IH]; [done|].
  rewrite filter_cons, decide_True by apply not_elem_of_nil. by rewrite IH.
Qed.

Lemma filter_ext_in {A} (P Q : A -> Prop)
    `{!forall x, Decision (P x)} `{!forall x, Decision (Q x)} (l : list A) :
  (forall x, x ∈ l -> P x <-> Q x) -> filter P l = filter Q l.
Proof.
  induction l as [|x l IH]; [done|]. intros Hiff.
  rewrite !filter_cons, IH by (intros y Hy; apply Hiff; by right).
  destruct (decide (P x)) as [HP|HP], (decide (Q x)) as [HQ|HQ]; try done;
    exfalso; [apply HQ|apply HP]; apply (Hiff x); (left || done).
Qed.

Lemma repeated_by_count c :
  NoDup (map fst c) ->
  repeated c = filter (fun v => 2 <= count_of v c) (map fst c).
Proof.
  unfold repeated. induction c as [|[k n] c IH]; [done|]. simpl.
  intros [Hk Hc]%NoDup_cons.
  rewrite !filter_cons. simpl. rewrite String.eqb_refl.
  assert (filter (fun v => 2 <= (if String.eqb k v then n else count_of v c)) (map fst c)
          = filter (fun v => 2 <= count_of v c) (map fst c)) as ->.
  { apply filter_ext_in. intros v Hv.
    destruct (String.eqb_spec k v) as [->|]; [done|]. done. }
  destruct (decide (1 < n)), (decide (2 <= n)); try lia; simpl; by rewrite IH.
Qed.

(** X9: the message of [assert_no_dupe_username] lists the repeated
    usernames once each, in the order in which they first occur in the
    file. *)
Theorem duplicates_are_listed_in_file_order config records names :
  py_subscript config "credential_list" = inr (JArr records) ->
  Forall2 (fun record name => py_subscript record "username" = inr (JStr name))
    records names ->
  ~ NoDup names ->
  assert_no_dupe_username config
  = inl (Exception
           ("Duplicate username(s): ["
            +:+ py_join ", "
                  (map repr_str
                     (filter (fun v => 2 <= occurrences v names) (first_seen names)))
            +:+ "]")).
Proof.
  intros Hc Hn Hd. rewrite (assert_no_dupe_username_str _ _ _ Hc Hn).
  rewrite <- repeated_nil in Hd.
  assert (repeated (tally names [])
          = filter (fun v => 2 <= occurrences v names) (first_seen names)) as E.
  { rewrite repeated_by_count by apply tally_NoDup, NoDup_nil_2.
    rewrite first_seen_keys. apply list_filter_iff. intros v.
    by rewrite count_of_tally. }
  rewrite <- E. by destruct (repeated (tally names [])).
Qed.

(** A table that cannot be checked or loaded ends [main] before the
    message box. *)
Lemma main_table_error os fuel argv clip o w json_text config e :
  main os fuel argv (init_world clip) = (o, w) ->
  EvJsonLoads json_text (inr config) ∈ trace w ->
  assert_no_dupe_username config = inl e
  \/ (assert_no_dupe_username config = inr tt /\ load_credentials config = inl e) ->
  o = Raised e
  /\ exists path file,
      trace w = [EvReadText path (inr file); EvJsonLoads json_text (inr config)].
Proof.
  intros H Hin He.
  destruct (main_decoded _ _ _ _ _ _ _ _ H Hin) as (path & file & p & w2 & Ht & Hrun).
  assert (main_credentials os p config w2 = (Raised e, w2)) as Hm.
  { unfold main_credentials.
    destruct He as [Ha|[Ha Hl]]; rewrite Ha, run_lift; [done|].
    by rewrite run_lift, Hl. }
  unfold mbind at 1, M_bind at 1 in Hrun. rewrite Hm in Hrun.
  injection Hrun as <- <-. eauto.
Qed.

Lemma mapM_exn_missing (key : string) (records : list json) :
  Forall is_object records ->
  Exists (fun record => py_subscript record key = inl (KeyError key)) records ->
  mapM_exn (fun cdict => py_subscript cdict key) records = inl (KeyError key).
Proof.
  intros Hobj Hex. induction Hobj as [|r records [members ->] _ IH]; [by inversion Hex|].
  cbn [mapM_exn]. unfold mbind, exn_bind.
  apply Exists_cons in Hex as [Hh|Ht].
  - by rewrite Hh.
  - destruct (py_subscript (JObj members) key) as [e|x] eqn:Ea.
    + cbn [py_subscript] in Ea. by destruct (assoc key members); simplify_eq.
    + by rewrite IH.
Qed.

(** X10: a configuration object without the key [credential_list] ends
    [main] with [KeyError('credential_list')] right after the decoding: no
    message box is shown and no hot key is registered. *)
Theorem missing_credential_list_is_fatal os fuel argv clip o w json_text members :
  main os fuel argv (init_world clip) = (o, w) ->
  EvJsonLoads json_text (inr (JObj members)) ∈ trace w ->
  assoc "credential_list" members = None ->
  o = Raised (KeyError "credential_list")
  /\ exists path file,
      trace w = [EvReadText path (inr file); EvJsonLoads json_text (inr (JObj members))].
Proof.
  intros H Hin Hm. apply (main_table_error _ _ _ _ _ _ _ _ _ H Hin). left.
  unfold assert_no_dupe_username. cbn [py_subscript]. by rewrite Hm.
Qed.

(** X11: when a record of the table has no [username], [main] ends with
    [KeyError('username')] right after the decoding. *)
Theorem record_without_username_is_fatal os fuel argv clip o w json_text config records :
  main os fuel argv (init_world clip) = (o, w) ->
  EvJsonLoads json_text (inr config) ∈ trace w ->
  py_subscript config "credential_list" = inr (JArr records) ->
  Forall is_object records ->
  Exists (fun record => py_subscript record "username" = inl (KeyError "username"))
    records ->
  o = Raised (KeyError "username")
  /\ exists path file,
      trace w = [EvReadText path (inr file); EvJsonLoads json_text (inr config)].
Proof.
  intros H Hin Hc Hobj Hex. apply (main_table_error _ _ _ _ _ _ _ _ _ H Hin). left.
  unfold assert_no_dupe_username. rewrite Hc. unfold mbind at 1, exn_bind at 1.
  cbn [py_iter]. unfold mbind at 1, exn_bind at 1.
  unfold mbind at 1, exn_bind at 1.
  by rewrite (mapM_exn_missing "username" records Hobj Hex).
Qed.

Lemma mapM_exn_cons {A B} (f : A -> exn + B) x l :
  mapM_exn f (x :: l)
  = match f x with
    | inl e => inl e
    | inr y => match mapM_exn f l with
               | inl e => inl e
               | inr ys => inr (y :: ys)
               end
    end.
Proof. cbn [mapM_exn]. unfold mbind, exn_bind. by destruct (f x), (mapM_exn f l). Qed.

Lemma load_credentials_missing_password config records :
  py_subscript config "credential_list" = inr (JArr records) ->
  Forall (fun record => is_object record
                        /\ exists u, py_subscript record "username" = inr u) records ->
  Exists (fun record => py_subscript record "password" = inl (KeyError "password"))
    records ->
  load_credentials config = inl (KeyError "password").
Proof.
  intros Hc Hobj Hex. unfold load_credentials. rewrite Hc.
  unfold mbind at 1, exn_bind at 1. cbn [py_iter]. unfold mbind at 1, exn_bind at 1.
  clear Hc.
  induction Hobj as [|r records [[members ->] [u Hu]] _ IH]; [by inversion Hex|].
  rewrite mapM_exn_cons. rewrite Hu. unfold mbind at 1, exn_bind at 1.
  apply Exists_cons in Hex as [Hh|Ht].
  - by rewrite Hh.
  - destruct (py_subscript (JObj members) "password") as [e|x] eqn:Ea.
    + cbn [py_subscript] in Ea. by destruct (assoc "password" members); simplify_eq.
    + unfold mbind at 1, exn_bind at 1. cbn [mret exn_ret]. by rewrite IH.
Qed.

(** X12: when the usernames are distinct and a record has no [password],
    the check passes and [main] ends with [KeyError('password')] while the
    table is built: no message box is shown and no hot key is registered. *)
Theorem record_without_password_is_fatal os fuel argv clip o w json_text config
    records names :
  main os fuel argv (init_world clip) = (o, w) ->
  EvJsonLoads json_text (inr config) ∈ trace w ->
  py_subscript config "credential_list" = inr (JArr records) ->
  Forall is_object records ->
  Forall2 (fun record name => py_subscript record "username" = inr (JStr name))
    records names ->
  NoDup names ->
  Exists (fun record => py_subscript record "password" = inl (KeyError "password"))
    records ->
  assert_no_dupe_username config = inr tt
  /\ o = Raised (KeyError "password")
  /\ exists path file,
      trace w = [EvReadText path (inr file); EvJsonLoads json_text (inr config)].
Proof.
  intros H Hin Hc Hobj Hn Hd Hex.
  assert (assert_no_dupe_username config = inr tt) as Ha.
  { rewrite (assert_no_dupe_username_str _ _ _ Hc Hn).
    apply repeated_nil in Hd. by rewrite Hd. }
  split; [done|].
  apply (main_table_error _ _ _ _ _ _ _ _ _ H Hin). right. split; [done|].
  apply (load_credentials_missing_password _ _ Hc); [|done].
  clear -Hobj Hn. induction Hn as [|r n records names Hr _ IH]; [done|].
  apply Forall_cons in Hobj as [Ho Hobj]. constructor; [by eauto|by apply IH].
Qed.

(** ** What the program calls once the table is loaded *)

Create HintDb traces.

Lemma traces_ret {A} P (a : A) : traces P (mret a).
Proof. intros w o w' [= <- <-]. exists []. by rewrite app_nil_r. Qed.

Lemma traces_raise {A} P e : traces P (@raise A e).
Proof. intros w o w' [= <- <-]. exists []. by rewrite app_nil_r. Qed.

Lemma traces_lift {A} P (r : exn + A) : traces P (lift r).
Proof. destruct r; [apply traces_raise|apply traces_ret]. Qed.

Lemma traces_print P line : traces P (print line).
Proof. intros w o w' [= <- <-]. exists []. by rewrite app_nil_r. Qed.

Lemma traces_set_clip_open P b : traces P (set_clip_open b).
Proof. intros w o w' [= <- <-]. exists []. by rewrite app_nil_r. Qed.

Lemma traces_store_clip P f s : traces P (store_clip f s).
Proof. intros w o w' [= <- <-]. exists []. by rewrite app_nil_r. Qed.

Lemma traces_call {A} (P : event -> Prop) (answer : list event -> exn + A) ev :
  (forall r, P (ev r)) -> traces P (call answer ev).
Proof.
  intros Hk w o w' H. rewrite run_call_last in H.
  exists [ev (answer (trace w))].
  destruct (answer (trace w)); injection H as <- <-;
    (split; [done|]); repeat constructor; apply Hk.
Qed.

Lemma traces_bind {A B} P (m : M A) (k : A -> M B) :
  traces P m -> (forall a, traces P (k a)) -> traces P (m ≫= k).
Proof.
  intros Hm Hk w o w' H. unfold mbind, M_bind in H.
  destruct (m w) as [[a|e|] w1] eqn:E; destruct (Hm _ _ _ E) as (evs1 & Ht1 & Hf1).
  - destruct (Hk a _ _ _ H) as (evs2 & Ht2 & Hf2).
    exists (evs1 ++ evs2). rewrite Ht2, Ht1, app_assoc. split; [done|].
    by apply Forall_app.
  - injection H as <- <-. eauto.
  - injection H as <- <-. eauto.
Qed.

Lemma traces_bind_lift {A B} P (r : exn + A) (k : A -> M B) :
  (forall a, r = inr a -> traces P (k a)) -> traces P (lift r ≫= k).
Proof.
  intros Hk w o w' H. rewrite run_lift in H. destruct r as [e|a].
  - injection H as <- <-. exists []. by rewrite app_nil_r.
  - by apply (Hk a eq_refl w o w').
Qed.

Lemma traces_try_finally {A} P (body : M A) (fin : M unit) :
  traces P body -> traces P fin -> traces P (try_finally body fin).
Proof.
  intros Hb Hf w o w' H. unfold try_finally in H.
  destruct (body w) as [o1 w1] eqn:E; destruct (Hb _ _ _ E) as (evs1 & Ht1 & Hf1).
  assert (o1 = Pending /\ w' = w1
          \/ exists o2 w2, fin w1 = (o2, w2) /\ w' = w2) as [[-> ->]|(o2 & w2 & E2 & ->)].
  { destruct o1; [right|right|left]; [| |by injection H as <- <-];
      destruct (fin w1) as [[[]|e'|] w2] eqn:E2; injection H as <- <-; eauto. }
  - eauto.
  - destruct (Hf _ _ _ E2) as (evs2 & Ht2 & Hf2).
    exists (evs1 ++ evs2). rewrite Ht2, Ht1, app_assoc. split; [done|].
    by apply Forall_app.
Qed.

#[export] Hint Resolve traces_ret traces_raise traces_lift traces_print
  traces_set_clip_open traces_store_clip traces_bind traces_try_finally : traces.
#[export] Hint Extern 2 (traces _ (call _ _)) => (apply traces_call; intros; by simpl) : traces.
#[export] Hint Extern 2 (traces _ (if _ then _ else _)) => case_match : traces.

Lemma py_getitem_elem {A} (l : list A) i x : py_getitem l i = inr x -> x ∈ l.
Proof.
  unfold py_getitem. cbv zeta.
  destruct (_ <? 0)%Z; [done|].
  destruct (l !! _) as [y|] eqn:E; intros [=]; subst.
  by eapply list_elem_of_lookup_2.
Qed.

Lemma traces_hot_key_callback os cred_list :
  traces (table_call cred_list) (hot_key_callback os cred_list).
Proof.
  unfold hot_key_callback, DoModal, selecteditem, OpenClipboard, CloseClipboard.
  apply traces_bind; [auto with traces|intros code].
  apply traces_bind; [auto with traces|intros [i|]].
  2:{ unfold log, now. auto with traces. }
  apply traces_bind_lift. intros cred Hc%py_getitem_elem.
  apply traces_bind; [auto with traces|intros _].
  apply traces_bind; [|intros _; unfold log, now; auto with traces].
  apply traces_try_finally; [|auto with traces].
  unfold SetClipboardText. destruct (password cred) as [| | |s| |] eqn:Ep;
    try (apply traces_bind; [|intros _]; apply traces_raise).
  apply traces_bind; [|intros _];
    (apply traces_bind; [|auto with traces]);
    apply traces_call; intros r; simpl; split; eauto.
Qed.

Lemma traces_message_loop os fuel cred_list msg :
  traces (table_call cred_list) (message_loop os fuel cred_list 0 msg).
Proof.
  revert msg. induction fuel as [|fuel IH]; intros msg.
  - intros w o w' [= <- <-]. exists []. by rewrite app_nil_r.
  - cbn [message_loop]. unfold GetMessageA, TranslateMessage, DispatchMessageA.
    apply traces_bind; [auto with traces|intros [r m]].
    case_match; [auto with traces|].
    apply traces_bind.
    { repeat case_match; auto using traces_hot_key_callback with traces. }
    intros _. apply traces_bind; [auto with traces|intros _].
    apply traces_bind; [auto with traces|intros _]. apply IH.
Qed.

Lemma traces_main_hotkey os fuel cred_list :
  traces (table_call cred_list) (main_hotkey os fuel cred_list).
Proof.
  unfold main_hotkey, RegisterHotKey, UnregisterHotKey.
  apply traces_bind; [auto with traces|intros r].
  case_match; [auto with traces|].
  apply traces_try_finally; [apply traces_message_loop|auto with traces].
Qed.

(** ** A startup that succeeds *)

Lemma main_args_inv argv w path w0 :
  main_args argv w = (Done path, w0) ->
  exists prog, argv = [prog; path] /\ (prog ∉ ["/?"; "-h"; "--help"])
               /\ w0 = with_line EmptyString w.
Proof.
  unfold main_args. rewrite run_print.
  destruct (negb (length argv =? 2)%nat) eqn:El.
  - destruct argv as [|prog argv].
    + unfold show_help_then_exit. cbv iota.
      rewrite !bind_assoc, run_print. cbv beta.
      change (py_getitem (@nil string) 0) with (@inl exn string IndexError).
      rewrite bind_assoc, run_lift. by intros [=].
    + match goal with
      | |- context [(show_help_then_exit _ _ ≫= ?k) ?w1] =>
          destruct (show_help_exits (prog :: argv) prog
                      (Some "Missing requirement argument: JSON_CONFIG_FILE") k w1 eq_refl)
            as (w' & -> & _)
      end.
      by intros [=].
  - apply negb_false_iff, Nat.eqb_eq in El.
    destruct argv as [|prog [|arg [|x argv]]]; try done.
    rewrite !bind_assoc.
    change (py_getitem [prog; arg] 0) with (@inr exn _ prog). rewrite run_lift.
    destruct (decide (prog ∈ ["/?"; "-h"; "--help"])) as [Hf|Hf].
    + rewrite bool_decide_eq_true_2 by done.
      match goal with
      | |- context [(show_help_then_exit _ _ ≫= ?k) ?w1] =>
          destruct (show_help_exits [prog; arg] prog None k w1 eq_refl)
            as (w' & -> & _)
      end.
      by intros [=].
    + rewrite bool_decide_eq_false_2 by done.
      change (py_getitem [prog; arg] 1) with (@inr exn _ arg).
      rewrite run_ret. cbv beta. unfold lift, mret, M_ret.
      intros [= <- <-]. by exists prog.
Qed.

Lemma load_credentials_records config records creds :
  py_subscript config "credential_list" = inr (JArr records) ->
  Forall2 (fun record cred =>
             py_subscript record "username" = inr (username cred)
             /\ py_subscript record "password" = inr (password cred)) records creds ->
  load_credentials config = inr creds.
Proof.
  intros Hc Hr. unfold load_credentials. rewrite Hc.
  unfold mbind at 1, exn_bind at 1. cbn [py_iter]. unfold mbind at 1, exn_bind at 1.
  clear Hc. induction Hr as [|r [u p] records creds [Hu Hp] _ IH]; [done|].
  rewrite mapM_exn_cons, IH, Hu. unfold mbind at 1, exn_bind at 1. rewrite Hp.
  done.
Qed.

(** A run that decoded a well-formed table: from there on [main] shows the
    message box and goes on with the table of the file. *)
Lemma main_loaded os fuel argv clip o w json_text config records creds names :
  main os fuel argv (init_world clip) = (o, w) ->
  EvJsonLoads json_text (inr config) ∈ trace w ->
  py_subscript config "credential_list" = inr (JArr records) ->
  Forall2 (fun record cred =>
             py_subscript record "username" = inr (username cred)
             /\ py_subscript record "password" = inr (password cred)) records creds ->
  map username creds = map JStr names -> NoDup names ->
  exists prog arg file w2,
    argv = [prog; arg]
    /\ trace w2 = [EvReadText (os_abspath os arg) (inr file);
                   EvJsonLoads json_text (inr config)]
    /\ clip_state w2 = (false, clip)
    /\ (MessageBox os
          ("Loaded " +:+ pretty (length creds) +:+ " credentials from "
           +:+ os_abspath os arg +:+ str1 LF +:+ str1 LF
           +:+ "Global hot key: Ctrl+Alt+Shift+" +:+ HOT_KEY) APP_NAME MB_OK ;;
        main_hotkey os fuel creds) w2 = (o, w).
Proof.
  intros H Hin Hc Hr Hn Hd.
  assert (Forall2 (fun record name => py_subscript record "username" = inr (JStr name))
            records names) as Hu.
  { clear -Hr Hn. revert names Hn.
    induction Hr as [|r c records creds [Hu _] _ IH]; intros [|n names] Hn;
      try done. injection Hn as Hn1 Hn2. constructor; [by rewrite Hu, Hn1|by apply IH]. }
  apply main_inv in H as [Ht|(p & w0 & Ha & Ht0 & H)].
  { rewrite Ht in Hin. by apply elem_of_nil in Hin. }
  apply main_args_inv in Ha as (prog & -> & Hp & ->).
  cbv zeta in H. destruct (os_read_text os [] (os_abspath os p)) as [e|file].
  { destruct H as [Ht _]. rewrite Ht in Hin.
    by apply list_elem_of_singleton in Hin. }
  destruct (os_json_loads os _) as [e|config'] eqn:Ed.
  { destruct H as [-> _]. autorewrite with world in Hin. simpl in Hin.
    apply elem_of_cons in Hin as [Hin|Hin]; [done|].
    by apply list_elem_of_singleton in Hin. }
  destruct H as [H (rest & Ht & Hf)]. rewrite Ht in Hin.
  apply elem_of_cons in Hin as [Hin|Hin]; [done|].
  apply elem_of_cons in Hin as [Hin|Hin];
    [|apply (Forall_kind _ _ _ Hf) in Hin; set_solver].
  injection Hin as -> ->.
  match type of H with _ ?w2 = _ => exists prog, p, file, w2 end.
  split_and!; [done|done|done|].
  unfold main_credentials in H. rewrite !bind_assoc in H.
  rewrite (assert_no_dupe_username_str _ _ _ Hc Hu) in H.
  apply repeated_nil in Hd. rewrite Hd in H. rewrite run_lift in H.
  rewrite bind_assoc, run_lift, (load_credentials_records _ _ _ Hc Hr) in H.
  rewrite bind_assoc in H. rewrite <- H. apply bind_ext. intros a w1.
  by rewrite run_ret.
Qed.

Lemma main_hotkey_first os fuel cred_list w o w' :
  main_hotkey os fuel cred_list w = (o, w') ->
  exists r rest, trace w' = trace w ++ EvRegisterHotKey 0 7 80 r :: rest.
Proof.
  unfold main_hotkey, RegisterHotKey. rewrite run_call.
  destruct (os_RegisterHotKey os (trace w) 0 7 80) as [e|r].
  { intros [= <- <-]. by exists (inl e), []. }
  destruct (r =? 0)%Z; [intros [= <- <-]; by exists (inr r), []|].
  intros H.
  assert (emits serving_kinds
            (try_finally (message_loop os fuel cred_list 0 MSG0)
               (UnregisterHotKey os 0 ;; mret tt))) as He.
  { unfold UnregisterHotKey. apply emits_try_finally.
    - eapply emits_mono; [|apply emits_message_loop]. set_solver.
    - apply emits_bind; [|auto with emits]. apply emits_call. set_solver. }
  destruct (He _ _ _ H) as (evs & Ht & _). rewrite trace_record in Ht.
  exists (inr r), evs. by rewrite Ht, <- app_assoc.
Qed.

Lemma main_loaded_trace os fuel argv clip o w json_text config records creds names :
  main os fuel argv (init_world clip) = (o, w) ->
  EvJsonLoads json_text (inr config) ∈ trace w ->
  py_subscript config "credential_list" = inr (JArr records) ->
  Forall2 (fun record cred =>
             py_subscript record "username" = inr (username cred)
             /\ py_subscript record "password" = inr (password cred)) records creds ->
  map username creds = map JStr names -> NoDup names ->
  exists prog arg file a evs,
    argv = [prog; arg]
    /\ trace w = [EvReadText (os_abspath os arg) (inr file);
                  EvJsonLoads json_text (inr config);
                  EvMessageBox
                    ("Loaded " +:+ pretty (length records) +:+ " credentials from "
                     +:+ os_abspath os arg +:+ str1 LF +:+ str1 LF
                     +:+ "Global hot key: Ctrl+Alt+Shift+P") APP_NAME MB_OK a] ++ evs
    /\ Forall (table_call creds) evs
    /\ match a with
       | inl e => o = Raised e /\ evs = []
       | inr _ => exists r rest, evs = EvRegisterHotKey 0 7 80 r :: rest
       end.
Proof.
  intros H Hin Hc Hr Hn Hd.
  destruct (main_loaded _ _ _ _ _ _ _ _ _ _ _ H Hin Hc Hr Hn Hd)
    as (prog & arg & file & w2 & -> & Ht2 & _ & Hrun).
  rewrite (Forall2_length _ _ _ Hr).
  set (text := "Loaded " +:+ pretty (length creds) +:+ " credentials from "
               +:+ os_abspath os arg +:+ str1 LF +:+ str1 LF
               +:+ "Global hot key: Ctrl+Alt+Shift+P").
  change ("Loaded " +:+ pretty (length creds) +:+ " credentials from "
          +:+ os_abspath os arg +:+ str1 LF +:+ str1 LF
          +:+ "Global hot key: Ctrl+Alt+Shift+" +:+ HOT_KEY) with text in Hrun.
  unfold MessageBox in Hrun. rewrite run_call in Hrun.
  exists prog, arg, file.
  destruct (os_MessageBox os (trace w2) text APP_NAME MB_OK) as [e|b];
    [exists (inl e)|exists (inr b)].
  - injection Hrun as <- <-. exists []. rewrite trace_record, Ht2.
    by split_and!.
  - set (w3 := record_event _ w2) in Hrun.
    assert (trace w3 = [EvReadText (os_abspath os arg) (inr file);
                        EvJsonLoads json_text (inr config);
                        EvMessageBox text APP_NAME MB_OK (inr b)]) as Ht3
      by (unfold w3; by rewrite trace_record, Ht2).
    clearbody w3.
    destruct (traces_main_hotkey _ _ _ _ _ _ Hrun) as (evs & Ht & Hf).
    exists evs. split_and!; [done|by rewrite Ht, Ht3|done|].
    destruct (main_hotkey_first _ _ _ _ _ _ Hrun) as (r & rest & Hfirst).
    rewrite Ht in Hfirst. apply app_inv_head in Hfirst. by exists r, rest.
Qed.

(** X13: a well-formed table with distinct usernames is announced, then
    the hot key is registered. After the file is read and decoded the next
    call of [main] is the message box, with the number of credentials and
    the absolute path of the file; if the box fails [main] ends there,
    otherwise the call after it registers Ctrl+Alt+Shift+P (modifiers 7,
    key 80) under the id 0. *)
Theorem loaded_table_is_announced os fuel argv clip o w json_text config records
    creds names :
  main os fuel argv (init_world clip) = (o, w) ->
  EvJsonLoads json_text (inr config) ∈ trace w ->
  py_subscript config "credential_list" = inr (JArr records) ->
  Forall2 (fun record cred =>
             py_subscript record "username" = inr (username cred)
             /\ py_subscript record "password" = inr (password cred)) records creds ->
  map username creds = map JStr names -> NoDup names ->
  exists prog arg file a rest,
    argv = [prog; arg]
    /\ trace w = [EvReadText (os_abspath os arg) (inr file);
                  EvJsonLoads json_text (inr config);
                  EvMessageBox
                    ("Loaded " +:+ pretty (length records) +:+ " credentials from "
                     +:+ os_abspath os arg +:+ str1 LF +:+ str1 LF
                     +:+ "Global hot key: Ctrl+Alt+Shift+P") APP_NAME MB_OK a] ++ rest
    /\ match a with
       | inl e => o = Raised e /\ rest = []
       | inr _ =>
           exists r rest',
             rest = EvRegisterHotKey 0 (MOD_ALT + MOD_CONTROL + MOD_SHIFT) 80 r :: rest'
       end.
Proof.
  intros H Hin Hc Hr Hn Hd.
  destruct (main_loaded_trace _ _ _ _ _ _ _ _ _ _ _ H Hin Hc Hr Hn Hd)
    as (prog & arg & file & a & evs & -> & Ht & _ & Ha).
  by exists prog, arg, file, a, evs.
Qed.

(** X14: every dialog lists the usernames of the file, in the order of
    the file, under the title of the application: the index that the
    dialog returns is the position of the record in [credential_list]. *)
Theorem dialog_lists_usernames_in_file_order os fuel argv clip o w json_text config
    records creds names title items a :
  main os fuel argv (init_world clip) = (o, w) ->
  EvJsonLoads json_text (inr config) ∈ trace w ->
  py_subscript config "credential_list" = inr (JArr records) ->
  Forall2 (fun record cred =>
             py_subscript record "username" = inr (username cred)
             /\ py_subscript record "password" = inr (password cred)) records creds ->
  map username creds = map JStr names -> NoDup names ->
  EvDoModal title items a ∈ trace w ->
  title = APP_NAME /\ items = map JStr names /\ length items = length records.
Proof.
  intros H Hin Hc Hr Hn Hd Hm.
  destruct (main_loaded_trace _ _ _ _ _ _ _ _ _ _ _ H Hin Hc Hr Hn Hd)
    as (prog & arg & file & a' & evs & -> & Ht & Hf & _).
  rewrite Ht in Hm. apply elem_of_app in Hm as [Hm|Hm]; [by elem_cases Hm|].
  apply (proj1 (Forall_forall _ _) Hf) in Hm as [-> ->].
  split_and!; [done|done|].
  by rewrite length_map, (Forall2_length _ _ _ Hr).
Qed.

(** X15: nothing but a password of the table is ever written to the
    clipboard, and only as [CF_TEXT] or [CF_UNICODETEXT]: every call of
    [SetClipboardText] in a run of [main] has for its text the [password]
    of a record of the file. *)
Theorem only_passwords_reach_the_clipboard os fuel argv clip o w json_text config
    records creds names text format r :
  main os fuel argv (init_world clip) = (o, w) ->
  EvJsonLoads json_text (inr config) ∈ trace w ->
  py_subscript config "credential_list" = inr (JArr records) ->
  Forall2 (fun record cred =>
             py_subscript record "username" = inr (username cred)
             /\ py_subscript record "password" = inr (password cred)) records creds ->
  map username creds = map JStr names -> NoDup names ->
  EvSetClipboardText text format r ∈ trace w ->
  (format = CF_TEXT \/ format = CF_UNICODETEXT)
  /\ exists record, record ∈ records
                    /\ py_subscript record "password" = inr (JStr text).
Proof.
  intros H Hin Hc Hr Hn Hd Hm.
  destruct (main_loaded_trace _ _ _ _ _ _ _ _ _ _ _ H Hin Hc Hr Hn Hd)
    as (prog & arg & file & a' & evs & -> & Ht & Hf & _).
  rewrite Ht in Hm. apply elem_of_app in Hm as [Hm|Hm]; [by elem_cases Hm|].
  apply (proj1 (Forall_forall _ _) Hf) in Hm as [Hfmt (cred & Hcred & Hpw)].
  split; [done|].
  apply list_elem_of_lookup in Hcred as [i Hi].
  destruct (Forall2_lookup_r _ _ _ _ _ Hr Hi) as (record & Hrec & _ & Hp).
  exists record. split; [by eapply list_elem_of_lookup_2|]. by rewrite Hp, Hpw.
Qed.

(** X16: the configuration file is read and decoded at most once, before
    any other call: after [json.loads], [main] never opens a file and
    never decodes again, so a change of the file has no effect on a
    running program. *)
Theorem configuration_is_read_once os fuel argv clip o w :
  main os fuel argv (init_world clip) = (o, w) ->
  exists pre rest,
    trace w = pre ++ rest
    /\ (pre = []
        \/ (exists path r, pre = [EvReadText path r])
        \/ (exists path text json_text r,
              pre = [EvReadText path (inr text); EvJsonLoads json_text r]))
    /\ Forall (fun ev => kind_of ev <> KReadText /\ kind_of ev <> KJsonLoads) rest.
Proof.
  intros H. apply main_inv in H as [Ht|(p & w0 & Ha & Ht0 & H)].
  { exists [], []. rewrite Ht. split_and!; [done|by left|done]. }
  cbv zeta in H. destruct (os_read_text os [] (os_abspath os p)) as [e|text].
  { destruct H as [Ht _]. exists [EvReadText (os_abspath os p) (inl e)], [].
    rewrite Ht. split_and!; [done|right; left; by eauto|done]. }
  destruct (os_json_loads os _) as [e|config] eqn:Ed.
  - destruct H as [-> _]. eexists [_; _], []. autorewrite with world.
    rewrite Ht0. split_and!; [done|right; right; by eauto|done].
  - destruct H as [_ (rest & Ht & Hf)]. eexists [_; _], rest.
    rewrite Ht. split_and!; [done|right; right; by eauto|].
    eapply Forall_impl; [done|]. intros ev Hk. simpl in Hk.
    split; intros Heq; rewrite Heq in Hk; set_solver.
Qed.

(** X25: a text that [json.loads] rejects ends [main] with the decoder's
    exception right after the decoding: the two calls so far are the read
    and the decoding, so no message box is shown and no hot key is
    registered. *)
Theorem undecodable_file_is_fatal os fuel argv clip o w json_text e :
  main os fuel argv (init_world clip) = (o, w) ->
  EvJsonLoads json_text (inl e) ∈ trace w ->
  o = Raised e
  /\ exists prog arg file,
      argv = [prog; arg]
      /\ trace w = [EvReadText (os_abspath os arg) (inr file);
                    EvJsonLoads json_text (inl e)]
      /\ stdout w = [EmptyString].
Proof.
  intros H Hin. apply main_inv in H as [Ht|(p & w0 & Ha & Ht0 & H)].
  { rewrite Ht in Hin. by apply elem_of_nil in Hin. }
  apply main_args_inv in Ha as (prog & -> & Hp & ->).
  cbv zeta in H. destruct (os_read_text os [] (os_abspath os p)) as [e'|file].
  { destruct H as [Ht _]. rewrite Ht in Hin.
    by apply list_elem_of_singleton in Hin. }
  destruct (os_json_loads os _) as [e'|config] eqn:Ed.
  - destruct H as [-> ->]. rewrite !trace_record, trace_line in Hin. simpl in Hin.
    apply elem_of_cons in Hin as [Hin|Hin]; [done|].
    apply list_elem_of_singleton in Hin. injection Hin as -> ->.
    split; [done|]. by exists prog, p, file.
  - destruct H as [_ (rest & Ht & Hf)]. rewrite Ht in Hin.
    apply elem_of_cons in Hin as [Hin|Hin]; [done|].
    apply elem_of_cons in Hin as [Hin|Hin]; [done|].
    apply (Forall_kind _ _ _ Hf) in Hin. set_solver.
Qed.

(** ** The hot-key handler, continued *)

(** The handler up to the subscript [cred_list[index]]. *)
Lemma handler_selected os cred_list w o w' evs i :
  hot_key_callback os cred_list w = (o, w') ->
  trace w' = trace w ++ evs ->
  EvSelectedItem (inr (Some i)) ∈ evs ->
  exists w2,
    trace w2 = trace w ++ [EvDoModal APP_NAME (map username cred_list) (inr IDOK);
                           EvSelectedItem (inr (Some i))]
    /\ stdout w2 = stdout w
    /\ clip_state w2 = clip_state w
    /\ match py_getitem cred_list i with
       | inl e => o = Raised e /\ w' = w2
       | inr cred => clipboard_handoff os cred w2 = (o, w')
       end.
Proof.
  intros H Ht Hsel. rewrite run_hot_key_callback in H.
  destruct (os_DoModal os (trace w) APP_NAME (map username cred_list)) as [e|code].
  { simplify_eq. read_events Ht. elem_cases Hsel. }
  cbv zeta in H. destruct (code =? IDOK)%Z eqn:Hcode.
  2:{ rewrite run_log in H. simplify_eq. read_events Ht. elem_cases Hsel. }
  apply Z.eqb_eq in Hcode as ->.
  destruct (os_selecteditem os _) as [e|[i'|]].
  { simplify_eq. read_events Ht. elem_cases Hsel. }
  2:{ rewrite run_log in H. simplify_eq. read_events Ht. elem_cases Hsel. }
  assert (i' = i) as ->.
  { destruct (py_getitem cred_list i') as [e|cred'].
    - simplify_eq. read_events Ht. by elem_cases Hsel.
    - destruct (emits_clipboard_handoff _ _ _ _ _ H) as (evs' & Ht' & Hf).
      rewrite Ht' in Ht. read_events Ht.
      rewrite !elem_of_cons in Hsel. destruct_or?; simplify_eq; [done|].
      apply (Forall_kind _ _ _ Hf) in Hsel. set_solver. }
  match type of H with
  | match _ with inl _ => (_, ?w2) | inr _ => _ end = _ => exists w2
  end.
  split_and!; [by autorewrite with world; rewrite <- app_assoc|done|done|].
  destruct (py_getitem cred_list i); [by injection H as <- <-|done].
Qed.

Lemma py_getitem_out_of_range {A} (l : list A) (i : Z) :
  (i < - Z.of_nat (length l) \/ Z.of_nat (length l) <= i)%Z ->
  py_getitem l i = inl IndexError.
Proof.
  intros Hi. unfold py_getitem. cbv zeta.
  destruct (i <? 0)%Z eqn:E.
  - apply Z.ltb_lt in E. destruct (i + Z.of_nat (length l) <? 0)%Z eqn:E2; [done|].
    apply Z.ltb_ge in E2.
    rewrite lookup_ge_None_2; [done|]. lia.
  - rewrite E. apply Z.ltb_ge in E.
    rewrite lookup_ge_None_2; [done|]. lia.
Qed.

Lemma py_getitem_negative {A} (l : list A) (i : Z) (x : A) :
  (- Z.of_nat (length l) <= i < 0)%Z ->
  l !! Z.to_nat (Z.of_nat (length l) + i) = Some x ->
  py_getitem l i = inr x.
Proof.
  intros [Hlo Hhi] Hx. unfold py_getitem. cbv zeta.
  apply Z.ltb_lt in Hhi. rewrite Hhi.
  destruct (i + Z.of_nat (length l) <? 0)%Z eqn:E; [apply Z.ltb_lt in E; lia|].
  by rewrite Z.add_comm, Hx.
Qed.

(** X17: an index outside the table, above or below, and any index on an
    empty table, ends the handler with [IndexError] at the subscript: the
    clipboard is not opened, nothing is written and nothing is logged. *)
Theorem index_out_of_range_raises_before_clipboard os cred_list w o w' evs i :
  hot_key_callback os cred_list w = (o, w') ->
  trace w' = trace w ++ evs ->
  EvSelectedItem (inr (Some i)) ∈ evs ->
  (i < - Z.of_nat (length cred_list) \/ Z.of_nat (length cred_list) <= i)%Z ->
  o = Raised IndexError
  /\ evs = [EvDoModal APP_NAME (map username cred_list) (inr IDOK);
            EvSelectedItem (inr (Some i))]
  /\ stdout w' = stdout w
  /\ clipboard w' = clipboard w
  /\ clip_open w' = clip_open w.
Proof.
  intros H Ht Hsel Hi.
  destruct (handler_selected _ _ _ _ _ _ _ H Ht Hsel) as (w2 & Ht2 & Hs2 & Hc2 & Hrun).
  rewrite (py_getitem_out_of_range _ _ Hi) in Hrun. destruct Hrun as [-> ->].
  rewrite Ht2 in Ht. apply app_inv_head in Ht as <-.
  injection Hc2 as Ho Hc. by split_and!.
Qed.

Lemma write_both_first os pw w o w' :
  write_both os (JStr pw) w = (o, w') ->
  stdout w' = stdout w
  /\ exists r rest, trace w' = trace w ++ EvSetClipboardText pw CF_TEXT r :: rest.
Proof.
  rewrite run_write_both_str.
  destruct (os_SetClipboardText os (trace w) pw CF_TEXT) as [e|u].
  { intros [= <- <-]. split; [done|]. by exists (inl e), []. }
  cbv zeta. destruct (os_SetClipboardText os _ pw CF_UNICODETEXT) as [e|u'];
    intros [= <- <-]; (split; [done|]); autorewrite with world;
    rewrite <- app_assoc; by eexists _, _.
Qed.

Lemma write_both_stdout os text w o w' :
  write_both os text w = (o, w') -> stdout w' = stdout w.
Proof.
  destruct text as [| | |pw| |];
    try (rewrite run_write_both_other by done; by intros [= <- <-]).
  intros H. by apply write_both_first in H as [? _].
Qed.

(** The clipboard session after the writes. *)
Lemma clipboard_handoff_tail os cred w o w' :
  clipboard_handoff os cred w = (o, w') ->
  match os_OpenClipboard os (trace w) with
  | inl e => o = Raised e /\ w' = record_event (EvOpenClipboard (inl e)) w
  | inr u =>
      let w1 := with_open true (record_event (EvOpenClipboard (inr u)) w) in
      exists o1 w2 c tail,
        write_both os (password cred) w1 = (o1, w2)
        /\ trace w' = trace w2 ++ EvCloseClipboard c :: tail
        /\ Forall (fun ev => kind_of ev = KNow) tail
        /\ match o with
           | Done _ =>
               o1 = Done tt /\ c = inr tt
               /\ exists t,
                   stdout w' = stdout w2
                               ++ [t +:+ ": Win32 dialog selected username: "
                                   +:+ py_str (username cred)
                                   +:+ ": Password copied to clipboard"]
           | _ => stdout w' = stdout w2
           end
  end.
Proof.
  rewrite run_clipboard_handoff.
  destruct (os_OpenClipboard os (trace w)) as [e|u]; [by intros [= <- <-]|].
  cbv zeta. destruct (write_both os (password cred) _) as [o1 w2] eqn:Ew.
  intros H. exists o1, w2.
  destruct (os_CloseClipboard os (trace w2)) as [e|[]].
  { injection H as <- <-. exists (inl e), []. by split_and!. }
  destruct o1 as [[]|e|].
  - rewrite run_log in H. injection H as <- <-.
    exists (inr tt), [EvNow (os_now os (trace w2 ++ [EvCloseClipboard (inr tt)]))].
    autorewrite with world. rewrite <- app_assoc.
    split_and!; [done|done|by repeat constructor|done|done|by eexists].
  - injection H as <- <-. exists (inr tt), []. by split_and!.
  - by apply write_both_not_pending in Ew.
Qed.

(** X18: a negative index is not an error: as Python's subscript counts
    it from the end of the list, the handler goes on to the clipboard with
    the record at [len(cred_list) + index], whose password is the first
    text it writes. *)
Theorem negative_index_counts_from_the_end os cred_list w o w' evs i cred pw :
  hot_key_callback os cred_list w = (o, w') ->
  trace w' = trace w ++ evs ->
  EvSelectedItem (inr (Some i)) ∈ evs ->
  (- Z.of_nat (length cred_list) <= i < 0)%Z ->
  cred_list !! Z.to_nat (Z.of_nat (length cred_list) + i) = Some cred ->
  password cred = JStr pw ->
  exists a rest,
    evs = [EvDoModal APP_NAME (map username cred_list) (inr IDOK);
           EvSelectedItem (inr (Some i)); EvOpenClipboard a] ++ rest
    /\ match a with
       | inl e => o = Raised e /\ rest = []
       | inr _ => exists r rest', rest = EvSetClipboardText pw CF_TEXT r :: rest'
       end.
Proof.
  intros H Ht Hsel Hi Hcred Hpw.
  destruct (handler_selected _ _ _ _ _ _ _ H Ht Hsel) as (w2 & Ht2 & _ & _ & Hrun).
  rewrite (py_getitem_negative _ _ _ Hi Hcred) in Hrun.
  apply clipboard_handoff_tail in Hrun.
  destruct (os_OpenClipboard os (trace w2)) as [e|u].
  - destruct Hrun as [-> ->]. rewrite trace_record, Ht2, <- app_assoc in Ht.
    apply app_inv_head in Ht as <-. by exists (inl e), [].
  - cbv zeta in Hrun. destruct Hrun as (o1 & w3 & c & tail & Hw & Ht' & _).
    rewrite Hpw in Hw. apply write_both_first in Hw as [_ (r & rest & Ht3)].
    rewrite Ht', Ht3 in Ht. autorewrite with world in Ht.
    rewrite Ht2, <- !app_assoc in Ht. apply app_inv_head in Ht as <-.
    exists (inr u), (EvSetClipboardText pw CF_TEXT r :: rest ++ EvCloseClipboard c :: tail).
    split; [done|]. by eexists _, _.
Qed.


(** ** The clipboard over a whole run *)

Lemma clip_safe_same w w' evs :
  trace w' = trace w ++ evs -> clip_open w' = false -> clipboard w' = clipboard w ->
  clip_safe w w'.
Proof. intros Ht Ho Hc. exists evs. split_and!; [done|by left|done]. Qed.

Lemma clip_safe_trans w w1 w2 : clip_safe w w1 -> clip_safe w1 w2 -> clip_safe w w2.
Proof.
  intros (evs1 & Ht1 & Ho1 & Hc1) (evs2 & Ht2 & Ho2 & Hc2).
  exists (evs1 ++ evs2). split_and!.
  - by rewrite Ht2, Ht1, app_assoc.
  - destruct Ho2 as [?|[e He]]; [by left|right]. exists e.
    apply elem_of_app. by right.
  - intros Hno. rewrite Hc2, Hc1; [done| |];
      intros s f Hin; apply (Hno s f), elem_of_app; auto.
Qed.

Lemma write_both_clip os text w o w' :
  write_both os text w = (o, w') ->
  exists evs,
    trace w' = trace w ++ evs
    /\ clip_open w' = clip_open w
    /\ ((forall s f, EvSetClipboardText s f (inr tt) ∉ evs) ->
        clipboard w' = clipboard w).
Proof.
  destruct text as [| | |pw| |];
    try (rewrite run_write_both_other by done; intros [= <- <-];
         exists []; by rewrite app_nil_r).
  rewrite run_write_both_str.
  destruct (os_SetClipboardText os (trace w) pw CF_TEXT) as [e|[]].
  { intros [= <- <-]. by eexists [_]. }
  cbv zeta. destruct (os_SetClipboardText os _ pw CF_UNICODETEXT) as [e|[]];
    intros [= <- <-]; eexists; autorewrite with world; rewrite <- ?app_assoc;
    (split_and!; [reflexivity|done|]); intros Hno;
    destruct (Hno pw CF_TEXT); by left.
Qed.

Lemma clipboard_handoff_clip os cred w o w' :
  clipboard_handoff os cred w = (o, w') -> clip_open w = false -> clip_safe w w'.
Proof.
  intros H Hopen. rewrite run_clipboard_handoff in H.
  destruct (os_OpenClipboard os (trace w)) as [e|u].
  { injection H as <- <-. by apply (clip_safe_same _ _ [EvOpenClipboard (inl e)]). }
  cbv zeta in H. destruct (write_both os (password cred) _) as [o1 w2] eqn:Ew.
  apply write_both_clip in Ew as (evs1 & Ht1 & _ & Hc1).
  rewrite trace_open, trace_record in Ht1. rewrite clipboard_open, clipboard_record in Hc1.
  destruct (os_CloseClipboard os (trace w2)) as [e|u'].
  - injection H as <- <-.
    exists ([EvOpenClipboard (inr u)] ++ evs1 ++ [EvCloseClipboard (inl e)]).
    split_and!.
    + by rewrite trace_record, Ht1, <- !app_assoc.
    + right. exists e. rewrite !elem_of_app. right. right.
      by apply list_elem_of_singleton.
    + intros Hno. rewrite clipboard_record. apply Hc1. intros s f Hin.
      apply (Hno s f). rewrite !elem_of_app. auto.
  - assert (exists tail, trace w' = trace w2 ++ EvCloseClipboard (inr u') :: tail
                         /\ Forall (fun ev => kind_of ev = KNow) tail
                         /\ clip_open w' = false
                         /\ clipboard w' = clipboard w2) as (tail & Ht & Hk & Ho & Hc).
    { destruct o1 as [[]|e|].
      - rewrite run_log in H. injection H as <- <-. eexists [_].
        autorewrite with world. rewrite <- app_assoc.
        split_and!; [done|by repeat constructor|done|done].
      - injection H as <- <-. exists []. by autorewrite with world.
      - injection H as <- <-. exists []. by autorewrite with world. }
    exists ([EvOpenClipboard (inr u)] ++ evs1 ++ EvCloseClipboard (inr u') :: tail).
    split_and!.
    + by rewrite Ht, Ht1, <- !app_assoc.
    + by left.
    + intros Hno. rewrite Hc. apply Hc1. intros s f Hin.
      apply (Hno s f). rewrite !elem_of_app. auto.
Qed.

Lemma hot_key_callback_clip os cred_list w o w' :
  hot_key_callback os cred_list w = (o, w') -> clip_open w = false -> clip_safe w w'.
Proof.
  intros H Hopen. rewrite run_hot_key_callback in H.
  destruct (os_DoModal os (trace w) APP_NAME (map username cred_list)) as [e|code].
  { injection H as <- <-. by eapply (clip_safe_same _ _ [_]). }
  cbv zeta in H.
  assert (forall w1 evs1, trace w1 = trace w ++ evs1 -> clip_open w1 = false ->
            clipboard w1 = clipboard w -> log os cancelled w1 = (o, w') ->
            clip_safe w w') as Hcancel.
  { intros w1 evs1 Ht1 Ho1 Hc1 Hl. rewrite run_log in Hl. injection Hl as <- <-.
    eapply (clip_safe_same _ _ (evs1 ++ [_])); autorewrite with world;
      [by rewrite Ht1, <- app_assoc|done|done]. }
  destruct (code =? IDOK)%Z;
    [|by eapply (Hcancel _ [_]); [| | |exact H]; done].
  destruct (os_selecteditem os _) as [e|[i|]].
  - injection H as <- <-. eapply (clip_safe_same _ _ [_; _]); [|done..].
    autorewrite with world. by rewrite <- app_assoc.
  - set (w2 := record_event _ (record_event _ w)) in H.
    assert (clip_safe w w2) as H2.
    { eapply (clip_safe_same _ _ [_; _]); [|done..].
      unfold w2. autorewrite with world. by rewrite <- app_assoc. }
    destruct (py_getitem cred_list i) as [e|cred]; [by injection H as <- <-|].
    eapply clip_safe_trans; [exact H2|].
    by apply (clipboard_handoff_clip _ _ _ _ _ H).
  - eapply (Hcancel _ [_; _]); [| | |exact H]; [|done..].
    autorewrite with world. by rewrite <- app_assoc.
Qed.

Lemma message_loop_clip os fuel cred_list msg w o w' :
  message_loop os fuel cred_list 0 msg w = (o, w') ->
  clip_open w = false -> clip_safe w w'.
Proof.
  revert msg w. induction fuel as [|fuel IH]; intros msg w H Hopen.
  { injection H as <- <-. apply (clip_safe_same _ _ []); [by rewrite app_nil_r|done..]. }
  rewrite run_message_loop in H.
  destruct (os_GetMessageA os (trace w) msg) as [e|[r m]].
  { injection H as <- <-. by eapply (clip_safe_same _ _ [_]). }
  cbv zeta in H. set (w1 := record_event _ w) in H.
  assert (clip_safe w w1) as H1 by (by eapply (clip_safe_same _ _ [_])).
  destruct (r =? 0)%Z; [by injection H as <- <-|].
  destruct ((if (message m =? WM_HOTKEY)%Z && (0 =? wParam m)%Z
             then hot_key_callback os cred_list else mret tt) w1)
    as [oh w2] eqn:Eh.
  assert (clip_safe w1 w2 /\ (oh = Done tt -> clip_open w2 = false)) as [H2 Hd].
  { destruct ((message m =? WM_HOTKEY)%Z && (0 =? wParam m)%Z).
    - split; [by apply (hot_key_callback_clip _ _ _ _ _ Eh)|].
      intros ->. by apply (handler_done_closed _ _ _ _ Eh).
    - injection Eh as <- <-. split; [|done].
      apply (clip_safe_same _ _ []); [by rewrite app_nil_r|done..]. }
  destruct oh as [[]|e|];
    [|injection H as <- <-; by eapply clip_safe_trans..].
  eapply clip_safe_trans; [exact H1|]. eapply clip_safe_trans; [exact H2|].
  specialize (Hd eq_refl).
  destruct (os_TranslateMessage os (trace w2) m) as [e|t].
  { injection H as <- <-. by eapply (clip_safe_same _ _ [_]). }
  cbv zeta in H. destruct (os_DispatchMessageA os _ m) as [e|d].
  { injection H as <- <-. eapply (clip_safe_same _ _ [_; _]); [|done..].
    autorewrite with world. by rewrite <- app_assoc. }
  eapply clip_safe_trans; [|by apply (IH _ _ H)].
  eapply (clip_safe_same _ _ [_; _]); [|done..].
  autorewrite with world. by rewrite <- app_assoc.
Qed.

Lemma main_clip os fuel argv clip o w :
  main os fuel argv (init_world clip) = (o, w) -> clip_safe (init_world clip) w.
Proof.
  intros H. rewrite main_phases in H.
  apply bind_inv in H as [(cl & w1 & Hs & H)|[(e & Hs & ->)|[Hs ->]]].
  2,3: destruct (emits_startup _ _ _ _ _ Hs) as (evs & Ht & _);
    apply keeps_startup in Hs; injection Hs as Ho Hc;
    by apply (clip_safe_same _ _ evs).
  destruct (emits_startup _ _ _ _ _ Hs) as (evs & Ht & _).
  apply keeps_startup in Hs. injection Hs as Ho Hc.
  eapply clip_safe_trans; [by apply (clip_safe_same _ _ evs)|].
  apply main_hotkey_inv in H. cbv zeta in H.
  destruct (os_RegisterHotKey os (trace w1) 0 7 80) as [e|r].
  { destruct H as [-> ->]. by eapply (clip_safe_same _ _ [_]). }
  destruct (r =? 0)%Z.
  { destruct H as [-> ->]. by eapply (clip_safe_same _ _ [_]). }
  destruct H as (o1 & w2 & evs2 & Hl & _ & _ & H).
  apply message_loop_clip in Hl; [|done].
  assert (clip_safe w1 w2) as H12.
  { eapply clip_safe_trans; [|exact Hl]. by eapply (clip_safe_same _ _ [_]). }
  destruct o1 as [[]|e|]; [| |by destruct H as [_ ->]];
    destruct H as [-> _]; destruct H12 as (evs3 & Ht3 & Ho3 & Hc3);
    exists (evs3 ++ [EvUnregisterHotKey 0 (os_UnregisterHotKey os (trace w2) 0)]);
    (split_and!; [by rewrite trace_record, Ht3, <- app_assoc| |]).
  1,3: destruct Ho3 as [?|[e' He]]; [by left|right; exists e'; apply elem_of_app; by left].
  all: intros Hno; rewrite clipboard_record; apply Hc3; intros s f Hin;
    apply (Hno s f), elem_of_app; by left.
Qed.

(** X20: [main] does not leave the clipboard open: when it ends, whatever
    the messages and the failures were, the clipboard is closed, unless a
    call of [CloseClipboard] itself failed. *)
Theorem clipboard_is_closed_at_exit os fuel argv clip o w :
  main os fuel argv (init_world clip) = (o, w) ->
  clip_open w = false \/ exists e, EvCloseClipboard (inl e) ∈ trace w.
Proof.
  intros H. destruct (main_clip _ _ _ _ _ _ H) as (evs & Ht & Ho & _).
  simpl in Ht. by rewrite Ht.
Qed.

(** X21: the clipboard changes only by a write of the handler: in a run
    in which no call of [SetClipboardText] succeeded (no hot-key press, a
    cancelled dialog, a clipboard that could not be opened, a failed
    write), the clipboard holds at the end what it held at the start. *)
Theorem clipboard_changes_only_by_a_write os fuel argv clip o w :
  main os fuel argv (init_world clip) = (o, w) ->
  (forall s f, EvSetClipboardText s f (inr tt) ∉ trace w) ->
  clipboard w = clip.
Proof.
  intros H Hno. destruct (main_clip _ _ _ _ _ _ H) as (evs & Ht & _ & Hc).
  simpl in Ht. rewrite Ht in Hno. by apply Hc.
Qed.

(** ** The message loop, continued *)

Lemma message_loop_quit os fuel cred_list idx msg w o w' evs m :
  message_loop os fuel cred_list idx msg w = (o, w') ->
  trace w' = trace w ++ evs ->
  EvGetMessageA (inr (0%Z, m)) ∈ evs ->
  o = Done tt /\ exists pre, evs = pre ++ [EvGetMessageA (inr (0%Z, m))].
Proof.
  revert msg w evs. induction fuel as [|fuel IH]; intros msg w evs H Ht Hin.
  { injection H as <- <-. read_events Ht. by apply elem_of_nil in Hin. }
  rewrite run_message_loop in H.
  destruct (os_GetMessageA os (trace w) msg) as [e|[r m']].
  { injection H as <- <-. read_events Ht. elem_cases Hin. }
  cbv zeta in H. set (w1 := record_event _ w) in H.
  destruct (r =? 0)%Z eqn:Hr.
  { injection H as <- <-. unfold w1 in Ht. read_events Ht.
    apply list_elem_of_singleton in Hin. injection Hin as <- <-.
    split; [done|]. by exists []. }
  destruct ((if (message m' =? WM_HOTKEY)%Z && (idx =? wParam m')%Z
             then hot_key_callback os cred_list else mret tt) w1)
    as [oh w2] eqn:Eh.
  assert (exists evs2, trace w2 = trace w1 ++ evs2
                       /\ Forall (fun ev => kind_of ev ∈ handler_kinds) evs2)
    as (evs2 & Ht2 & Hf2).
  { destruct ((message m' =? WM_HOTKEY)%Z && (idx =? wParam m')%Z).
    - by apply (emits_hot_key_callback _ _ _ _ _ Eh).
    - injection Eh as <- <-. exists []. by rewrite app_nil_r. }
  assert (EvGetMessageA (inr (0%Z, m)) ∉ EvGetMessageA (inr (r, m')) :: evs2) as Hno.
  { intros [Heq|Hin2]%elem_of_cons.
    - injection Heq as Hr0 _. rewrite <- Hr0 in Hr. discriminate Hr.
    - apply (Forall_kind _ _ _ Hf2) in Hin2. set_solver. }
  unfold w1 in Ht2. rewrite trace_record, <- app_assoc in Ht2. simpl in Ht2.
  destruct oh as [[]|e|].
  2,3: injection H as <- <-; rewrite Ht2 in Ht; apply app_inv_head in Ht as <-; done.
  destruct (os_TranslateMessage os (trace w2) m') as [e|t].
  { injection H as <- <-. rewrite trace_record, Ht2, <- app_assoc in Ht.
    apply app_inv_head in Ht as <-. apply elem_of_app in Hin as [Hin|Hin]; [done|].
    elem_cases Hin. }
  cbv zeta in H. destruct (os_DispatchMessageA os _ m') as [e|d].
  { injection H as <- <-. rewrite !trace_record, Ht2, <- !app_assoc in Ht.
    apply app_inv_head in Ht as <-. apply elem_of_app in Hin as [Hin|Hin]; [done|].
    simpl in Hin. elem_cases Hin. }
  destruct (emits_message_loop _ _ _ _ _ _ _ _ H) as (evs3 & Ht3 & _).
  rewrite Ht3 in Ht. rewrite !trace_record, Ht2, <- !app_assoc in Ht.
  apply app_inv_head in Ht. subst evs.
  apply elem_of_app in Hin as [Hin|Hin]; [done|].
  simpl in Hin. apply elem_of_cons in Hin as [Hin|Hin]; [done|].
  apply elem_of_cons in Hin as [Hin|Hin]; [done|].
  destruct (IH _ _ _ H Ht3 Hin) as [-> (pre & ->)]. split; [done|].
  exists ((EvGetMessageA (inr (r, m')) :: evs2)
          ++ EvTranslateMessage m' (inr t) :: EvDispatchMessageA m' (inr d) :: pre).
  by rewrite <- !app_assoc.
Qed.

Lemma message_loop_done os fuel cred_list idx msg w w' :
  message_loop os fuel cred_list idx msg w = (Done tt, w') ->
  exists pre m, trace w' = trace w ++ pre ++ [EvGetMessageA (inr (0%Z, m))].
Proof.
  revert msg w. induction fuel as [|fuel IH]; intros msg w H; [done|].
  rewrite run_message_loop in H.
  destruct (os_GetMessageA os (trace w) msg) as [e|[r m']]; [done|].
  cbv zeta in H. destruct (r =? 0)%Z eqn:Hr.
  { apply Z.eqb_eq in Hr as ->. injection H as <-. by exists [], m'. }
  set (w1 := record_event _ w) in H.
  destruct ((if (message m' =? WM_HOTKEY)%Z && (idx =? wParam m')%Z
             then hot_key_callback os cred_list else mret tt) w1)
    as [oh w2] eqn:Eh.
  assert (exists evs2, trace w2 = trace w1 ++ evs2) as (evs2 & Ht2).
  { destruct ((message m' =? WM_HOTKEY)%Z && (idx =? wParam m')%Z).
    - destruct (emits_hot_key_callback _ _ _ _ _ Eh) as (evs2 & ? & _). eauto.
    - injection Eh as <- <-. exists []. by rewrite app_nil_r. }
  destruct oh as [[]|e|]; [|done..].
  destruct (os_TranslateMessage os (trace w2) m') as [e|t]; [done|].
  cbv zeta in H. destruct (os_DispatchMessageA os _ m') as [e|d]; [done|].
  destruct (IH _ _ H) as (pre & m & Ht).
  exists ((EvGetMessageA (inr (r, m')) :: evs2)
          ++ EvTranslateMessage m' (inr t) :: EvDispatchMessageA m' (inr d) :: pre), m.
  rewrite Ht, !trace_record, Ht2. unfold w1. rewrite trace_record.
  by rewrite <- !app_assoc.
Qed.

(** X22: [main] returns normally exactly when the queue reported quit:
    its outcome is a plain return if and only if its last two calls are a
    [GetMessageA] that returned 0 and the [UnregisterHotKey] that
    succeeded after it. Nothing is translated, dispatched or handled after
    the quit message. *)
Theorem main_returns_exactly_after_quit os fuel argv clip o w :
  main os fuel argv (init_world clip) = (o, w) ->
  o = Done tt
  <-> exists pre m u,
        trace w = pre ++ [EvGetMessageA (inr (0%Z, m)); EvUnregisterHotKey 0 (inr u)].
Proof.
  intros H. rewrite main_phases in H.
  assert (forall (t : list event) pre m (u : Z),
            Forall (fun ev => kind_of ev <> KUnregisterHotKey) t ->
            t = pre ++ [EvGetMessageA (inr (0%Z, m)); EvUnregisterHotKey 0 (inr u)] ->
            False) as Hlast.
  { intros t pre m u Hf ->. apply Forall_app in Hf as [_ Hf].
    apply Forall_cons in Hf as [_ Hf]. apply Forall_cons in Hf as [Hf _]. done. }
  apply bind_inv in H as [(cl & w1 & Hs & H)|[(e & Hs & ->)|[Hs ->]]].
  2,3: apply startup_trace in Hs; split; [done|]; intros (pre & m & u & Ht);
    exfalso; eapply Hlast; [|exact Ht]; eapply Forall_kind_ne; [|exact Hs]; set_solver.
  apply startup_trace in Hs.
  assert (Forall (fun ev => kind_of ev <> KUnregisterHotKey) (trace w1)) as Hs'
    by (eapply Forall_kind_ne; [|exact Hs]; set_solver).
  apply main_hotkey_inv in H. cbv zeta in H.
  destruct (os_RegisterHotKey os (trace w1) 0 7 80) as [e|r].
  { destruct H as [-> ->]. split; [done|]. intros (pre & m & u & Ht).
    exfalso. eapply Hlast; [|exact Ht]. rewrite trace_record.
    apply Forall_app; split; [done|by repeat constructor]. }
  destruct (r =? 0)%Z.
  { destruct H as [-> ->]. split; [done|]. intros (pre & m & u & Ht).
    exfalso. eapply Hlast; [|exact Ht]. rewrite trace_record.
    apply Forall_app; split; [done|by repeat constructor]. }
  destruct H as (o1 & w2 & evs & Hl & Ht2 & Hf & H).
  rewrite trace_record in Ht2.
  assert (Forall (fun ev => kind_of ev <> KUnregisterHotKey) (trace w2)) as Hw2.
  { rewrite Ht2. repeat apply Forall_app_2; [done|by repeat constructor|].
    eapply Forall_kind_ne; [|exact Hf]. set_solver. }
  assert (forall m pre, trace w2 = pre ++ [EvGetMessageA (inr (0%Z, m))] -> o1 = Done tt)
    as Hquit.
  { intros m pre Ht.
    assert (EvGetMessageA (inr (0%Z, m)) ∈ evs) as Hin.
    { assert (EvGetMessageA (inr (0%Z, m)) ∈ trace w2) as Hin
        by (rewrite Ht; apply elem_of_app; right; by left).
      rewrite Ht2 in Hin. apply elem_of_app in Hin as [Hin|Hin]; [|done].
      apply elem_of_app in Hin as [Hin|Hin]; [|by elem_cases Hin].
      apply (Forall_kind _ _ _ Hs) in Hin. set_solver. }
    assert (trace w2 = trace (record_event (EvRegisterHotKey 0 7 80 (inr r)) w1) ++ evs)
      as Ht2' by (by rewrite trace_record).
    by destruct (message_loop_quit _ _ _ _ _ _ _ _ _ _ Hl Ht2' Hin). }
  destruct o1 as [[]|e|].
  - destruct H as [-> ->]. cbv zeta.
    apply message_loop_done in Hl as (pre & m & Ht).
    rewrite trace_record in Ht.
    destruct (os_UnregisterHotKey os (trace w2) 0) as [e|u] eqn:Eu.
    + split; [done|]. intros (pre' & m' & u' & Ht').
      rewrite trace_record in Ht'.
      change [EvGetMessageA (inr (0%Z, m')); EvUnregisterHotKey 0 (inr u')]
        with ([EvGetMessageA (inr (0%Z, m'))] ++ [EvUnregisterHotKey 0 (inr u')]) in Ht'.
      rewrite app_assoc in Ht'. by apply app_inj_tail in Ht' as [_ [=]].
    + split; [intros _|done].
      exists (trace w1 ++ [EvRegisterHotKey 0 7 80 (inr r)] ++ pre), m, u.
      rewrite trace_record, Ht, <- !app_assoc. reflexivity.
  - destruct H as [-> ->]. cbv zeta. split.
    + by destruct (os_UnregisterHotKey os (trace w2) 0).
    + intros (pre' & m' & u' & Ht'). rewrite trace_record in Ht'.
      change [EvGetMessageA (inr (0%Z, m')); EvUnregisterHotKey 0 (inr u')]
        with ([EvGetMessageA (inr (0%Z, m'))] ++ [EvUnregisterHotKey 0 (inr u')]) in Ht'.
      rewrite app_assoc in Ht'. apply app_inj_tail in Ht' as [Ht' _].
      by apply Hquit in Ht'.
  - destruct H as [-> ->]. split; [done|]. intros (pre & m & u & Ht).
    exfalso. by eapply Hlast.
Qed.

(** ** The bound on the loop *)

Lemma message_loop_more_fuel os fuel k cred_list idx msg w o w' :
  message_loop os fuel cred_list idx msg w = (o, w') -> o <> Pending ->
  message_loop os (fuel + k) cred_list idx msg w = (o, w').
Proof.
  revert msg w. induction fuel as [|fuel IH]; intros msg w H Hp.
  { injection H as <- <-. done. }
  change (S fuel + k) with (S (fuel + k)).
  rewrite run_message_loop in *.
  destruct (os_GetMessageA os (trace w) msg) as [e|[r m]]; [done|].
  cbv zeta in *. destruct (r =? 0)%Z; [done|].
  destruct ((if (message m =? WM_HOTKEY)%Z && (idx =? wParam m)%Z
             then hot_key_callback os cred_list else mret tt) _)
    as [[[]|e|] w2]; [|done..].
  destruct (os_TranslateMessage os (trace w2) m) as [e|t]; [done|].
  cbv zeta in *. destruct (os_DispatchMessageA os _ m) as [e|d]; [done|].
  by apply IH.
Qed.

Lemma main_more_fuel os fuel k argv w o w' :
  main os fuel argv w = (o, w') -> o <> Pending ->
  main os (fuel + k) argv w = (o, w').
Proof.
  rewrite !main_phases. unfold mbind, M_bind.
  destruct (startup os argv w) as [[cl|e|] w1]; [|done..].
  unfold main_hotkey, RegisterHotKey. rewrite !run_call.
  destruct (os_RegisterHotKey os (trace w1) 0 7 80) as [e|r]; [done|].
  destruct (r =? 0)%Z; [done|]. unfold try_finally.
  destruct (message_loop os fuel cl 0 MSG0 _) as [o1 w2] eqn:El.
  intros H Hp.
  assert (o1 <> Pending) as Hp1 by (intros ->; by injection H as <- <-).
  by rewrite (message_loop_more_fuel _ _ k _ _ _ _ _ _ El Hp1).
Qed.

(** X23: the loop ends with the queue. When [GetMessageA] returns 0 or
    fails at its [n]-th call at the latest, [main] ends, by a return or by
    an exception, and what it did does not depend on how many more turns
    the loop was allowed. *)
Theorem main_ends_when_the_queue_quits os n fuel argv w :
  quits_by os n -> n <= fuel ->
  exists o w',
    main os (S fuel) argv w = (o, w')
    /\ o <> Pending
    /\ forall k, main os (S fuel + k) argv w = (o, w').
Proof.
  intros Hq Hn. destruct (main os (S fuel) argv w) as [o w'] eqn:H.
  pose proof (main_returns os n fuel argv w Hq Hn) as Hp. rewrite H in Hp.
  exists o, w'. split_and!; [done|done|]. intros k. by apply main_more_fuel.
Qed.

(** ** One dialog for each press of the hot key *)

Lemma count_events_app p a b :
  count_events p (a ++ b) = count_events p a + count_events p b.
Proof. induction a as [|ev a IH]; simpl; [done|]. rewrite IH. lia. Qed.

Lemma count_events_none p (ks : list kind) evs :
  Forall (fun ev => kind_of ev ∈ ks) evs ->
  (forall ev, p ev = true -> kind_of ev ∉ ks) ->
  count_events p evs = 0.
Proof.
  intros Hf Hp. induction Hf as [|ev evs Hk _ IH]; [done|]. simpl.
  destruct (p ev) eqn:E; [by apply Hp in E|]. by rewrite IH.
Qed.

Lemma is_dialog_kind ev : is_dialog ev = true -> kind_of ev = KDoModal.
Proof. by destruct ev. Qed.

Lemma is_hot_key_press_kind ev : is_hot_key_press ev = true -> kind_of ev = KGetMessageA.
Proof. by destruct ev. Qed.

Lemma handler_one_dialog os cred_list w o w' :
  hot_key_callback os cred_list w = (o, w') ->
  exists evs,
    trace w' = trace w ++ evs
    /\ count_events is_dialog evs = 1
    /\ count_events is_hot_key_press evs = 0.
Proof.
  intros H. destruct (emits_hot_key_callback _ _ _ _ _ H) as (evs & Ht & Hf).
  exists evs. split; [done|]. split.
  2:{ apply (count_events_none _ _ _ Hf). intros ev Hev%is_hot_key_press_kind.
      rewrite Hev. set_solver. }
  clear Hf. rewrite run_hot_key_callback in H.
  destruct (os_DoModal os (trace w) APP_NAME (map username cred_list)) as [e|code].
  { injection H as <- <-. by read_events Ht. }
  cbv zeta in H. destruct (code =? IDOK)%Z.
  2:{ rewrite run_log in H. injection H as <- <-. by read_events Ht. }
  destruct (os_selecteditem os _) as [e|[i|]].
  - injection H as <- <-. by read_events Ht.
  - destruct (py_getitem cred_list i) as [e|cred].
    + injection H as <- <-. by read_events Ht.
    + destruct (emits_clipboard_handoff _ _ _ _ _ H) as (evs' & Ht' & Hf).
      rewrite Ht' in Ht. read_events Ht. cbn [count_events is_dialog].
      rewrite (count_events_none _ _ _ Hf); [done|].
      intros ev Hev%is_dialog_kind. rewrite Hev. set_solver.
  - rewrite run_log in H. injection H as <- <-. by read_events Ht.
Qed.

Lemma message_loop_dialogs os fuel cred_list msg w o w' :
  message_loop os fuel cred_list 0 msg w = (o, w') ->
  exists evs,
    trace w' = trace w ++ evs
    /\ count_events is_dialog evs = count_events is_hot_key_press evs.
Proof.
  revert msg w. induction fuel as [|fuel IH]; intros msg w H.
  { injection H as <- <-. exists []. by rewrite app_nil_r. }
  rewrite run_message_loop in H.
  destruct (os_GetMessageA os (trace w) msg) as [e|[r m]].
  { injection H as <- <-. by exists [EvGetMessageA (inl e)]. }
  cbv zeta in H. destruct (r =? 0)%Z eqn:Hr.
  { injection H as <- <-. exists [EvGetMessageA (inr (r, m))].
    split; [done|]. cbn [count_events is_dialog is_hot_key_press]. by rewrite Hr. }
  set (w1 := record_event _ w) in H.
  destruct ((if (message m =? WM_HOTKEY)%Z && (0 =? wParam m)%Z
             then hot_key_callback os cred_list else mret tt) w1)
    as [oh w2] eqn:Eh.
  assert (exists evs2,
            trace w2 = trace w ++ EvGetMessageA (inr (r, m)) :: evs2
            /\ count_events is_dialog (EvGetMessageA (inr (r, m)) :: evs2)
               = count_events is_hot_key_press (EvGetMessageA (inr (r, m)) :: evs2))
    as (evs2 & Ht2 & Hc2).
  { cbn [count_events is_dialog is_hot_key_press]. rewrite Hr. cbn [negb andb].
    destruct ((message m =? WM_HOTKEY)%Z && (0 =? wParam m)%Z).
    - destruct (handler_one_dialog _ _ _ _ _ Eh) as (evs2 & Ht2 & Hd & Hp).
      exists evs2. unfold w1 in Ht2. rewrite trace_record, <- app_assoc in Ht2.
      split; [done|]. rewrite Hd, Hp. done.
    - injection Eh as <- <-. exists []. split; [|done].
      unfold w1. by rewrite trace_record. }
  destruct oh as [[]|e|]; [|injection H as <- <-; eauto..].
  destruct (os_TranslateMessage os (trace w2) m) as [e|t].
  { injection H as <- <-.
    exists ((EvGetMessageA (inr (r, m)) :: evs2) ++ [EvTranslateMessage m (inl e)]).
    rewrite trace_record, Ht2, <- app_assoc. split; [done|].
    rewrite !count_events_app, Hc2. done. }
  cbv zeta in H. destruct (os_DispatchMessageA os _ m) as [e|d].
  { injection H as <- <-.
    exists ((EvGetMessageA (inr (r, m)) :: evs2)
            ++ [EvTranslateMessage m (inr t); EvDispatchMessageA m (inl e)]).
    rewrite !trace_record, Ht2, <- !app_assoc. split; [done|].
    rewrite !count_events_app, Hc2. done. }
  destruct (IH _ _ H) as (evs3 & Ht3 & Hc3).
  exists ((EvGetMessageA (inr (r, m)) :: evs2)
          ++ [EvTranslateMessage m (inr t); EvDispatchMessageA m (inr d)] ++ evs3).
  rewrite Ht3, !trace_record, Ht2, <- !app_assoc. split; [done|].
  rewrite !count_events_app, Hc2, Hc3. done.
Qed.

(** X24: the dialog is shown once for each hot-key message with the id 0
    that [GetMessageA] delivers, and never otherwise: in every run of
    [main], ended or not, the calls of [DoModal] are as many as those
    messages. *)
Theorem one_dialog_for_each_hot_key_press os fuel argv clip o w :
  main os fuel argv (init_world clip) = (o, w) ->
  count_events is_dialog (trace w) = count_events is_hot_key_press (trace w).
Proof.
  intros H. rewrite main_phases in H.
  assert (forall t, Forall (fun ev => kind_of ev ∈ startup_kinds) t ->
            count_events is_dialog t = 0 /\ count_events is_hot_key_press t = 0) as Hzero.
  { intros t Hf. split; apply (count_events_none _ _ _ Hf).
    - intros ev Hev%is_dialog_kind. rewrite Hev. set_solver.
    - intros ev Hev%is_hot_key_press_kind. rewrite Hev. set_solver. }
  apply bind_inv in H as [(cl & w1 & Hs & H)|[(e & Hs & ->)|[Hs ->]]].
  2,3: apply startup_trace, Hzero in Hs as [-> ->]; done.
  apply startup_trace, Hzero in Hs as [Hd Hp].
  apply main_hotkey_inv in H. cbv zeta in H.
  destruct (os_RegisterHotKey os (trace w1) 0 7 80) as [e|r].
  { destruct H as [-> ->]. by rewrite trace_record, !count_events_app, Hd, Hp. }
  destruct (r =? 0)%Z.
  { destruct H as [-> ->]. by rewrite trace_record, !count_events_app, Hd, Hp. }
  destruct H as (o1 & w2 & _ & Hl & _ & _ & H).
  apply message_loop_dialogs in Hl as (evs & Ht & Hc). rewrite trace_record in Ht.
  assert (count_events is_dialog (trace w2) = count_events is_hot_key_press (trace w2))
    as H2 by (by rewrite Ht, !count_events_app, Hd, Hp, Hc).
  destruct o1 as [[]|e|]; [| |by destruct H as [_ ->]];
    destruct H as [-> _]; by rewrite trace_record, !count_events_app, H2.
Qed.

(** ** Further scenarios, run *)

Lemma wrong_argument_count_is_a_usage_error_witness :
  (run_of script_select 3 ["main.py"]).1 = Raised (SystemExit 1)
  /\ exit_status (run_of script_select 3 ["main.py"]).1 = Some 1%Z
  /\ trace (run_of script_select 3 ["main.py"]).2 = []
  /\ stdout (run_of script_select 3 ["main.py"]).2
     = [EmptyString; "ERROR: Missing requirement argument: JSON_CONFIG_FILE"]
       ++ usage "main.py"
  /\ clipboard (run_of script_select 3 ["main.py"]).2 = ∅.
Proof.
  apply (wrong_argument_count_is_a_usage_error (scripted_os script_select) 3
           ["main.py"] "main.py" ∅).
  - apply surjective_pairing.
  - simpl. lia.
  - reflexivity.
Defined.

Lemma help_flag_as_program_name_shows_usage_witness :
  (run_of script_select 3 ["--help"; "pw.json"]).1 = Raised (SystemExit 1)
  /\ trace (run_of script_select 3 ["--help"; "pw.json"]).2 = []
  /\ stdout (run_of script_select 3 ["--help"; "pw.json"]).2
     = [EmptyString] ++ usage "--help"
  /\ clipboard (run_of script_select 3 ["--help"; "pw.json"]).2 = ∅.
Proof.
  apply (help_flag_as_program_name_shows_usage (scripted_os script_select) 3
           "--help" "pw.json" ∅).
  - apply surjective_pairing.
  - in_list.
Defined.

Lemma unreadable_file_is_fatal_witness :
  (run_of script_no_file 3 argv_ok).1 = Raised (Fault "FileNotFoundError")
  /\ trace (run_of script_no_file 3 argv_ok).2
     = [EvReadText "C:\pw.json" (inl (Fault "FileNotFoundError"))]
  /\ stdout (run_of script_no_file 3 argv_ok).2 = [EmptyString]
  /\ clipboard (run_of script_no_file 3 argv_ok).2 = ∅.
Proof.
  apply (unreadable_file_is_fatal (scripted_os script_no_file) 3 "main.py" "pw.json" ∅).
  - apply surjective_pairing.
  - intros Hin. revert Hin. rewrite !elem_of_cons, elem_of_nil. by intros [|[|[|]]].
  - reflexivity.
Defined.

Lemma text_without_hash_is_unchanged_witness :
  (read_nqjson_file (scripted_os script_plain) "C:\pw.json" (init_world ∅)).1
  = Done (universal_newlines plain_file).
Proof.
  apply (text_without_hash_is_unchanged (scripted_os script_plain) "C:\pw.json"
           (init_world ∅) _
           (read_nqjson_file (scripted_os script_plain) "C:\pw.json" (init_world ∅)).2
           plain_file).
  - apply surjective_pairing.
  - reflexivity.
  - vm_compute. reflexivity.
Defined.

Lemma stripped_text_has_no_hash_witness : string_mem HASH table_text = false.
Proof.
  apply (stripped_text_has_no_hash (scripted_os script_select) "C:\pw.json"
           (init_world ∅)
           (read_nqjson_file (scripted_os script_select) "C:\pw.json" (init_world ∅)).2).
  vm_compute. reflexivity.
Defined.

Lemma stripping_twice_changes_nothing_witness :
  (read_nqjson_file (scripted_os script_stripped) "C:\pw2.json" (init_world ∅)).1
  = Done table_text.
Proof.
  apply (stripping_twice_changes_nothing (scripted_os script_select) "C:\pw.json"
           (init_world ∅)
           (read_nqjson_file (scripted_os script_select) "C:\pw.json" (init_world ∅)).2
           table_text (scripted_os script_stripped) "C:\pw2.json" (init_world ∅) _
           (read_nqjson_file (scripted_os script_stripped) "C:\pw2.json"
              (init_world ∅)).2).
  - vm_compute. reflexivity.
  - reflexivity.
  - apply surjective_pairing.
Defined.

Lemma line_feeds_are_kept_witness :
  exists json_text,
    (read_nqjson_file (scripted_os script_select) "C:\pw.json" (init_world ∅)).1
    = Done json_text
    /\ count_char LF json_text = count_char LF (universal_newlines table_file).
Proof.
  apply (line_feeds_are_kept (scripted_os script_select) "C:\pw.json" (init_world ∅) _
           (read_nqjson_file (scripted_os script_select) "C:\pw.json" (init_world ∅)).2
           table_file).
  - apply surjective_pairing.
  - reflexivity.
Defined.

Lemma distinct_usernames_are_accepted_witness :
  assert_no_dupe_username table_config = inr tt <-> NoDup ["alice"; "bob"].
Proof.
  apply (distinct_usernames_are_accepted table_config
           [credential_dict "alice" "p1"; credential_dict "bob" "p2"]).
  - reflexivity.
  - repeat constructor.
Defined.

Lemma duplicates_are_listed_in_file_order_witness :
  assert_no_dupe_username dupe_config
  = inl (Exception
           ("Duplicate username(s): ["
            +:+ py_join ", "
                  (map repr_str
                     (filter (fun v => 2 <= occurrences v ["alice"; "bob"; "alice"])
                        (first_seen ["alice"; "bob"; "alice"])))
            +:+ "]")).
Proof.
  apply (duplicates_are_listed_in_file_order dupe_config
           [credential_dict "alice" "p1"; credential_dict "bob" "p2";
            credential_dict "alice" "p3"]).
  - reflexivity.
  - repeat constructor.
  - intros [Hn _]%NoDup_cons. apply Hn. in_list.
Defined.

Lemma missing_credential_list_is_fatal_witness :
  (run_of script_no_list 3 argv_ok).1 = Raised (KeyError "credential_list")
  /\ exists path file,
      trace (run_of script_no_list 3 argv_ok).2
      = [EvReadText path (inr file);
         EvJsonLoads ("{" +:+ quoted "credentials" +:+ ": []}")
           (inr (JObj [("credentials", JArr [])]))].
Proof.
  apply (missing_credential_list_is_fatal (scripted_os script_no_list) 3 argv_ok ∅).
  - apply surjective_pairing.
  - in_list.
  - reflexivity.
Defined.

Lemma record_without_username_is_fatal_witness :
  exists json_text,
    (run_of script_no_username 3 argv_ok).1 = Raised (KeyError "username")
    /\ exists path file,
        trace (run_of script_no_username 3 argv_ok).2
        = [EvReadText path (inr file); EvJsonLoads json_text (inr no_username_config)].
Proof.
  eexists.
  apply (record_without_username_is_fatal (scripted_os script_no_username) 3 argv_ok ∅
           _ _ _ no_username_config
           [credential_dict "alice" "p1"; JObj [("password", JStr "p2")]]).
  - apply surjective_pairing.
  - in_list.
  - reflexivity.
  - repeat constructor; by eexists.
  - right. left. reflexivity.
Defined.

Lemma record_without_password_is_fatal_witness :
  exists json_text,
    assert_no_dupe_username no_password_config = inr tt
    /\ (run_of script_no_password 3 argv_ok).1 = Raised (KeyError "password")
    /\ exists path file,
        trace (run_of script_no_password 3 argv_ok).2
        = [EvReadText path (inr file); EvJsonLoads json_text (inr no_password_config)].
Proof.
  eexists.
  apply (record_without_password_is_fatal (scripted_os script_no_password) 3 argv_ok ∅
           _ _ _ no_password_config
           [credential_dict "alice" "p1"; JObj [("username", JStr "bob")]]
           ["alice"; "bob"]).
  - apply surjective_pairing.
  - in_list.
  - reflexivity.
  - repeat constructor; by eexists.
  - repeat constructor.
  - apply (bool_decide_unpack (NoDup ["alice"; "bob"])). vm_compute. exact I.
  - right. left. reflexivity.
Defined.

Lemma loaded_table_is_announced_witness :
  exists prog arg file a rest,
    argv_ok = [prog; arg]
    /\ trace (run_of script_select 3 argv_ok).2
       = [EvReadText (os_abspath (scripted_os script_select) arg) (inr file);
          EvJsonLoads table_text (inr table_config);
          EvMessageBox
            ("Loaded "
             +:+ pretty (length [credential_dict "alice" "p1"; credential_dict "bob" "p2"])
             +:+ " credentials from "
             +:+ os_abspath (scripted_os script_select) arg +:+ str1 LF +:+ str1 LF
             +:+ "Global hot key: Ctrl+Alt+Shift+P") APP_NAME MB_OK a] ++ rest
    /\ match a with
       | inl e => (run_of script_select 3 argv_ok).1 = Raised e /\ rest = []
       | inr _ =>
           exists r rest',
             rest = EvRegisterHotKey 0 (MOD_ALT + MOD_CONTROL + MOD_SHIFT) 80 r :: rest'
       end.
Proof.
  apply (loaded_table_is_announced (scripted_os script_select) 3 argv_ok ∅ _ _
           table_text table_config
           [credential_dict "alice" "p1"; credential_dict "bob" "p2"]
           table ["alice"; "bob"]).
  - apply surjective_pairing.
  - in_list.
  - reflexivity.
  - repeat constructor.
  - reflexivity.
  - apply (bool_decide_unpack (NoDup ["alice"; "bob"])). vm_compute. exact I.
Defined.

Lemma dialog_lists_usernames_in_file_order_witness :
  APP_NAME = APP_NAME
  /\ map username table = map JStr ["alice"; "bob"]
  /\ length (map username table)
     = length [credential_dict "alice" "p1"; credential_dict "bob" "p2"].
Proof.
  apply (dialog_lists_usernames_in_file_order (scripted_os script_select) 3 argv_ok ∅
           (run_of script_select 3 argv_ok).1 (run_of script_select 3 argv_ok).2
           table_text table_config
           [credential_dict "alice" "p1"; credential_dict "bob" "p2"]
           table ["alice"; "bob"] APP_NAME (map username table) (inr IDOK)).
  - apply surjective_pairing.
  - in_list.
  - reflexivity.
  - repeat constructor.
  - reflexivity.
  - apply (bool_decide_unpack (NoDup ["alice"; "bob"])). vm_compute. exact I.
  - in_list.
Defined.

Lemma only_passwords_reach_the_clipboard_witness :
  (CF_UNICODETEXT = CF_TEXT \/ CF_UNICODETEXT = CF_UNICODETEXT)
  /\ exists record,
      record ∈ [credential_dict "alice" "p1"; credential_dict "bob" "p2"]
      /\ py_subscript record "password" = inr (JStr "p2").
Proof.
  apply (only_passwords_reach_the_clipboard (scripted_os script_select) 3 argv_ok ∅
           (run_of script_select 3 argv_ok).1 (run_of script_select 3 argv_ok).2
           table_text table_config
           [credential_dict "alice" "p1"; credential_dict "bob" "p2"]
           table ["alice"; "bob"] "p2" CF_UNICODETEXT (inr tt)).
  - apply surjective_pairing.
  - in_list.
  - reflexivity.
  - repeat constructor.
  - reflexivity.
  - apply (bool_decide_unpack (NoDup ["alice"; "bob"])). vm_compute. exact I.
  - in_list.
Defined.

Lemma configuration_is_read_once_witness :
  exists pre rest,
    trace (run_of script_select 3 argv_ok).2 = pre ++ rest
    /\ (pre = []
        \/ (exists path r, pre = [EvReadText path r])
        \/ (exists path text json_text r,
              pre = [EvReadText path (inr text); EvJsonLoads json_text r]))
    /\ Forall (fun ev => kind_of ev <> KReadText /\ kind_of ev <> KJsonLoads) rest.
Proof.
  apply (configuration_is_read_once (scripted_os script_select) 3 argv_ok ∅
           (run_of script_select 3 argv_ok).1).
  apply surjective_pairing.
Defined.

Lemma undecodable_file_is_fatal_witness :
  (run_of script_broken 3 argv_ok).1 = Raised (Fault "JSONDecodeError")
  /\ exists prog arg file,
      argv_ok = [prog; arg]
      /\ trace (run_of script_broken 3 argv_ok).2
         = [EvReadText (os_abspath (scripted_os script_broken) arg) (inr file);
            EvJsonLoads ("{" +:+ str1 DQUOTE +:+ "credential_list")
              (inl (Fault "JSONDecodeError"))]
      /\ stdout (run_of script_broken 3 argv_ok).2 = [EmptyString].
Proof.
  apply (undecodable_file_is_fatal (scripted_os script_broken) 3 argv_ok ∅).
  - apply surjective_pairing.
  - in_list.
Defined.

Lemma index_out_of_range_raises_before_clipboard_witness :
  (activation script_beyond).1 = Raised IndexError
  /\ trace (activation script_beyond).2
     = [EvDoModal APP_NAME (map username table) (inr IDOK);
        EvSelectedItem (inr (Some 2%Z))]
  /\ stdout (activation script_beyond).2 = stdout (init_world ∅)
  /\ clipboard (activation script_beyond).2 = clipboard (init_world ∅)
  /\ clip_open (activation script_beyond).2 = clip_open (init_world ∅).
Proof.
  apply (index_out_of_range_raises_before_clipboard (scripted_os script_beyond) table
           (init_world ∅)).
  - apply surjective_pairing.
  - reflexivity.
  - in_list.
  - right. simpl. lia.
Defined.

Lemma negative_index_counts_from_the_end_witness :
  exists a rest,
    trace (activation script_last).2
    = [EvDoModal APP_NAME (map username table) (inr IDOK);
       EvSelectedItem (inr (Some (-1)%Z)); EvOpenClipboard a] ++ rest
    /\ match a with
       | inl e => (activation script_last).1 = Raised e /\ rest = []
       | inr _ => exists r rest', rest = EvSetClipboardText "p2" CF_TEXT r :: rest'
       end.
Proof.
  apply (negative_index_counts_from_the_end (scripted_os script_last) table
           (init_world ∅) (activation script_last).1 (activation script_last).2
           (trace (activation script_last).2) (-1)%Z
           (mkCredential (JStr "bob") (JStr "p2")) "p2").
  - apply surjective_pairing.
  - reflexivity.
  - in_list.
  - simpl. lia.
  - reflexivity.
  - reflexivity.
Defined.


Lemma clipboard_is_closed_at_exit_witness :
  clip_open (run_of script_busy 3 argv_ok).2 = false
  \/ exists e, EvCloseClipboard (inl e) ∈ trace (run_of script_busy 3 argv_ok).2.
Proof.
  apply (clipboard_is_closed_at_exit (scripted_os script_busy) 3 argv_ok ∅
           (run_of script_busy 3 argv_ok).1).
  apply surjective_pairing.
Defined.

Lemma clipboard_changes_only_by_a_write_witness :
  clipboard (run_of script_cancel 3 argv_ok).2 = ∅.
Proof.
  apply (clipboard_changes_only_by_a_write (scripted_os script_cancel) 3 argv_ok ∅
           (run_of script_cancel 3 argv_ok).1).
  - apply surjective_pairing.
  - intros s f Hin.
    assert (Forall (fun ev => kind_of ev <> KSetClipboardText)
              (trace (run_of script_cancel 3 argv_ok).2)) as Hf.
    { set (t := trace _). vm_compute in t. subst t.
      repeat (apply Forall_cons; split; [discriminate|]). apply Forall_nil_2. }
    by apply (proj1 (Forall_forall _ _) Hf) in Hin.
Defined.

Lemma main_returns_exactly_after_quit_witness :
  (run_of script_select 3 argv_ok).1 = Done tt
  <-> exists pre m u,
        trace (run_of script_select 3 argv_ok).2
        = pre ++ [EvGetMessageA (inr (0%Z, m)); EvUnregisterHotKey 0 (inr u)].
Proof.
  apply (main_returns_exactly_after_quit (scripted_os script_select) 3 argv_ok ∅).
  apply surjective_pairing.
Defined.

Lemma main_ends_when_the_queue_quits_witness :
  exists o w',
    main (scripted_os script_select) 3 argv_ok (init_world ∅) = (o, w')
    /\ o <> Pending
    /\ forall k, main (scripted_os script_select) (3 + k) argv_ok (init_world ∅) = (o, w').
Proof.
  apply (main_ends_when_the_queue_quits (scripted_os script_select) 2 2 argv_ok
           (init_world ∅)).
  - apply (scripted_quits script_select).
  - lia.
Defined.

Lemma one_dialog_for_each_hot_key_press_witness :
  count_events is_dialog (trace (run_of script_select 3 argv_ok).2)
  = count_events is_hot_key_press (trace (run_of script_select 3 argv_ok).2).
Proof.
  apply (one_dialog_for_each_hot_key_press (scripted_os script_select) 3 argv_ok ∅
           (run_of script_select 3 argv_ok).1).
  apply surjective_pairing.
Defined.
